(** * specials-agent: watchlist matching, offer normalisation and reporting

    A shallow embedding of the four scripts of the repository
    ([src/main.py], [src/email_parser.py], [src/pdf_parser.py] and
    [src/specials_checker.py]) and the properties their description states
    about them.

    Conventions of the embedding.
    - A Python [str] is the [string] of the bytes of its UTF-8 encoding:
      concatenation, the substring test, the comparison of two strings and
      the split at a line feed are those of the byte strings, and [Py.len]
      counts code points.
    - A Python [float] is an IEEE 754 binary64 value, a [spec_float] with
      the operations of [SpecFloat] at precision 53 and [emax] 1024.
    - A value decoded from JSON is a [Py.value]; a [dict] whose iteration
      order is observed is an association list in insertion order; the
      [set] of keys seen is a [gset].
    - Exceptions are results of type [Py.result]. Console output, files,
      sent mail and the requests made are the fields of a [Py.world]
      threaded through the functions; what the file system, the mail server
      and the API answer is given by parameters.
    - Functions of Python's runtime whose result depends on Unicode tables
      or on the regular expression engine ([str.lower], [str.strip],
      [re.search], [re.sub], [float] of a [str], [repr]) are parameters of
      the section that uses them.
    - [sorted] is a stable insertion sort. It returns the list Python's
      sort returns whenever the keys of the items are ordered consistently
      by [<]; two prices of one store of which one is NaN are not, and what
      is proved of the order of a report assumes prices that are numbers. *)

From Stdlib Require Import ZArith Lia List String Ascii Bool Permutation Sorted.
From Stdlib Require Import Floats.SpecFloat.
From stdpp Require Import gmap strings list fin_maps pretty.

Open Scope string_scope.
Open Scope list_scope.

Set Warnings "-register-all".

(** ** Python runtime *)

Module Py.

(** [prefix.startswith]: [starts_with p s] holds when [s] begins with [p]. *)
Fixpoint starts_with (p s : string) : bool :=
  match p, s with
  | EmptyString, _ => true
  | String _ _, EmptyString => false
  | String a p', String b s' => if Ascii.eqb a b then starts_with p' s' else false
  end.

(** [needle in hay] on two [str]: the substring test. *)
Fixpoint contains (needle hay : string) : bool :=
  if starts_with needle hay then true
  else match hay with
       | EmptyString => false
       | String _ hay' => contains needle hay'
       end.

(** What the substring test decides. *)
Definition is_substring (needle hay : string) : Prop :=
  exists pre post, hay = pre +:+ needle +:+ post.

(** [sep.join(parts)]. *)
Fixpoint join (sep : string) (parts : list string) : string :=
  match parts with
  | [] => ""
  | [p] => p
  | p :: rest => p +:+ sep +:+ join sep rest
  end.

(** [s * n] on a [str]. *)
Fixpoint repeat_str (s : string) (n : nat) : string :=
  match n with
  | O => ""
  | S n' => s +:+ repeat_str s n'
  end.

(** Truth value of a [str]: the empty string is false. *)
Definition str_truthy (s : string) : bool :=
  match s with EmptyString => false | _ => true end.

(** The line feed, ["\n"]. *)
Definition nl : string := String (ascii_of_nat 10) "".

(** [len(s)]: the number of code points of [s], that is, of the bytes of
    its UTF-8 encoding that are not continuation bytes. *)
Definition is_continuation (c : ascii) : bool :=
  (N.land (N_of_ascii c) 192 =? 128)%N.

Fixpoint len (s : string) : nat :=
  match s with
  | EmptyString => 0
  | String c s' => if is_continuation c then len s' else S (len s')
  end.

(** [s.split(sep)] for a one-character separator. *)
Fixpoint split (sep : ascii) (s : string) : list string :=
  match s with
  | EmptyString => [""]
  | String c s' =>
      if Ascii.eqb c sep then "" :: split sep s'
      else match split sep s' with
           | [] => [String c ""]
           | w :: ws => String c w :: ws
           end
  end.

(** *** Exceptions *)

Inductive exn :=
| ValueError (msg : string)
| TypeError (msg : string)
| AttributeError (msg : string)
| OverflowError (msg : string)
| ImportError (msg : string)
| OSError (msg : string)
| RequestException (msg : string)
| SMTPException (msg : string).

(** [str(e)]. *)
Definition str_exn (e : exn) : string :=
  match e with
  | ValueError m | TypeError m | AttributeError m | OverflowError m
  | ImportError m | OSError m | RequestException m | SMTPException m => m
  end.

Inductive result (A : Type) :=
| Ok (a : A)
| Raise (e : exn).
Arguments Ok {A} a.
Arguments Raise {A} e.

(** *** Floats *)

Definition prec : Z := 53.
Definition emax : Z := 1024.

Definition fadd : spec_float -> spec_float -> spec_float := SFadd prec emax.
Definition fdiv : spec_float -> spec_float -> spec_float := SFdiv prec emax.
Definition flt : spec_float -> spec_float -> bool := SFltb.
Definition fle : spec_float -> spec_float -> bool := SFleb.
Definition feq : spec_float -> spec_float -> bool := SFeqb.

(** The nearest binary64 value of an integer. *)
Definition float_of_Z (z : Z) : spec_float := binary_normalize prec emax z 0 false.

(** The literal [0.01] as a binary64 value, 0x3F847AE147AE147B. *)
Definition float_0_01 : spec_float := S754_finite false 5764607523034235 (-59).

Definition is_nan (x : spec_float) : bool :=
  match x with S754_nan => true | _ => false end.

(** Truth value of a float: zero of either sign is false, NaN is true. *)
Definition float_truthy (x : spec_float) : bool :=
  match x with S754_zero _ => false | _ => true end.

(** [a / b] rounded to the nearest integer, ties to even, for [0 < b]. *)
Definition div_half_even (a b : Z) : Z :=
  let q := (a / b)%Z in
  match (2 * (a mod b) ?= b)%Z with
  | Lt => q
  | Gt => (q + 1)%Z
  | Eq => if Z.even q then q else (q + 1)%Z
  end.

(** The magnitude [m * 2^e] in hundredths, correctly rounded. *)
Definition hundredths (m : positive) (e : Z) : Z :=
  match e with
  | Zneg p => div_half_even (Zpos m * 100) (2 ^ Zpos p)
  | _ => (Zpos m * 100 * 2 ^ e)%Z
  end.

Definition two_digits (n : Z) : string :=
  if (n <? 10)%Z then "0" +:+ pretty n else pretty n.

(** [f"{x:.2f}"]. *)
Definition format_2f (x : spec_float) : string :=
  match x with
  | S754_nan => "nan"
  | S754_infinity s => if s then "-inf" else "inf"
  | S754_zero s => if s then "-0.00" else "0.00"
  | S754_finite s m e =>
      let n := hundredths m e in
      (if s then "-" else "") +:+ pretty (n / 100)%Z +:+ "." +:+ two_digits (n mod 100)%Z
  end.

(** *** Values decoded from JSON *)

Inductive value :=
| VNone
| VBool (b : bool)
| VInt (z : Z)
| VFloat (x : spec_float)
| VStr (s : string)
| VList (items : list value)
| VDict (entries : list (string * value)).

Definition truthy (v : value) : bool :=
  match v with
  | VNone => false
  | VBool b => b
  | VInt z => negb (z =? 0)%Z
  | VFloat x => float_truthy x
  | VStr s => str_truthy s
  | VList items => match items with [] => false | _ => true end
  | VDict entries => match entries with [] => false | _ => true end
  end.

(** [a or b]. *)
Definition or_else (a b : value) : value := if truthy a then a else b.

(** [d.get(key)]: the value bound to the key, [None] when there is none. *)
Fixpoint dict_get (entries : list (string * value)) (key : string) : value :=
  match entries with
  | [] => VNone
  | (k, v) :: rest => if String.eqb k key then v else dict_get rest key
  end.

Definition type_name (v : value) : string :=
  match v with
  | VNone => "NoneType"
  | VBool _ => "bool"
  | VInt _ => "int"
  | VFloat _ => "float"
  | VStr _ => "str"
  | VList _ => "list"
  | VDict _ => "dict"
  end.

Section Conversions.
(** [float(s)] for a [str] and [repr(v)]. *)
Variable float_of_str : string -> result spec_float.
Variable repr : value -> string.

(** [float(v)]. *)
Definition to_float (v : value) : result spec_float :=
  match v with
  | VBool b => Ok (float_of_Z (if b then 1 else 0))
  | VInt z =>
      match float_of_Z z with
      | S754_infinity _ => Raise (OverflowError "int too large to convert to float")
      | x => Ok x
      end
  | VFloat x => Ok x
  | VStr s => float_of_str s
  | VNone | VList _ | VDict _ =>
      Raise (TypeError ("float() argument must be a string or a real number, not '"
                        +:+ type_name v +:+ "'"))
  end.

(** [str(v)]. *)
Definition to_str (v : value) : string :=
  match v with
  | VStr s => s
  | _ => repr v
  end.
End Conversions.

(** *** The world outside the interpreter *)

Record request := {
  req_url : string;
  req_headers : list (string * string);
  req_params : list (string * value)
}.

Record MIMEText := {
  payload : string;
  headers : list (string * string)
}.

(** How the SMTP session of an alert ends: the server accepted the
    message and the session was closed; or connecting, [starttls], [login]
    or [sendmail] raised, and nothing was sent; or [sendmail] returned and
    the [QUIT] on leaving the [with] block then raised. *)
Inductive smtp_outcome :=
| Accepted
| Refused (e : exn)
| AcceptedThenRaised (e : exn).

(** How [urllib.request.urlretrieve(url, filename)] ends: the file holds
    what the URL served; or it raised before the file was opened for
    writing; or it raised after that, the file holding what was written
    until then. *)
Inductive retrieval :=
| Retrieved (content : string)
| NotRetrieved (e : exn)
| Interrupted (written : string) (e : exn).

Record world := {
  stdout : list string;
  files : gmap string string;
  outbox : list MIMEText;
  requests : list request
}.

(** [print(line)]. *)
Definition print (line : string) (w : world) : world :=
  {| stdout := stdout w ++ [line]; files := files w;
     outbox := outbox w; requests := requests w |}.

(** [f.write(data)] on a file opened with mode ["a"]: the data goes after
    what the file holds; a file that does not exist is created. *)
Definition append_file (path data : string) (w : world) : world :=
  {| stdout := stdout w;
     files := <[path := default "" (files w !! path) +:+ data]> (files w);
     outbox := outbox w; requests := requests w |}.

(** What [open(path, "wb")] and the writes to it leave: the file holds
    [data] and nothing of what it held. *)
Definition write_file (path data : string) (w : world) : world :=
  {| stdout := stdout w;
     files := <[path := data]> (files w);
     outbox := outbox w; requests := requests w |}.

Definition deliver (msg : MIMEText) (w : world) : world :=
  {| stdout := stdout w; files := files w;
     outbox := outbox w ++ [msg]; requests := requests w |}.

Definition record_request (r : request) (w : world) : world :=
  {| stdout := stdout w; files := files w;
     outbox := outbox w; requests := requests w ++ [r] |}.

(** *** Dictionaries in insertion order, [sorted] and [min] *)

(** [d[key]] when the key is bound. *)
Fixpoint lookup {A} (key : string) (d : list (string * A)) : option A :=
  match d with
  | [] => None
  | (k, v) :: rest => if String.eqb k key then Some v else lookup key rest
  end.

(** [d[key] = v]: a bound key keeps its place, a new key goes last. *)
Fixpoint assign {A} (key : string) (v : A) (d : list (string * A)) : list (string * A) :=
  match d with
  | [] => [(key, v)]
  | (k, v') :: rest =>
      if String.eqb k key then (k, v) :: rest else (k, v') :: assign key v rest
  end.

(** [d.values()]. *)
Definition values {A} (d : list (string * A)) : list A := map snd d.

(** Insertion of [x] in front of the first item that is not smaller. *)
Fixpoint insert_by {A} (lt : A -> A -> bool) (x : A) (l : list A) : list A :=
  match l with
  | [] => [x]
  | y :: l' => if lt y x then y :: insert_by lt x l' else x :: y :: l'
  end.

(** [sorted(l, key=...)], with [lt] the comparison [<] of the keys. The
    sort of Python is stable; where [lt] orders the items of [l]
    consistently every stable sort returns the same list, the one computed
    here. Where it does not, as with two prices of one store of which one
    is NaN, the merge sort of Python can return another permutation of [l]
    than this insertion sort: what is proved of a sorted list is proved
    for keys that are ordered consistently. *)
Fixpoint sorted {A} (lt : A -> A -> bool) (l : list A) : list A :=
  match l with
  | [] => []
  | x :: l' => insert_by lt x (sorted lt l')
  end.

(** [min(first :: rest, key=...)]: the first item no later item is
    smaller than, scanning from the left. *)
Definition min_by {A} (lt : A -> A -> bool) (first : A) (rest : list A) : A :=
  fold_left (fun best x => if lt x best then x else best) rest first.

(** [sum(len(v) for v in d.values())]. *)
Definition total_len {A} (d : list (string * list A)) : nat :=
  fold_left (fun acc v => acc + length v) (values d) 0.

End Py.

(** ** [src/main.py] and [src/email_parser.py]: the keyword matcher *)

Module Main.
Section Matching.
(** [str.lower]. *)
Variable lower : string -> string.

(** The inner [for term in watchlist] loop of [find_matches]: the item is
    appended at the first term found in it and the loop is left. *)
Fixpoint scan_watchlist (watchlist : list string) (lower_item item : string)
         (matches : list string) : list string :=
  match watchlist with
  | [] => matches
  | term :: rest =>
      if Py.contains (lower term) lower_item
      then matches ++ [item]
      else scan_watchlist rest lower_item item matches
  end.

Definition find_matches (items watchlist : list string) : list string :=
  fold_left
    (fun matches item => scan_watchlist watchlist (lower item) item matches)
    items [].
End Matching.

Section Alerts.
(** Settings read from the environment when the module is loaded. *)
Variables SMTP_SERVER EMAIL_USER EMAIL_PASS EMAIL_TO : string.
Variable SMTP_PORT : Z.
(** [datetime.now().strftime("%Y-%m-%d %H:%M:%S")]. *)
Variable now : string.
(** The exception raised by [open(path, "a")], if any. *)
Variable open_error : string -> option Py.exn.
(** The SMTP session [with smtplib.SMTP(...) as server: starttls, login,
    sendmail] for a message, and how it ends. *)
Variable smtp_session :
  string -> Z -> string -> string -> string -> Py.MIMEText -> Py.smtp_outcome.

Definition _append_to_log (log_file message : string) (w : Py.world) : Py.world :=
  match open_error log_file with
  | None =>
      Py.append_file log_file
        (Py.nl +:+ "[" +:+ now +:+ "]" +:+ Py.nl +:+ message +:+ Py.nl) w
  | Some e =>
      Py.print ("Warning: Could not write to log file " +:+ log_file +:+ ": "
                +:+ Py.str_exn e) w
  end.

(** [if log_file: _append_to_log(log_file, message)]. *)
Definition log_if_set (log_file : option string) (message : string) (w : Py.world)
  : Py.world :=
  match log_file with
  | Some path => if Py.str_truthy path then _append_to_log path message w else w
  | None => w
  end.

(** The lines of the email body. *)
Definition body_lines (store_matches : list (string * list string)) : list string :=
  fold_left
    (fun lines entry =>
       match snd entry with
       | [] => lines
       | _ :: _ =>
           fold_left (fun lines i => lines ++ ["  - " +:+ i]) (snd entry)
                     (lines ++ [fst entry +:+ ":"])
       end)
    store_matches [].

Definition send_email_alert (store_matches : list (string * list string))
           (scrape_test : bool) (log_file : option string) (w : Py.world)
  : Py.result unit * Py.world :=
  let total := Py.total_len store_matches in
  if (total =? 0)%nat then
    let msg := "No matches found; no email sent." in
    let w := Py.print msg w in
    (Py.Ok tt, if scrape_test then log_if_set log_file msg w else w)
  else
    let body := Py.join Py.nl (body_lines store_matches) in
    if scrape_test then
      let output_text :=
        Py.join Py.nl
          [ Py.nl +:+ Py.repeat_str "=" 60;
            "SCRAPE TEST MODE - Email Preview:";
            Py.repeat_str "=" 60;
            "Subject: Coles/Woolworths Sale Alert";
            "From: " +:+ EMAIL_USER;
            "To: " +:+ EMAIL_TO;
            "";
            body;
            Py.repeat_str "=" 60;
            "[SCRAPE TEST] Would have sent email with " +:+ pretty total +:+ " match(es).";
            "" ] in
      (Py.Ok tt, log_if_set log_file output_text (Py.print output_text w))
    else
      let msg := {| Py.payload := body;
                    Py.headers := [("Subject", "Coles/Woolworths Sale Alert");
                                   ("From", EMAIL_USER); ("To", EMAIL_TO)] |} in
      match smtp_session SMTP_SERVER SMTP_PORT EMAIL_USER EMAIL_PASS EMAIL_TO msg with
      | Py.Refused e => (Py.Raise e, w)
      | Py.AcceptedThenRaised e => (Py.Raise e, Py.deliver msg w)
      | Py.Accepted =>
          (Py.Ok tt,
           Py.print ("Sent email with " +:+ pretty total +:+ " match(es).")
                    (Py.deliver msg w))
      end.
End Alerts.

Record Store := {
  store_name : string;
  store_url : string;
  product_selector : string
}.

Definition WATCHLIST : list string :=
  ["Tim Tams"; "Nescafe"; "Coca-Cola"; "Laundry detergent"].

Definition STORES : list Store :=
  [ {| store_name := "Coles";
       store_url := "https://www.coles.com.au/catalogues-and-specials";
       product_selector := "div.product-tile, article[class*=product]" |};
    {| store_name := "Woolworths";
       store_url := "https://www.woolworths.com.au/shop/catalogue";
       product_selector := "div.product-tile, article[class*=product]" |} ].

Section Scraper.
(** [str.lower] and [str.strip()]. *)
Variables lower strip : string -> string.
(** The browser session of [fetch_items]: the [inner_text()] of each
    element the selector finds on the page, [None] included, or the
    exception that ended the session. *)
Variable page_texts : string -> string -> Py.result (list (option string)).
Variables SMTP_SERVER EMAIL_USER EMAIL_PASS EMAIL_TO : string.
Variable SMTP_PORT : Z.
Variable now : string.
Variable open_error : string -> option Py.exn.
Variable smtp_session :
  string -> Z -> string -> string -> string -> Py.MIMEText -> Py.smtp_outcome.
(** [SALE_ALERT_SCRAPE_TEST] is set, [--scrape-test] is in [sys.argv], and
    the value of [SALE_ALERT_SCRAPE_TEST_LOG]. *)
Variables SCRAPE_TEST_MODE argv_scrape_test : bool.
Variable SCRAPE_TEST_LOG : string.

(** The body of [for el in elements]. *)
Definition keep_text (items : list string) (el : option string) : list string :=
  let txt := strip (default "" el) in
  if Py.str_truthy txt then items ++ [txt] else items.

Definition fetch_items (url product_selector : string) : Py.result (list string) :=
  match page_texts url product_selector with
  | Py.Ok elements => Py.Ok (fold_left keep_text elements [])
  | Py.Raise e => Py.Raise e
  end.

Definition log (log_file message : string) : Py.world -> Py.world :=
  _append_to_log now open_error log_file message.

(** [for idx, item in enumerate(items, start)]: one log entry per item. *)
Fixpoint log_numbered (log_file : string) (idx : nat) (items : list string)
         (w : Py.world) : Py.world :=
  match items with
  | [] => w
  | item :: rest =>
      log_numbered log_file (S idx) rest
        (log log_file ("  " +:+ pretty idx +:+ ". " +:+ item) w)
  end.

(** What the scrape test logs about the items of a store. *)
Definition log_scraped (log_file store_name : string) (items : list string)
           (w : Py.world) : Py.world :=
  let scrape_info := Py.nl +:+ "Total items scraped from " +:+ store_name +:+ ": "
                     +:+ pretty (length items) in
  let w := Py.print scrape_info w in
  if Py.str_truthy log_file then
    let w := log log_file scrape_info w in
    match items with
    | [] => w
    | _ :: _ =>
        let w := log log_file "All scraped items:" w in
        let w := log_numbered log_file 1 (take 50 items) w in
        if (50 <? length items)%nat
        then log log_file ("  ... and " +:+ pretty (length items - 50) +:+ " more items") w
        else w
    end
  else w.

(** What the scrape test logs about the matches of a store. *)
Definition log_matches (log_file match_info : string) (matches : list string)
           (w : Py.world) : Py.world :=
  let w := log log_file match_info w in
  match matches with
  | [] => w
  | _ :: _ =>
      fold_left (fun w m => log log_file ("  - " +:+ m) w) matches
                (log log_file "Matched items:" w)
  end.

(** The body of [for store in STORES]; an exception of [fetch_items] ends
    the loop. *)
Definition scrape_store (scrape_test_mode : bool) (log_file : string)
           (st : Py.result (list (string * list string)) * Py.world) (store : Store)
  : Py.result (list (string * list string)) * Py.world :=
  match st with
  | (Py.Raise e, w) => (Py.Raise e, w)
  | (Py.Ok results, w) =>
      let w := Py.print ("Fetching: " +:+ store_name store +:+ " ...") w in
      let w := if scrape_test_mode && Py.str_truthy log_file
               then log log_file ("--- Fetching: " +:+ store_name store +:+ " ---") w
               else w in
      match fetch_items (store_url store) (product_selector store) with
      | Py.Raise e => (Py.Raise e, w)
      | Py.Ok items =>
          let w := if scrape_test_mode
                   then log_scraped log_file (store_name store) items w
                   else w in
          let matches := find_matches lower items WATCHLIST in
          let results := Py.assign (store_name store) matches results in
          let match_info := "Found " +:+ pretty (length matches) +:+ " matches for "
                            +:+ store_name store +:+ "." in
          let w := Py.print match_info w in
          let w := if scrape_test_mode && Py.str_truthy log_file
                   then log_matches log_file match_info matches w
                   else w in
          (Py.Ok results, w)
      end
  end.

Definition main (w : Py.world) : Py.result unit * Py.world :=
  let scrape_test_mode := SCRAPE_TEST_MODE || argv_scrape_test in
  let log_file := SCRAPE_TEST_LOG in
  let w :=
    if scrape_test_mode then
      let w := Py.print (Py.nl +:+ Py.repeat_str "!" 60) w in
      let w := Py.print "SCRAPE TEST MODE ENABLED - No emails will be sent" w in
      let w := if Py.str_truthy log_file
               then Py.print ("Output will be logged to: " +:+ log_file) w
               else w in
      let w := Py.print (Py.repeat_str "!" 60 +:+ Py.nl) w in
      log log_file "=== SCRAPE TEST SESSION STARTED ===" w
    else w in
  match fold_left (scrape_store scrape_test_mode log_file) STORES (Py.Ok [], w) with
  | (Py.Raise e, w) => (Py.Raise e, w)
  | (Py.Ok results, w) =>
      match send_email_alert SMTP_SERVER EMAIL_USER EMAIL_PASS EMAIL_TO SMTP_PORT
              now open_error smtp_session results scrape_test_mode
              (if scrape_test_mode then Some log_file else None) w with
      | (Py.Raise e, w) => (Py.Raise e, w)
      | (Py.Ok _, w) =>
          let w := if scrape_test_mode && Py.str_truthy log_file
                   then log log_file "=== SCRAPE TEST SESSION COMPLETED ===" w
                   else w in
          (Py.Ok tt, Py.print "Done." w)
      end
  end.
End Scraper.
End Main.

Module EmailParser.
Section Matching.
Variable lower : string -> string.

Fixpoint scan_watchlist (watchlist : list string) (lower_product product : string)
         (matches : list string) : list string :=
  match watchlist with
  | [] => matches
  | term :: rest =>
      if Py.contains (lower term) lower_product
      then matches ++ [product]
      else scan_watchlist rest lower_product product matches
  end.

Definition find_matches (products watchlist : list string) : list string :=
  fold_left
    (fun matches product =>
       scan_watchlist watchlist (lower product) product matches)
    products [].
End Matching.
End EmailParser.

(** ** [src/pdf_parser.py] *)

Module PdfParser.

(** The dictionary built for a catalogue line: the keys ['save'] and
    ['discount'] are there only when the line has them. *)
Record Product := {
  name : string;
  price : string;
  text : string;
  save : option string;
  discount : option string
}.

Record CataloguePDF := {
  pdf_path : string;
  text_content : string;
  products : list Product
}.

(** The key under which two products count as the same. *)
Definition dedup_key (lower : string -> string) (p : Product) : string * string :=
  (lower (name p), price p).

Section Parser.
(** [str.lower] and [str.strip()]. *)
Variables lower strip : string -> string.
(** [price_pattern.search(line)]: the two groups of the first match. *)
Variable price_search : string -> option (string * string).
(** [price_pattern.sub('', line)], [re.sub(r'\s+', ' ', s)] and
    [s.strip('•-*→')]. *)
Variables price_sub collapse_spaces strip_bullets : string -> string.
(** [save_pattern.search(line)] and [percentage_pattern.search(line)]:
    the group of the first match. *)
Variables save_search percentage_search : string -> option string.
Variables PDFPLUMBER_AVAILABLE PYPDF2_AVAILABLE : bool.
(** The two text extractors, which read the file and print progress. *)
Variables extract_text_pdfplumber extract_text_pypdf2
  : CataloguePDF -> Py.world -> Py.result string * Py.world.
Variable now : string.
Variable open_error : string -> option Py.exn.

Definition set_text_content (self : CataloguePDF) (t : string) : CataloguePDF :=
  {| pdf_path := pdf_path self; text_content := t; products := products self |}.

Definition set_products (self : CataloguePDF) (ps : list Product) : CataloguePDF :=
  {| pdf_path := pdf_path self; text_content := text_content self; products := ps |}.

Definition extract_text (self : CataloguePDF) (w : Py.world)
  : Py.result string * CataloguePDF * Py.world :=
  if PDFPLUMBER_AVAILABLE then
    match extract_text_pdfplumber self w with
    | (Py.Ok t, w1) => (Py.Ok t, set_text_content self t, w1)
    | (Py.Raise e, w1) => (Py.Raise e, self, w1)
    end
  else if PYPDF2_AVAILABLE then
    match extract_text_pypdf2 self w with
    | (Py.Ok t, w1) => (Py.Ok t, set_text_content self t, w1)
    | (Py.Raise e, w1) => (Py.Raise e, self, w1)
    end
  else
    (Py.Raise (Py.ImportError "No PDF library available. Install pdfplumber or pypdf2"),
     self, w).

(** The body of [for i, line in enumerate(lines)]. *)
Definition parse_line (products : list Product) (line : string) : list Product :=
  let line := strip line in
  if negb (Py.str_truthy line) || (Py.len line <? 3)%nat then products
  else
    match price_search line with
    | None => products
    | Some (units, cents) =>
        let price := "$" +:+ units +:+ "." +:+ cents in
        let product_name := strip (price_sub line) in
        let product_name := collapse_spaces product_name in
        let product_name := strip_bullets product_name in
        if Py.str_truthy product_name && (3 <? Py.len product_name)%nat then
          products ++
            [ {| name := product_name;
                 price := price;
                 text := line;
                 save := option_map (fun g => "$" +:+ g) (save_search line);
                 discount := option_map (fun g => g +:+ "%") (percentage_search line) |} ]
        else products
    end.

(** The body of [for p in products] that removes duplicates. *)
Definition keep_unseen (st : gset (string * string) * list Product) (p : Product)
  : gset (string * string) * list Product :=
  let key := dedup_key lower p in
  if decide (key ∈ st.1) then st
  else ({[ key ]} ∪ st.1, st.2 ++ [p]).

Definition unique_products (products : list Product) : list Product :=
  (fold_left keep_unseen products (∅, [])).2.

(** What [parse_products] computes from the text it holds. *)
Definition products_of_text (text_content : string) : list Product :=
  unique_products (fold_left parse_line (Py.split (ascii_of_nat 10) text_content) []).

Definition parse_products (self : CataloguePDF) (w : Py.world)
  : Py.result (list Product) * CataloguePDF * Py.world :=
  let '(r, self, w) :=
    if Py.str_truthy (text_content self) then (Py.Ok (text_content self), self, w)
    else extract_text self w in
  match r with
  | Py.Raise e => (Py.Raise e, self, w)
  | Py.Ok _ =>
      let unique := products_of_text (text_content self) in
      let self := set_products self unique in
      (Py.Ok (products self), self,
       Py.print ("  ✓ Found " +:+ pretty (length (products self))
                 +:+ " products with prices") w)
  end.

(** [f"{product['name']} {product.get('text', '')}".lower()]. *)
Definition product_text (product : Product) : string :=
  lower (name product +:+ " " +:+ text product).

(** The inner [for term in watchlist] loop of the method [find_matches]. *)
Fixpoint scan_watchlist (watchlist : list string) (text : string) (product : Product)
         (matches : list Product) : list Product :=
  match watchlist with
  | [] => matches
  | term :: rest =>
      if Py.contains (lower term) text
      then matches ++ [product]
      else scan_watchlist rest text product matches
  end.

(** [CataloguePDF.find_matches]: the products are parsed first when the
    object holds none. *)
Definition find_matches (self : CataloguePDF) (watchlist : list string) (w : Py.world)
  : Py.result (list Product) * CataloguePDF * Py.world :=
  let '(r, self, w) :=
    match products self with
    | [] => parse_products self w
    | _ :: _ => (Py.Ok (products self), self, w)
    end in
  match r with
  | Py.Raise e => (Py.Raise e, self, w)
  | Py.Ok _ =>
      (Py.Ok (fold_left
                (fun matches product =>
                   scan_watchlist watchlist (product_text product) product matches)
                (products self) []),
       self, w)
  end.

(** [urllib.request.urlretrieve]. *)
Variable urlretrieve : string -> string -> Py.retrieval.

Definition download_pdf (url save_path : string) (w : Py.world) : bool * Py.world :=
  let w := Py.print ("Downloading PDF from " +:+ url +:+ "...") w in
  match urlretrieve url save_path with
  | Py.Retrieved content =>
      (true, Py.print ("  ✓ Saved to " +:+ save_path) (Py.write_file save_path content w))
  | Py.NotRetrieved e =>
      (false, Py.print ("  ✗ Error downloading PDF: " +:+ Py.str_exn e) w)
  | Py.Interrupted written e =>
      (false, Py.print ("  ✗ Error downloading PDF: " +:+ Py.str_exn e)
                       (Py.write_file save_path written w))
  end.

(** [os.path.exists] and [Path(pdf_path).stem]. *)
Variable path_exists : string -> bool.
Variable stem : string -> string.

(** The lines printed for a match: its number and name, then its price
    with the saving and the discount it has, printed piece by piece on one
    line. *)
Definition print_match (st : nat * Py.world) (m : Product) : nat * Py.world :=
  let '(i, w) := st in
  let w := Py.print (pretty i +:+ ". " +:+ name m) w in
  let w := Py.print ("   Price: " +:+ price m
                     +:+ match save m with
                         | Some s => " (Save " +:+ s +:+ ")"
                         | None => ""
                         end
                     +:+ match discount m with
                         | Some d => " (" +:+ d +:+ " off)"
                         | None => ""
                         end) w in
  (S i, w).

Definition print_results (catalogue : CataloguePDF) (matches : list Product)
           (w : Py.world) : Py.world :=
  let w := Py.print (Py.nl +:+ Py.repeat_str "=" 60) w in
  let w := Py.print "RESULTS" w in
  let w := Py.print (Py.repeat_str "=" 60 +:+ Py.nl) w in
  let w := Py.print ("Total products found: " +:+ pretty (length (products catalogue))) w in
  let w := Py.print ("Watchlist matches: " +:+ pretty (length matches) +:+ Py.nl) w in
  match matches with
  | [] => w
  | _ :: _ => Py.print "" (fold_left print_match matches (1, w)).2
  end.

(** The [try] block of [parse_catalogue_pdf]. *)
Definition parse_and_match (pdf_path : string) (watchlist : list string) (w : Py.world)
  : Py.result (list Product) * CataloguePDF * Py.world :=
  let catalogue := {| pdf_path := pdf_path; text_content := ""; products := [] |} in
  match extract_text catalogue w with
  | (Py.Raise e, catalogue, w) => (Py.Raise e, catalogue, w)
  | (Py.Ok _, catalogue, w) =>
      match parse_products catalogue w with
      | (Py.Raise e, catalogue, w) => (Py.Raise e, catalogue, w)
      | (Py.Ok _, catalogue, w) => find_matches catalogue watchlist w
      end
  end.

(** [parse_catalogue_pdf]; the traceback goes to the error stream, which is
    not part of the world. *)
Definition parse_catalogue_pdf (pdf_path : string) (watchlist : list string)
           (verbose : bool) (w : Py.world) : list (string * list Product) * Py.world :=
  let w :=
    if verbose then
      let w := Py.print (Py.nl +:+ Py.repeat_str "=" 60) w in
      let w := Py.print "PDF CATALOGUE PARSER" w in
      let w := Py.print (Py.repeat_str "=" 60 +:+ Py.nl) w in
      let w := Py.print ("File: " +:+ pdf_path) w in
      Py.print ("Watchlist: " +:+ Py.join ", " watchlist +:+ Py.nl) w
    else w in
  if negb (path_exists pdf_path) then
    ([], Py.print ("❌ File not found: " +:+ pdf_path) w)
  else
    match parse_and_match pdf_path watchlist w with
    | (Py.Ok matches, catalogue, w) =>
        let w := if verbose then print_results catalogue matches w else w in
        ([(stem pdf_path, matches)], w)
    | (Py.Raise e, _, w) =>
        ([], Py.print ("❌ Error parsing PDF: " +:+ Py.str_exn e) w)
    end.

(** The data written for one catalogue and its matches. *)
Definition log_entry (entry : string * list Product) : list string :=
  [fst entry +:+ ":" +:+ Py.nl]
  ++ map (fun m => "  - " +:+ name m +:+ " @ " +:+ price m +:+ Py.nl) (snd entry)
  ++ [Py.nl].

Definition save_results_to_log (results : list (string * list Product))
           (log_file : string) (w : Py.world) : Py.world :=
  match open_error log_file with
  | None =>
      let writes :=
        [ Py.nl +:+ Py.repeat_str "=" 60 +:+ Py.nl;
          "PDF Parsing Results - " +:+ now +:+ Py.nl;
          Py.repeat_str "=" 60 +:+ Py.nl +:+ Py.nl ]
        ++ concat (map log_entry results) in
      Py.print ("✓ Results saved to " +:+ log_file)
               (fold_left (fun w data => Py.append_file log_file data w) writes w)
  | Some e =>
      Py.print ("Warning: Could not save results to log: " +:+ Py.str_exn e) w
  end.
End Parser.
End PdfParser.

(** ** [src/specials_checker.py] *)

Module SpecialsChecker.

Record WatchItem := {
  name : string;
  match_keywords : list string;
  only_half_price : bool
}.

Record Offer := {
  watch_name : string;
  store : string;
  product_title : string;
  price : spec_float;
  size : option string;
  url : string;
  was_price : option spec_float;
  is_half_price : bool
}.

Definition COLES_HOST : string := "coles-product-price-api.p.rapidapi.com".
Definition WOOLIES_HOST : string := "woolworths-products-api.p.rapidapi.com".
Definition COLES_SEARCH_URL : string := "https://" +:+ COLES_HOST +:+ "/products/search".
Definition WOOLIES_SEARCH_URL : string := "https://" +:+ WOOLIES_HOST +:+ "/products/search".

(** [a or b or ... or z] over dictionary lookups: the first true value,
    and the value of the last lookup when none is true. *)
Fixpoint first_truthy (raw : list (string * Py.value)) (keys : list string) : Py.value :=
  match keys with
  | [] => Py.VNone
  | [k] => Py.dict_get raw k
  | k :: rest => Py.or_else (Py.dict_get raw k) (first_truthy raw rest)
  end.

(** [price <= was_price / 2 + 0.01]. *)
Definition at_most_half_plus_tolerance (price was : spec_float) : bool :=
  Py.fle price (Py.fadd (Py.fdiv was (Py.float_of_Z 2)) Py.float_0_01).

(** The flag computed at the end of both normalisers: [if was_price:]
    holds for a value that is neither [None] nor zero. *)
Definition half_price_flag (price : spec_float) (was_price : option spec_float) : bool :=
  match was_price with
  | Some was => if Py.float_truthy was then at_most_half_plus_tolerance price was else false
  | None => false
  end.

Section Checker.
Variable float_of_str : string -> Py.result spec_float.
Variable repr : Py.value -> string.
(** The [X-RapidAPI-Key] read from the environment. *)
Variable RAPIDAPI_KEY : string.
(** [requests.get], [raise_for_status] and [resp.json()]: the answer to a
    request, given the requests made before it. *)
Variable respond : list Py.request -> Py.request -> Py.result Py.value.

Definition BASE_HEADERS : list (string * string) :=
  [("X-RapidAPI-Key", RAPIDAPI_KEY)].

Definition rapidapi_get (url host : string) (params : list (string * Py.value))
           (w : Py.world) : Py.result Py.value * Py.world :=
  let r := {| Py.req_url := url;
              Py.req_headers := BASE_HEADERS ++ [("X-RapidAPI-Host", host)];
              Py.req_params := params |} in
  (respond (Py.requests w) r, Py.record_request r w).

Definition search_params (keyword : string) (page_size : Z) : list (string * Py.value) :=
  [("query", Py.VStr keyword); ("pageSize", Py.VInt page_size); ("pageNumber", Py.VInt 1)].

Definition search_coles (keyword : string) : Py.world -> Py.result Py.value * Py.world :=
  rapidapi_get COLES_SEARCH_URL COLES_HOST (search_params keyword 10).

Definition search_woolies (keyword : string) : Py.world -> Py.result Py.value * Py.world :=
  rapidapi_get WOOLIES_SEARCH_URL WOOLIES_HOST (search_params keyword 10).

Definition extract_products_from_response (data : Py.value) : list Py.value :=
  match data with
  | Py.VDict entries =>
      match Py.dict_get entries "results" with
      | Py.VList cand => cand
      | _ =>
          match Py.dict_get entries "data" with
          | Py.VList cand => cand
          | _ =>
              match Py.dict_get entries "products" with
              | Py.VList cand => cand
              | _ => [data]
              end
          end
      end
  | Py.VList items => items
  | _ => []
  end.

(** [float(was_val) if was_val not in (None, "") else None]. *)
Definition was_price_of (was_val : Py.value) : Py.result (option spec_float) :=
  match was_val with
  | Py.VNone | Py.VStr EmptyString => Py.Ok None
  | _ =>
      match Py.to_float float_of_str was_val with
      | Py.Ok x => Py.Ok (Some x)
      | Py.Raise e => Py.Raise e
      end
  end.

(** [str(size) if size is not None else ""]. *)
Definition size_of (size : Py.value) : string :=
  match size with
  | Py.VNone => ""
  | _ => Py.to_str repr size
  end.

(** The body shared by the two normalisers once the title and the price
    value are chosen. *)
Definition build_offer (watch_name store_name : string) (raw : list (string * Py.value))
           (title price_val : Py.value) (no_price : string) : Py.result Offer :=
  match price_val with
  | Py.VNone => Py.Raise (Py.ValueError (no_price +:+ repr (Py.VDict raw)))
  | _ =>
      match Py.to_float float_of_str price_val with
      | Py.Raise e => Py.Raise e
      | Py.Ok price =>
          match was_price_of (first_truthy raw
                   ["wasPrice"; "WasPrice"; "originalPrice"; "PreviousPrice"]) with
          | Py.Raise e => Py.Raise e
          | Py.Ok was_price =>
              let size := first_truthy raw ["size"; "Size"; "packageSize"; "PackageSize"] in
              let url := Py.or_else
                           (first_truthy raw ["url"; "Url"; "productUrl"; "ProductUrl"])
                           (Py.VStr "") in
              Py.Ok {| watch_name := watch_name;
                       store := store_name;
                       product_title := Py.to_str repr title;
                       price := price;
                       size := Some (size_of size);
                       url := Py.to_str repr url;
                       was_price := was_price;
                       is_half_price := half_price_flag price was_price |}
          end
      end
  end.

(** [raw.get] on something that is not a [dict]. *)
Definition no_get (raw : Py.value) : Py.exn :=
  Py.AttributeError ("'" +:+ Py.type_name raw +:+ "' object has no attribute 'get'").

Definition normalise_coles_product (watch_name : string) (raw : Py.value) : Py.result Offer :=
  match raw with
  | Py.VDict entries =>
      let title := Py.or_else (first_truthy entries ["name"; "productName"; "ProductName"])
                              (Py.VStr "Unknown Coles product") in
      let price_val := first_truthy entries ["currentPrice"; "price"; "CurrentPrice"] in
      build_offer watch_name "Coles" entries title price_val
                  "No price field found in Coles product: "
  | _ => Py.Raise (no_get raw)
  end.

Definition normalise_woolies_product (watch_name : string) (raw : Py.value) : Py.result Offer :=
  match raw with
  | Py.VDict entries =>
      let title := Py.or_else
                     (first_truthy entries
                        ["name"; "productName"; "ProductName"; "description"; "Description"])
                     (Py.VStr "Unknown Woolworths product") in
      let price_val := first_truthy entries ["currentPrice"; "price"; "CurrentPrice"; "Price"] in
      build_offer watch_name "Woolworths" entries title price_val
                  "No price field found in Woolies product: "
  | _ => Py.Raise (no_get raw)
  end.

(** The loop [for raw in ...: offers.append(normalise(name, raw))] inside
    a [try]: offers appended before an exception stay in [offers]. *)
Fixpoint append_normalised (normalise : Py.value -> Py.result Offer)
         (raws : list Py.value) (offers : list Offer) : list Offer * option Py.exn :=
  match raws with
  | [] => (offers, None)
  | raw :: rest =>
      match normalise raw with
      | Py.Ok o => append_normalised normalise rest (offers ++ [o])
      | Py.Raise e => (offers, Some e)
      end
  end.

(** One [try ... except Exception as e: print(...)] block of the loop. *)
Definition try_store (label : string)
           (search : string -> Py.world -> Py.result Py.value * Py.world)
           (normalise : Py.value -> Py.result Offer)
           (kw : string) (st : list Offer * Py.world) : list Offer * Py.world :=
  let '(offers, w) := st in
  let warn e := Py.print ("[WARN] " +:+ label +:+ " search failed for '" +:+ kw +:+ "': "
                          +:+ Py.str_exn e) in
  match search kw w with
  | (Py.Raise e, w1) => (offers, warn e w1)
  | (Py.Ok data, w1) =>
      match append_normalised normalise (extract_products_from_response data) offers with
      | (offers1, None) => (offers1, w1)
      | (offers1, Some e) => (offers1, warn e w1)
      end
  end.

Definition search_keyword (watch_item : WatchItem) (st : list Offer * Py.world)
           (kw : string) : list Offer * Py.world :=
  try_store "Woolies" search_woolies (normalise_woolies_product (name watch_item)) kw
    (try_store "Coles" search_coles (normalise_coles_product (name watch_item)) kw st).

Definition find_offers_for_watch_item (watch_item : WatchItem) (w : Py.world)
  : list Offer * Py.world :=
  let '(offers, w1) := fold_left (search_keyword watch_item) (match_keywords watch_item) ([], w) in
  if only_half_price watch_item
  then (List.filter is_half_price offers, w1)
  else (offers, w1).
End Checker.

(** *** The report *)

(** [(a.store, a.price) < (b.store, b.price)], the comparison of the sort
    keys: tuples are compared at their first unequal components. *)
Definition key_lt (a b : Offer) : bool :=
  if String.eqb (store a) (store b)
  then if Py.feq (price a) (price b) then false else Py.flt (price a) (price b)
  else String.ltb (store a) (store b).

Definition price_lt (a b : Offer) : bool := Py.flt (price a) (price b).

(** One step of the loop that fills [cheapest_by_store]. *)
Definition keep_cheapest (cheapest_by_store : list (string * Offer)) (o : Offer)
  : list (string * Offer) :=
  match Py.lookup (store o) cheapest_by_store with
  | None => Py.assign (store o) o cheapest_by_store
  | Some c =>
      if Py.flt (price o) (price c)
      then Py.assign (store o) o cheapest_by_store
      else cheapest_by_store
  end.

Definition was_str (o : Offer) : string :=
  match was_price o with
  | Some was => if Py.float_truthy was then "(was $" +:+ Py.format_2f was +:+ ")" else ""
  | None => ""
  end.

Definition half_str (o : Offer) : string :=
  if is_half_price o then " [HALF PRICE?]" else "".

Definition size_str (o : Offer) : string :=
  match size o with
  | Some s => if Py.str_truthy s then " – " +:+ s else ""
  | None => ""
  end.

Definition url_str (o : Offer) : string :=
  if Py.str_truthy (url o) then " – " +:+ url o else "".

Definition offer_line (o : Offer) : string :=
  "- " +:+ store o +:+ ": " +:+ product_title o +:+ " – $" +:+ Py.format_2f (price o)
  +:+ " " +:+ was_str o +:+ half_str o +:+ size_str o +:+ url_str o.

Definition cheapest_line (cheapest : Offer) : string :=
  "**Cheapest overall:** " +:+ store cheapest +:+ " at $" +:+ Py.format_2f (price cheapest).

(** The body of [for watch_name, offers in all_offers.items()]. *)
Definition report_watch (lines : list string) (entry : string * list Offer) : list string :=
  let '(watch_name, offers) := entry in
  let lines := lines ++ ["## " +:+ watch_name] in
  match offers with
  | [] => lines ++ ["No matching products or specials found." +:+ Py.nl]
  | _ :: _ =>
      let offers_sorted := Py.sorted key_lt offers in
      let cheapest_by_store := fold_left keep_cheapest offers_sorted [] in
      let lines := fold_left (fun lines o => lines ++ [offer_line o]) offers_sorted lines in
      let lines :=
        if (2 <=? length cheapest_by_store)%nat
        then match Py.values cheapest_by_store with
             | first :: rest => lines ++ [cheapest_line (Py.min_by price_lt first rest)]
             | [] => lines
             end
        else lines in
      lines ++ [""]
  end.

Definition report_lines (all_offers : list (string * list Offer)) : list string :=
  fold_left report_watch all_offers [].

Definition build_report (all_offers : list (string * list Offer)) : string :=
  Py.join Py.nl (report_lines all_offers).
End SpecialsChecker.

(** * Specifications *)

Import SpecialsChecker.

(** ** The keyword matcher *)

(** An item is kept when some watchlist term, lowercased, occurs in the
    lowercased item. *)
Definition matches_watchlist (lower : string -> string) (watchlist : list string)
           (item : string) : bool :=
  existsb (fun term => Py.contains (lower term) (lower item)) watchlist.

(** [str.lower] on ASCII text, for the examples. *)
Definition ascii_lower_char (c : ascii) : ascii :=
  let n := nat_of_ascii c in
  if (65 <=? n)%nat && (n <=? 90)%nat then ascii_of_nat (n + 32) else c.

Fixpoint ascii_lower (s : string) : string :=
  match s with
  | EmptyString => EmptyString
  | String c s' => String (ascii_lower_char c) (ascii_lower s')
  end.

(** ** Field fallbacks of the normalisers *)

(** The first true value among the values bound to the keys, in order. *)
Definition first_true_value (raw : list (string * Py.value)) (keys : list string)
  : option Py.value :=
  List.find Py.truthy (map (Py.dict_get raw) keys).

Definition was_keys : list string := ["wasPrice"; "WasPrice"; "originalPrice"; "PreviousPrice"].
Definition size_keys : list string := ["size"; "Size"; "packageSize"; "PackageSize"].
Definition url_keys : list string := ["url"; "Url"; "productUrl"; "ProductUrl"].

(** The offer built from a price and a previous price that converted. *)
Definition offer_of (repr : Py.value -> string)
           (watch_name store_name : string) (raw : list (string * Py.value))
           (title : Py.value) (price : spec_float) (was_price : option spec_float) : Offer :=
  {| watch_name := watch_name;
     store := store_name;
     product_title := Py.to_str repr title;
     price := price;
     size := Some (size_of repr (first_truthy raw size_keys));
     url := Py.to_str repr (Py.or_else (first_truthy raw url_keys) (Py.VStr ""));
     was_price := was_price;
     is_half_price := half_price_flag price was_price |}.

(** ** The half-price flag *)

(** [price <= was / 2 + 0.01] in binary64 arithmetic: the quotient and the
    sum are rounded to nearest, and 0.01 is the double nearest to 1/100. *)
Definition within_tolerance_of_half (price was : spec_float) : Prop :=
  Py.fle price (Py.fadd (Py.fdiv was (Py.float_of_Z 2)) Py.float_0_01) = true.

(** The flag as the data model words it: set exactly when there is a
    previous price and the price is within the tolerance of its half. *)
Definition flag_iff_was_present (o : Offer) : Prop :=
  (is_half_price o = true <->
   exists was, was_price o = Some was /\ within_tolerance_of_half (price o) was)
  /\ (was_price o = None -> is_half_price o = false).

(** Neither [0.0] nor [-0.0]. *)
Definition not_zero (x : spec_float) : Prop := forall sign, x <> S754_zero sign.

(** The flag as the code sets it: a previous price of zero counts as none. *)
Definition flag_iff_was_nonzero (o : Offer) : Prop :=
  (is_half_price o = true <->
   exists was, was_price o = Some was /\ not_zero was /\
               within_tolerance_of_half (price o) was)
  /\ (was_price o = None -> is_half_price o = false)
  /\ (forall sign, was_price o = Some (S754_zero sign) -> is_half_price o = false).

(** The price is at most half the previous price, with no tolerance. *)
Definition at_most_half (o : Offer) : Prop :=
  exists was, was_price o = Some was /\
              Py.fle (price o) (Py.fdiv was (Py.float_of_Z 2)) = true.

(** ** The Coles normaliser *)

Definition coles_title_keys : list string := ["name"; "productName"; "ProductName"].
Definition coles_price_keys : list string := ["currentPrice"; "price"; "CurrentPrice"].

(** The record binds the key. *)
Definition has_field (raw : list (string * Py.value)) (key : string) : Prop :=
  exists v, In (key, v) raw.

Definition has_price_field (raw : list (string * Py.value)) : Prop :=
  exists key, In key coles_price_keys /\ has_field raw key.

(** The first true value under the keys, or the fallback. *)
Definition first_true_or (fallback : Py.value) (raw : list (string * Py.value))
           (keys : list string) : Py.value :=
  match first_true_value raw keys with
  | Some v => v
  | None => fallback
  end.

(** The value whose conversion gives the price of a Coles offer. *)
Definition coles_price_value (raw : list (string * Py.value)) : Py.value :=
  first_true_or (Py.dict_get raw "CurrentPrice") raw coles_price_keys.

(** ** Searches of a watch item *)

(** The offers of the products before the first one that fails to
    normalise, and the exception of that one. *)
Fixpoint normalised_prefix (normalise : Py.value -> Py.result Offer)
         (raws : list Py.value) : list Offer :=
  match raws with
  | [] => []
  | raw :: rest =>
      match normalise raw with
      | Py.Ok o => o :: normalised_prefix normalise rest
      | Py.Raise _ => []
      end
  end.

Fixpoint first_failure (normalise : Py.value -> Py.result Offer)
         (raws : list Py.value) : option Py.exn :=
  match raws with
  | [] => None
  | raw :: rest =>
      match normalise raw with
      | Py.Ok _ => first_failure normalise rest
      | Py.Raise e => Some e
      end
  end.

(** One search of a store for a keyword: the offers it added and the
    exception that ended it, if any. *)
Record attempt := {
  label : string;
  keyword : string;
  kept : list Offer;
  failure : option Py.exn
}.

Definition succeeded (a : attempt) : bool :=
  match failure a with None => true | Some _ => false end.

Section Attempts.
Variable float_of_str : string -> Py.result spec_float.
Variable repr : Py.value -> string.
Variable RAPIDAPI_KEY : string.
Variable respond : list Py.request -> Py.request -> Py.result Py.value.

Definition search_request (url host kw : string) : Py.request :=
  {| Py.req_url := url;
     Py.req_headers := [("X-RapidAPI-Key", RAPIDAPI_KEY); ("X-RapidAPI-Host", host)];
     Py.req_params := [("query", Py.VStr kw); ("pageSize", Py.VInt 10);
                       ("pageNumber", Py.VInt 1)] |}.

Definition coles_request : string -> Py.request :=
  search_request COLES_SEARCH_URL COLES_HOST.
Definition woolies_request : string -> Py.request :=
  search_request WOOLIES_SEARCH_URL WOOLIES_HOST.

Definition outcome (label kw : string) (normalise : Py.value -> Py.result Offer)
           (response : Py.result Py.value) : attempt :=
  match response with
  | Py.Raise e => {| label := label; keyword := kw; kept := []; failure := Some e |}
  | Py.Ok data =>
      let raws := extract_products_from_response data in
      {| label := label; keyword := kw;
         kept := normalised_prefix normalise raws;
         failure := first_failure normalise raws |}
  end.

(** The searches made for the keywords, Coles before Woolworths for each,
    after the requests of [history]. *)
Fixpoint attempts (watch_name : string) (kws : list string) (history : list Py.request)
  : list attempt :=
  match kws with
  | [] => []
  | kw :: rest =>
      outcome "Coles" kw (normalise_coles_product float_of_str repr watch_name)
              (respond history (coles_request kw))
      :: outcome "Woolies" kw (normalise_woolies_product float_of_str repr watch_name)
                 (respond (history ++ [coles_request kw]) (woolies_request kw))
      :: attempts watch_name rest (history ++ [coles_request kw; woolies_request kw])
  end.

Definition attempts_of (watch_item : WatchItem) (w : Py.world) : list attempt :=
  attempts (name watch_item) (match_keywords watch_item) (Py.requests w).
End Attempts.

(** The warning printed for a search that failed. *)
Definition warning (a : attempt) : list string :=
  match failure a with
  | Some e => ["[WARN] " +:+ label a +:+ " search failed for '" +:+ keyword a +:+ "': "
               +:+ Py.str_exn e]
  | None => []
  end.

(** The world after one search: its request is recorded and its warning,
    if it failed, is printed. *)
Definition after_attempt (a : attempt) (r : Py.request) (w : Py.world) : Py.world :=
  {| Py.stdout := Py.stdout w ++ warning a;
     Py.files := Py.files w;
     Py.outbox := Py.outbox w;
     Py.requests := Py.requests w ++ [r] |}.

(** The offers of all searches, and those of the searches that ended
    without an exception. *)
Definition offers_found (atts : list attempt) : list Offer := flat_map kept atts.

Definition offers_of_succeeded (atts : list attempt) : list Offer :=
  flat_map (fun a => if succeeded a then kept a else []) atts.

(** ** A run against a Coles answer with a product that has no price *)

Definition example_float_of_str (s : string) : Py.result spec_float :=
  Py.Raise (Py.ValueError ("could not convert string to float: '" +:+ s +:+ "'")).

Definition example_repr (v : Py.value) : string := "<" +:+ Py.type_name v +:+ ">".

Definition example_products : list Py.value :=
  [ Py.VDict [("name", Py.VStr "Tim Tam Original 200g");
              ("price", Py.VInt 2); ("wasPrice", Py.VInt 5)];
    Py.VDict [("name", Py.VStr "Tim Tam Slams 175g")];
    Py.VDict [("name", Py.VStr "Tim Tam Double Coat 200g"); ("price", Py.VInt 4)] ].

(** Coles answers with three products, the second without a price; the
    Woolworths request fails. *)
Definition example_respond (history : list Py.request) (r : Py.request)
  : Py.result Py.value :=
  if String.eqb (Py.req_url r) COLES_SEARCH_URL
  then Py.Ok (Py.VDict [("results", Py.VList example_products)])
  else Py.Raise (Py.RequestException "503 Server Error").

Definition example_watch_item (only_half : bool) : WatchItem :=
  {| name := "Tim Tams"; match_keywords := ["tim tam"]; only_half_price := only_half |}.

Definition empty_world : Py.world :=
  {| Py.stdout := []; Py.files := ∅; Py.outbox := []; Py.requests := [] |}.

Definition example_offer : Offer :=
  {| watch_name := "Tim Tams"; store := "Coles";
     product_title := "Tim Tam Original 200g";
     price := Py.float_of_Z 2; size := Some ""; url := "";
     was_price := Some (Py.float_of_Z 5); is_half_price := true |}.

(** ** Duplicate products of a catalogue *)

(** The first entry of a list of products filed under a key. *)
Definition first_with_key (lower : string -> string) (k : string * string)
           (ps : list PdfParser.Product) : option PdfParser.Product :=
  List.find (fun p => bool_decide (PdfParser.dedup_key lower p = k)) ps.

(** [unique] is [products] without the entries whose key occurred before:
    no key twice, the order of [products], and under every key the entry
    that came first. *)
Definition first_occurrences (lower : string -> string)
           (products unique : list PdfParser.Product) : Prop :=
  NoDup (map (PdfParser.dedup_key lower) unique)
  /\ unique `sublist_of` products
  /\ forall k, first_with_key lower k unique = first_with_key lower k products.

(** The pair two entries are compared by: the lowercased name and the
    price. *)
Definition name_and_price (lower : string -> string) (p : PdfParser.Product)
  : string * string :=
  (lower (PdfParser.name p), PdfParser.price p).

(** The entry at position [i] of [parsed], unless an entry at an earlier
    position has the same lowercased name and price. *)
Definition first_occurrence_at (lower : string -> string)
           (parsed : list PdfParser.Product) (i : nat) : list PdfParser.Product :=
  match parsed !! i with
  | Some p =>
      if bool_decide (name_and_price lower p ∈ map (name_and_price lower) (take i parsed))
      then []
      else [p]
  | None => []
  end.

(** The entries of [parsed] that are the first with their lowercased name
    and price, in the order of [parsed]. *)
Definition first_occurrences_of (lower : string -> string)
           (parsed : list PdfParser.Product) : list PdfParser.Product :=
  flat_map (first_occurrence_at lower parsed) (seq 0 (length parsed)).

(** [unique] has no two entries with the same lowercased name and price,
    and is [parsed] with every entry removed that repeats the lowercased
    name and price of an earlier one. *)
Definition keeps_first_occurrences (lower : string -> string)
           (parsed unique : list PdfParser.Product) : Prop :=
  NoDup (map (name_and_price lower) unique)
  /\ unique `sublist_of` parsed
  /\ unique = first_occurrences_of lower parsed.

(** ** Log files *)

(** The file system of [w'] is that of [w] with data appended to the one
    file [path], if anything changed at all. *)
Definition appends_only_to (path : string) (w w' : Py.world) : Prop :=
  (forall other, other <> path -> Py.files w' !! other = Py.files w !! other)
  /\ exists data,
      default "" (Py.files w' !! path) = default "" (Py.files w !! path) +:+ data.

Definition example_now : string := "2025-01-06 09:00:00".

Definition example_match : PdfParser.Product :=
  {| PdfParser.name := "Tim Tam Original 200g";
     PdfParser.price := "$3.00";
     PdfParser.text := "Tim Tam Original 200g $3.00";
     PdfParser.save := None;
     PdfParser.discount := None |}.

Definition example_duplicate : PdfParser.Product :=
  {| PdfParser.name := "TIM TAM ORIGINAL 200G";
     PdfParser.price := "$3.00";
     PdfParser.text := "TIM TAM ORIGINAL 200G $3.00 Save $1.50";
     PdfParser.save := Some "$1.50";
     PdfParser.discount := None |}.

Definition example_other_price : PdfParser.Product :=
  {| PdfParser.name := "Tim Tam Original 200g";
     PdfParser.price := "$2.50";
     PdfParser.text := "Tim Tam Original 200g $2.50";
     PdfParser.save := None;
     PdfParser.discount := None |}.

Definition no_match_notice : string := "No matches found; no email sent.".

(** ** The report *)

(** [a] need not come after [b]: [b] is not smaller under [lt]. *)
Definition not_after {A} (lt : A -> A -> bool) (a b : A) : Prop := lt b a = false.

(** [a] does not come after [b] in the order of the keys (store, price). *)
Definition key_le : Offer -> Offer -> Prop := not_after key_lt.

Definition price_le (a b : Offer) : Prop := Py.fle (price a) (price b) = true.

Definition price_not_nan (o : Offer) : Prop := Py.is_nan (price o) = false.

(** The number of distinct stores among the offers. *)
Definition distinct_stores (offers : list Offer) : nat :=
  base.size (list_to_set (map store offers) : gset string).

(** [c] is an offer of its store that no offer of that store undercuts. *)
Definition cheapest_in_store (offers : list Offer) (c : Offer) : Prop :=
  In c offers /\ forall o, In o offers -> store o = store c -> price_le c o.

(** [c] is a minimum-price offer among the cheapest offers of the stores. *)
Definition cheapest_overall (offers : list Offer) (c : Offer) : Prop :=
  cheapest_in_store offers c /\ forall o, cheapest_in_store offers o -> price_le c o.

(** [(a.store, a.price) <= (b.store, b.price)]: the store of [a] comes
    before that of [b] in the order of strings, or the stores are the same
    and the price of [a] is at most that of [b]. *)
Definition by_store_then_price (a b : Offer) : Prop :=
  String.ltb (store a) (store b) = true
  \/ (store a = store b /\ Py.fle (price a) (price b) = true).

(** The lines [block] report a watch item as the description says: the
    offers sorted by store and price, every offer before all those it
    precedes in that order, then the cheapest-overall line when the offers
    come from two stores or more. *)
Definition block_reports (entry : string * list Offer) (block : list string) : Prop :=
  match entry.2 with
  | [] => block = ["## " +:+ entry.1; "No matching products or specials found." +:+ Py.nl]
  | _ :: _ =>
      exists listed tail,
        Permutation listed entry.2
        /\ StronglySorted by_store_then_price listed
        /\ block = ["## " +:+ entry.1] ++ map offer_line listed ++ tail ++ [""]
        /\ ((distinct_stores entry.2 < 2 /\ tail = [])
            \/ (2 <= distinct_stores entry.2 /\
                exists c, cheapest_overall entry.2 c /\ tail = [cheapest_line c]))
  end.

Definition report_claim (all_offers : list (string * list Offer)) : Prop :=
  exists blocks,
    Forall2 block_reports all_offers blocks
    /\ report_lines all_offers = concat blocks.

(** Two offers, one with a price that is not a number. *)
Definition nan_offer : Offer :=
  {| watch_name := "Tim Tams"; store := "Coles";
     product_title := "Tim Tam Original 200g";
     price := S754_nan; size := Some ""; url := "";
     was_price := None; is_half_price := false |}.

Definition one_dollar_offer : Offer :=
  {| watch_name := "Tim Tams"; store := "Woolworths";
     product_title := "Tim Tam Original 200g";
     price := Py.float_of_Z 1; size := Some ""; url := "";
     was_price := None; is_half_price := false |}.

(** After the offers [done], [cheapest_by_store] binds each store seen to an
    offer of that store that none of them undercuts. *)
Definition store_minima (done : list Offer) (d : list (string * Offer)) : Prop :=
  NoDup (map fst d)
  /\ (forall s, In s (map fst d) <-> In s (map store done))
  /\ (forall s c, In (s, c) d -> store c = s /\ cheapest_in_store done c).

(** ** The Woolworths normaliser *)

Definition woolies_title_keys : list string :=
  ["name"; "productName"; "ProductName"; "description"; "Description"].
Definition woolies_price_keys : list string :=
  ["currentPrice"; "price"; "CurrentPrice"; "Price"].

(** The value whose conversion gives the price of a Woolworths offer. *)
Definition woolies_price_value (raw : list (string * Py.value)) : Py.value :=
  first_true_or (Py.dict_get raw "Price") raw woolies_price_keys.

(** ** What every offer of a search carries *)

Definition offer_of_watch_item (watch_item : WatchItem) (o : Offer) : Prop :=
  watch_name o = name watch_item
  /\ (store o = "Coles" \/ store o = "Woolworths")
  /\ size o <> None
  /\ is_half_price o = half_price_flag (price o) (was_price o).

(** ** Offers with the same sort key *)

(** The offer is of store [s] and its price equals [p]. *)
Definition has_sort_key (s : string) (p : spec_float) (o : Offer) : bool :=
  String.eqb (store o) s && Py.feq (price o) p.

(** A second Woolworths offer at 1.00, under another title. *)
Definition cheaper_title_offer : Offer :=
  {| watch_name := "Tim Tams"; store := "Woolworths";
     product_title := "Tim Tam Double Coat 200g";
     price := Py.float_of_Z 1; size := Some ""; url := "";
     was_price := None; is_half_price := false |}.

(** ** The alert and the scrape *)

(** The lines of the email body for one store. *)
Definition body_block (entry : string * list string) : list string :=
  match entry.2 with
  | [] => []
  | _ :: _ => (entry.1 +:+ ":") :: map (fun i => "  - " +:+ i) entry.2
  end.

Definition has_matches (entry : string * list string) : bool :=
  match entry.2 with [] => false | _ :: _ => true end.

Definition coles_store : Main.Store :=
  {| Main.store_name := "Coles";
     Main.store_url := "https://www.coles.com.au/catalogues-and-specials";
     Main.product_selector := "div.product-tile, article[class*=product]" |}.

Definition woolworths_store : Main.Store :=
  {| Main.store_name := "Woolworths";
     Main.store_url := "https://www.woolworths.com.au/shop/catalogue";
     Main.product_selector := "div.product-tile, article[class*=product]" |}.

(** The message [send_email_alert] builds for the matches. *)
Definition alert_message (EMAIL_USER EMAIL_TO : string)
           (store_matches : list (string * list string)) : Py.MIMEText :=
  {| Py.payload := Py.join Py.nl (Main.body_lines store_matches);
     Py.headers := [("Subject", "Coles/Woolworths Sale Alert");
                    ("From", EMAIL_USER); ("To", EMAIL_TO)] |}.

(** From [w] to [w'] no mail was sent, no request made, and the files
    changed by data appended to the file [path] at most. *)
Definition logs_only (path : string) (w w' : Py.world) : Prop :=
  Py.outbox w' = Py.outbox w
  /\ Py.requests w' = Py.requests w
  /\ appends_only_to path w w'.

(** A page with three product tiles, one of them without text. *)
Definition example_page_texts (url product_selector : string)
  : Py.result (list (option string)) :=
  Py.Ok [Some "Tim Tams Original 200g $3.00"; None; Some "Full Cream Milk 2L $3.10"].

(** ** The matcher and the parser of a catalogue *)

(** A product is kept when some watchlist term, lowercased, occurs in its
    lowercased name and line. *)
Definition product_matches (lower : string -> string) (watchlist : list string)
           (p : PdfParser.Product) : bool :=
  existsb (fun term => Py.contains (lower term) (PdfParser.product_text lower p)) watchlist.

(** What [parse_line] guarantees of a product it appends. *)
Definition parsed_from_line (price_search : string -> option (string * string))
           (save_search percentage_search : string -> option string)
           (p : PdfParser.Product) : Prop :=
  PdfParser.name p <> ""
  /\ 3 < Py.len (PdfParser.name p)
  /\ 3 <= Py.len (PdfParser.text p)
  /\ (exists units cents,
         price_search (PdfParser.text p) = Some (units, cents)
         /\ PdfParser.price p = "$" +:+ units +:+ "." +:+ cents)
  /\ PdfParser.save p = option_map (fun g => "$" +:+ g) (save_search (PdfParser.text p))
  /\ PdfParser.discount p
     = option_map (fun g => g +:+ "%") (percentage_search (PdfParser.text p)).

(** The character is not in the string. *)
Fixpoint without_char (c : ascii) (s : string) : Prop :=
  match s with
  | EmptyString => True
  | String c' s' => c' <> c /\ without_char c s'
  end.

(** The line [parse_products] prints when it found no product. *)
Definition found_no_products : string := "  ✓ Found 0 products with prices".

(** The world after the lines were printed, one after the other. *)
Definition print_lines (lines : list string) (w : Py.world) : Py.world :=
  fold_left (fun w line => Py.print line w) lines w.

(** What [parse_catalogue_pdf] prints first when it is verbose. *)
Definition parser_banner (pdf_path : string) (watchlist : list string) : list string :=
  [ Py.nl +:+ Py.repeat_str "=" 60;
    "PDF CATALOGUE PARSER";
    Py.repeat_str "=" 60 +:+ Py.nl;
    "File: " +:+ pdf_path;
    "Watchlist: " +:+ Py.join ", " watchlist +:+ Py.nl ].

(** An extractor that finds no text in any file and prints one line. *)
Definition example_extractor (self : PdfParser.CataloguePDF) (w : Py.world)
  : Py.result string * Py.world :=
  (Py.Ok "", Py.print "Extracting text from PDF using pdfplumber..." w).

(** * Proofs *)

(** ** The substring test *)

Lemma append_cons (a : ascii) (p q : string) :
  String a p +:+ q = String a (p +:+ q).
Proof. reflexivity. Qed.

Lemma append_empty_l (q : string) : "" +:+ q = q.
Proof. reflexivity. Qed.

Lemma starts_with_spec (p s : string) :
  Py.starts_with p s = true <-> exists post, s = p +:+ post.
Proof.
  revert s. induction p as [|a p IH]; intros s; simpl.
  - split; [intros _; now exists s | reflexivity].
  - destruct s as [|b s].
    + split; [discriminate|].
      intros [post H]. rewrite append_cons in H. discriminate.
    + destruct (Ascii.eqb_spec a b) as [->|Hab].
      * rewrite IH. split; intros [post H]; exists post.
        -- now rewrite append_cons, H.
        -- rewrite append_cons in H. now inversion H.
      * split; [discriminate|].
        intros [post H]. rewrite append_cons in H. inversion H; congruence.
Qed.

Lemma contains_spec (needle hay : string) :
  Py.contains needle hay = true <-> Py.is_substring needle hay.
Proof.
  unfold Py.is_substring. split.
  - induction hay as [|c hay IH]; simpl.
    + destruct (Py.starts_with needle "") eqn:E; [|discriminate].
      intros _. apply starts_with_spec in E as [post E]. now exists "", post.
    + destruct (Py.starts_with needle (String c hay)) eqn:E.
      * intros _. apply starts_with_spec in E as [post E]. now exists "", post.
      * intros H. destruct (IH H) as (pre & post & ->).
        now exists (String c pre), post.
  - intros (pre & post & ->). induction pre as [|c pre IH].
    + assert (E : Py.starts_with needle (needle +:+ post) = true)
        by (apply starts_with_spec; now exists post).
      rewrite append_empty_l. destruct (needle +:+ post); simpl; now rewrite E.
    + rewrite append_cons. simpl. now destruct (Py.starts_with needle _).
Qed.

(** ** C1: the keyword matcher *)


Lemma matches_watchlist_spec lower watchlist item :
  matches_watchlist lower watchlist item = true <->
  exists term, In term watchlist /\ Py.is_substring (lower term) (lower item).
Proof.
  unfold matches_watchlist. rewrite existsb_exists.
  split; intros (term & Hin & H); exists term; split; auto; now apply contains_spec.
Qed.

Lemma main_scan_watchlist_eq lower watchlist item matches :
  Main.scan_watchlist lower watchlist (lower item) item matches =
  if matches_watchlist lower watchlist item then matches ++ [item] else matches.
Proof.
  unfold matches_watchlist.
  induction watchlist as [|term rest IH]; simpl; [reflexivity|].
  destruct (Py.contains (lower term) (lower item)); simpl; auto.
Qed.

Lemma email_scan_watchlist_eq lower watchlist item matches :
  EmailParser.scan_watchlist lower watchlist (lower item) item matches =
  if matches_watchlist lower watchlist item then matches ++ [item] else matches.
Proof.
  unfold matches_watchlist.
  induction watchlist as [|term rest IH]; simpl; [reflexivity|].
  destruct (Py.contains (lower term) (lower item)); simpl; auto.
Qed.

Lemma fold_append_filter {A} (keep : A -> bool) (step : list A -> A -> list A) :
  (forall acc x, step acc x = if keep x then acc ++ [x] else acc) ->
  forall l acc, fold_left step l acc = acc ++ List.filter keep l.
Proof.
  intros Hstep. induction l as [|x l IH]; intros acc; simpl.
  - now rewrite app_nil_r.
  - rewrite IH, Hstep. destruct (keep x); [now rewrite <- app_assoc | reflexivity].
Qed.

Lemma bool_filter_sublist {A} (keep : A -> bool) (l : list A) :
  List.filter keep l `sublist_of` l.
Proof.
  induction l as [|x l IH]; simpl; [constructor|].
  destruct (keep x); now constructor.
Qed.

Example find_matches_on_a_scrape :
  Main.find_matches ascii_lower
    ["Tim Tams Original 200g $3.00"; "Full Cream Milk 2L $3.10"; "NESCAFE Gold 100g $8.00"]
    ["Tim Tams"; "Nescafe"; "tams"]
  = ["Tim Tams Original 200g $3.00"; "NESCAFE Gold 100g $8.00"].
Proof. reflexivity. Qed.

Example empty_keyword_matches_every_item :
  EmailParser.find_matches ascii_lower ["Full Cream Milk 2L $3.10"; "Bread $2.00"] [""]
  = ["Full Cream Milk 2L $3.10"; "Bread $2.00"].
Proof. reflexivity. Qed.

(** C1. Both copies of [find_matches] return exactly the items that contain
    a watchlist keyword, case-insensitively, in input order, each
    occurrence once. *)
Theorem find_matches_keeps_matching_items
        (lower : string -> string) (items watchlist : list string) :
  Main.find_matches lower items watchlist
    = List.filter (matches_watchlist lower watchlist) items
  /\ EmailParser.find_matches lower items watchlist
    = List.filter (matches_watchlist lower watchlist) items
  /\ (forall item,
        In item (Main.find_matches lower items watchlist) <->
        In item items /\
        exists term, In term watchlist /\
                     Py.is_substring (lower term) (lower item))
  /\ Main.find_matches lower items watchlist `sublist_of` items
  /\ (forall item,
        count_occ string_dec (Main.find_matches lower items watchlist) item
        <= count_occ string_dec items item).
Proof.
  assert (Hm : Main.find_matches lower items watchlist
               = List.filter (matches_watchlist lower watchlist) items).
  { unfold Main.find_matches.
    rewrite (fold_append_filter (matches_watchlist lower watchlist)); [reflexivity|].
    intros acc x. apply main_scan_watchlist_eq. }
  assert (He : EmailParser.find_matches lower items watchlist
               = List.filter (matches_watchlist lower watchlist) items).
  { unfold EmailParser.find_matches.
    rewrite (fold_append_filter (matches_watchlist lower watchlist)); [reflexivity|].
    intros acc x. apply email_scan_watchlist_eq. }
  rewrite Hm, He. split; [reflexivity|]. split; [reflexivity|].
  split; [|split].
  - intros item. rewrite filter_In, matches_watchlist_spec. tauto.
  - apply bool_filter_sublist.
  - intros item. clear Hm He. induction items as [|x l IH]; simpl; [lia|].
    destruct (matches_watchlist lower watchlist x); simpl;
      destruct (string_dec x item); lia.
Qed.

(** ** Field fallbacks of the normalisers *)



Lemma first_truthy_find raw keys :
  first_truthy raw keys =
  match first_true_value raw keys with
  | Some v => v
  | None => List.last (map (Py.dict_get raw) keys) Py.VNone
  end.
Proof.
  unfold first_true_value.
  induction keys as [|k rest IH]; [reflexivity|].
  destruct rest as [|k' rest].
  - simpl. now destruct (Py.truthy (Py.dict_get raw k)).
  - change (first_truthy raw (k :: k' :: rest))
      with (Py.or_else (Py.dict_get raw k) (first_truthy raw (k' :: rest))).
    rewrite IH. unfold Py.or_else.
    change (map (Py.dict_get raw) (k :: k' :: rest))
      with (Py.dict_get raw k :: map (Py.dict_get raw) (k' :: rest)).
    cbn [List.find]. destruct (Py.truthy (Py.dict_get raw k)); [reflexivity|].
    now destruct (List.find Py.truthy (map (Py.dict_get raw) (k' :: rest))).
Qed.

Lemma last_in_nonempty {A} (x : A) (l : list A) (d : A) :
  In (List.last (x :: l) d) (x :: l).
Proof.
  revert x. induction l as [|y l IH]; intros x; [now left|].
  right. apply IH.
Qed.

Lemma first_true_value_truthy raw keys v :
  first_true_value raw keys = Some v -> Py.truthy v = true.
Proof. intros H. now apply find_some in H. Qed.

Lemma or_else_first_truthy raw keys fallback :
  Py.or_else (first_truthy raw keys) fallback =
  match first_true_value raw keys with
  | Some v => v
  | None => fallback
  end.
Proof.
  rewrite first_truthy_find. unfold Py.or_else.
  destruct (first_true_value raw keys) as [v|] eqn:E.
  - now rewrite (first_true_value_truthy _ _ _ E).
  - unfold first_true_value in E.
    assert (Hall : forall x, In x (map (Py.dict_get raw) keys) -> Py.truthy x = false)
      by (intros x; now apply find_none).
    destruct (map (Py.dict_get raw) keys) as [|x l] eqn:El; [reflexivity|].
    rewrite Hall; [reflexivity|]. apply last_in_nonempty.
Qed.

(** ** What a normaliser returns *)

Section Normalisers.
Variable float_of_str : string -> Py.result spec_float.
Variable repr : Py.value -> string.



Lemma build_offer_cases watch_name store_name raw title price_val no_price :
  let result := build_offer float_of_str repr watch_name store_name raw title price_val no_price in
  (price_val = Py.VNone /\
   result = Py.Raise (Py.ValueError (no_price +:+ repr (Py.VDict raw))))
  \/ (price_val <> Py.VNone /\ exists e,
        Py.to_float float_of_str price_val = Py.Raise e /\ result = Py.Raise e)
  \/ (price_val <> Py.VNone /\ exists price e,
        Py.to_float float_of_str price_val = Py.Ok price /\
        was_price_of float_of_str (first_truthy raw was_keys) = Py.Raise e /\
        result = Py.Raise e)
  \/ (price_val <> Py.VNone /\ exists price was_price,
        Py.to_float float_of_str price_val = Py.Ok price /\
        was_price_of float_of_str (first_truthy raw was_keys) = Py.Ok was_price /\
        result = Py.Ok (offer_of repr watch_name store_name raw title price was_price)).
Proof.
  intros result. subst result. unfold build_offer.
  assert (Hd : price_val = Py.VNone \/ price_val <> Py.VNone)
    by (destruct price_val; (now left) || (right; discriminate)).
  destruct Hd as [->|Hne]; [left; now split|].
  right.
  assert (Hb : build_offer float_of_str repr watch_name store_name raw title price_val no_price
               = match Py.to_float float_of_str price_val with
                 | Py.Raise e => Py.Raise e
                 | Py.Ok price =>
                     match was_price_of float_of_str (first_truthy raw was_keys) with
                     | Py.Raise e => Py.Raise e
                     | Py.Ok was_price =>
                         Py.Ok (offer_of repr watch_name store_name raw title price was_price)
                     end
                 end)
    by (unfold build_offer; destruct price_val; [congruence|reflexivity..]).
  unfold build_offer in Hb. rewrite Hb. clear Hb.
  destruct (Py.to_float float_of_str price_val) as [price|e] eqn:Ep.
  - right. destruct (was_price_of float_of_str (first_truthy raw was_keys)) as [wp|e] eqn:Ew.
    + right. split; [assumption|]. now exists price, wp.
    + left. split; [assumption|]. now exists price, e.
  - left. split; [assumption|]. now exists e.
Qed.

(** Every offer either normaliser returns carries the flag computed from
    its own price and previous price. *)
Lemma normalised_flag watch_name raw o :
  normalise_coles_product float_of_str repr watch_name raw = Py.Ok o \/
  normalise_woolies_product float_of_str repr watch_name raw = Py.Ok o ->
  is_half_price o = half_price_flag (price o) (was_price o).
Proof.
  unfold normalise_coles_product, normalise_woolies_product.
  intros [H|H]; destruct raw as [| | | | | |entries]; try discriminate;
    match type of H with
    | build_offer _ _ ?w ?s ?r ?t ?p ?m = _ =>
        destruct (build_offer_cases w s r t p m)
          as [[_ E]|[(_ & e & _ & E)|[(_ & pr & e & _ & _ & E)|(_ & pr & wp & _ & _ & E)]]];
        cbv zeta in E; rewrite E in H; try discriminate
    end;
    injection H as <-; reflexivity.
Qed.
End Normalisers.

(** ** C2 and C3: the half-price flag *)

(** C2, as worded, fails on a record whose previous price is zero: the
    previous price is present and the price is within the tolerance of its
    half, yet the flag is not set. *)
Lemma zero_was_price_is_not_flagged :
  exists o,
    (forall float_of_str repr,
        normalise_coles_product float_of_str repr "Tim Tams"
          (Py.VDict [("CurrentPrice", Py.VInt 0); ("PreviousPrice", Py.VInt 0)])
        = Py.Ok o)
    /\ ~ flag_iff_was_present o.
Proof.
  exists {| watch_name := "Tim Tams"; store := "Coles";
            product_title := "Unknown Coles product";
            price := S754_zero false; size := Some ""; url := "";
            was_price := Some (S754_zero false); is_half_price := false |}.
  split; [intros; reflexivity|].
  intros [[_ H] _].
  assert (E : false = true); [|discriminate E].
  apply H. eexists. split; reflexivity.
Qed.

Lemma float_truthy_not_zero (x : spec_float) :
  Py.float_truthy x = true <-> not_zero x.
Proof.
  unfold not_zero. destruct x as [s| | |s m e]; simpl; split; try discriminate; auto.
  intros H. now destruct (H s).
Qed.

(** C2, amended. The flag of a normalised offer is set exactly when the
    previous price is present and not zero and the price is at most half
    of it plus 0.01, computed as [price <= was_price / 2 + 0.01] in
    binary64 arithmetic; with no previous price, or with a previous price
    of zero, the flag is not set. *)
Theorem half_price_flag_iff_nonzero_was
        (float_of_str : string -> Py.result spec_float) (repr : Py.value -> string)
        (watch_name : string) (raw : Py.value) (o : Offer) :
  normalise_coles_product float_of_str repr watch_name raw = Py.Ok o \/
  normalise_woolies_product float_of_str repr watch_name raw = Py.Ok o ->
  flag_iff_was_nonzero o.
Proof.
  intros H. apply normalised_flag in H. unfold flag_iff_was_nonzero.
  rewrite H. unfold half_price_flag, at_most_half_plus_tolerance, within_tolerance_of_half.
  split; [|split].
  - destruct (was_price o) as [was|].
    + destruct (Py.float_truthy was) eqn:T.
      * split.
        -- intros Hle. exists was. split; [reflexivity|].
           split; [now apply float_truthy_not_zero | exact Hle].
        -- intros (was' & [= <-] & _ & Hle). exact Hle.
      * split; [discriminate|].
        intros (was' & [= <-] & T' & _). apply float_truthy_not_zero in T'. congruence.
    + split; [discriminate|]. intros (was' & E & _). discriminate.
  - now intros ->.
  - now intros sign ->.
Qed.

Lemma half_price_flag_iff_nonzero_was_witness :
  flag_iff_was_nonzero
    {| watch_name := "Tim Tams"; store := "Woolworths";
       product_title := "Tim Tam Original 200g";
       price := Py.float_of_Z 2; size := Some "200g"; url := "";
       was_price := Some (Py.float_of_Z 5); is_half_price := true |}.
Proof.
  apply (half_price_flag_iff_nonzero_was
           (fun _ => Py.Raise (Py.ValueError "")) (fun _ => "")
           "Tim Tams"
           (Py.VDict [("description", Py.VStr "Tim Tam Original 200g");
                      ("Price", Py.VInt 2); ("WasPrice", Py.VInt 5);
                      ("size", Py.VStr "200g")])).
  right. reflexivity.
Defined.

(** C3, as worded, fails on an offer at 5.00 that was 9.99: the flag is
    set although 5.00 exceeds 4.995. *)
Lemma flagged_offer_above_half :
  exists o,
    (forall float_of_str repr,
        normalise_coles_product float_of_str repr "Tim Tams"
          (Py.VDict [("name", Py.VStr "Tim Tam Original 200g");
                     ("price", Py.VInt 5);
                     ("wasPrice",
                      Py.VFloat (Py.fdiv (Py.float_of_Z 999) (Py.float_of_Z 100)))])
        = Py.Ok o)
    /\ is_half_price o = true
    /\ ~ at_most_half o.
Proof.
  exists {| watch_name := "Tim Tams"; store := "Coles";
            product_title := "Tim Tam Original 200g";
            price := Py.float_of_Z 5; size := Some ""; url := "";
            was_price := Some (Py.fdiv (Py.float_of_Z 999) (Py.float_of_Z 100));
            is_half_price := true |}.
  split; [intros; reflexivity|]. split; [reflexivity|].
  intros (was & [= <-] & H). vm_compute in H. discriminate.
Qed.

(** C3, amended. A normalised offer whose flag is set has a previous price
    that is not zero and a price of at most half of it plus the tolerance
    of 0.01, in binary64 arithmetic. *)
Theorem flagged_offer_within_tolerance
        (float_of_str : string -> Py.result spec_float) (repr : Py.value -> string)
        (watch_name : string) (raw : Py.value) (o : Offer) :
  normalise_coles_product float_of_str repr watch_name raw = Py.Ok o \/
  normalise_woolies_product float_of_str repr watch_name raw = Py.Ok o ->
  is_half_price o = true ->
  exists was,
    was_price o = Some was
    /\ Py.float_truthy was = true
    /\ Py.fle (price o) (Py.fadd (Py.fdiv was (Py.float_of_Z 2)) Py.float_0_01) = true.
Proof.
  intros H Hflag. apply normalised_flag in H. rewrite H in Hflag.
  unfold half_price_flag in Hflag.
  destruct (was_price o) as [was|]; [|discriminate].
  destruct (Py.float_truthy was) eqn:T; [|discriminate].
  now exists was.
Qed.

Lemma flagged_offer_within_tolerance_witness :
  exists was,
    Some (Py.fdiv (Py.float_of_Z 999) (Py.float_of_Z 100)) = Some was
    /\ Py.float_truthy was = true
    /\ Py.fle (Py.float_of_Z 5)
              (Py.fadd (Py.fdiv was (Py.float_of_Z 2)) Py.float_0_01) = true.
Proof.
  apply (flagged_offer_within_tolerance
           (fun _ => Py.Raise (Py.ValueError "")) (fun _ => "")
           "Tim Tams"
           (Py.VDict [("name", Py.VStr "Tim Tam Original 200g");
                      ("price", Py.VInt 5);
                      ("wasPrice",
                       Py.VFloat (Py.fdiv (Py.float_of_Z 999) (Py.float_of_Z 100)))])
           {| watch_name := "Tim Tams"; store := "Coles";
              product_title := "Tim Tam Original 200g";
              price := Py.float_of_Z 5; size := Some ""; url := "";
              was_price := Some (Py.fdiv (Py.float_of_Z 999) (Py.float_of_Z 100));
              is_half_price := true |}).
  - left. reflexivity.
  - reflexivity.
Defined.

(** ** C5: the Coles normaliser *)

Lemma first_truthy_or raw keys fallback :
  Py.or_else (first_truthy raw keys) fallback = first_true_or fallback raw keys.
Proof. apply or_else_first_truthy. Qed.

Lemma coles_price_value_eq raw :
  first_truthy raw coles_price_keys = coles_price_value raw.
Proof. apply first_truthy_find. Qed.

(** C5, as worded, fails on a record whose only price field is zero: the
    field is present, yet the error for a missing price is raised. It
    fails as well on a record whose price is a nested object: the field is
    present, no offer is returned, and the error is that of [float]. *)
Lemma zero_price_is_reported_missing :
  has_price_field [("name", Py.VStr "Tim Tam Original 200g"); ("currentPrice", Py.VInt 0)]
  /\ (forall float_of_str repr,
        exists msg,
          normalise_coles_product float_of_str repr "Tim Tams"
            (Py.VDict [("name", Py.VStr "Tim Tam Original 200g");
                       ("currentPrice", Py.VInt 0)])
          = Py.Raise (Py.ValueError msg))
  /\ has_price_field [("name", Py.VStr "Tim Tam Original 200g");
                      ("price", Py.VDict [("amount", Py.VInt 3)])]
  /\ (forall float_of_str repr,
        exists msg,
          normalise_coles_product float_of_str repr "Tim Tams"
            (Py.VDict [("name", Py.VStr "Tim Tam Original 200g");
                       ("price", Py.VDict [("amount", Py.VInt 3)])])
          = Py.Raise (Py.TypeError msg)).
Proof.
  split; [|split; [|split]].
  - exists "currentPrice". split; [now left|]. exists (Py.VInt 0). right. now left.
  - intros float_of_str repr. eexists. reflexivity.
  - exists "price". split; [right; now left|].
    exists (Py.VDict [("amount", Py.VInt 3)]). right. now left.
  - intros float_of_str repr. eexists. reflexivity.
Qed.

(** C5, amended. The price is converted from the first true value among
    [currentPrice], [price] and [CurrentPrice], or from the value of
    [CurrentPrice] when none is true. That value is [None] exactly when no
    price field holds a true value and [CurrentPrice] is absent or [None];
    the error for a missing price is then raised. Otherwise the result is
    the error of a failed [float] conversion, or an offer whose title,
    size and url are the first true value under their names in fallback
    order, with ["Unknown Coles product"] and the empty string when no
    name holds a true value. *)
Theorem normalise_coles_product_outcome
        (float_of_str : string -> Py.result spec_float) (repr : Py.value -> string)
        (watch_name : string) (raw : list (string * Py.value)) :
  let result := normalise_coles_product float_of_str repr watch_name (Py.VDict raw) in
  let price_val := coles_price_value raw in
  (price_val = Py.VNone <->
   first_true_value raw coles_price_keys = None /\ Py.dict_get raw "CurrentPrice" = Py.VNone)
  /\ ((price_val = Py.VNone /\
       result = Py.Raise (Py.ValueError ("No price field found in Coles product: "
                                         +:+ repr (Py.VDict raw))))
      \/ (price_val <> Py.VNone /\ exists e,
            Py.to_float float_of_str price_val = Py.Raise e /\ result = Py.Raise e)
      \/ (price_val <> Py.VNone /\ exists price e,
            Py.to_float float_of_str price_val = Py.Ok price /\
            was_price_of float_of_str (first_truthy raw was_keys) = Py.Raise e /\
            result = Py.Raise e)
      \/ (price_val <> Py.VNone /\ exists price was_price o,
            Py.to_float float_of_str price_val = Py.Ok price /\
            was_price_of float_of_str (first_truthy raw was_keys) = Py.Ok was_price /\
            result = Py.Ok o /\
            SpecialsChecker.price o = price /\
            SpecialsChecker.was_price o = was_price /\
            product_title o =
              Py.to_str repr
                (first_true_or (Py.VStr "Unknown Coles product") raw coles_title_keys) /\
            url o = Py.to_str repr (first_true_or (Py.VStr "") raw url_keys) /\
            size o =
              Some match first_true_value raw size_keys with
                   | Some v => Py.to_str repr v
                   | None => size_of repr (Py.dict_get raw "PackageSize")
                   end)).
Proof.
  intros result price_val. split.
  - subst price_val. unfold coles_price_value, first_true_or.
    destruct (first_true_value raw coles_price_keys) as [v|] eqn:E.
    + apply first_true_value_truthy in E.
      split; [intros ->; discriminate | intros [? _]; discriminate].
    + tauto.
  - subst result price_val. unfold normalise_coles_product.
    rewrite <- coles_price_value_eq.
    match goal with
    | |- context [build_offer _ _ ?w ?s ?r ?t ?p ?m] =>
        destruct (build_offer_cases float_of_str repr w s r t p m)
          as [[E1 E]|[(E1 & e & E2 & E)|[(E1 & pr & e & E2 & E3 & E)
                                        |(E1 & pr & wp & E2 & E3 & E)]]];
        cbv zeta in E; rewrite E
    end.
    + left. now split.
    + right. left. split; [assumption|]. now exists e.
    + right. right. left. split; [assumption|]. now exists pr, e.
    + right. right. right. split; [assumption|].
      exists pr, wp. eexists. repeat split; try eassumption.
      * cbn [product_title offer_of]. f_equal. apply first_truthy_or.
      * cbn [url offer_of]. f_equal. apply first_truthy_or.
      * cbn [size offer_of]. f_equal. rewrite first_truthy_find.
        destruct (first_true_value raw size_keys) as [v|] eqn:Es; [|reflexivity].
        apply first_true_value_truthy in Es. now destruct v.
Qed.

(** ** The search loop *)

Section SearchLoop.
Variable float_of_str : string -> Py.result spec_float.
Variable repr : Py.value -> string.
Variable RAPIDAPI_KEY : string.
Variable respond : list Py.request -> Py.request -> Py.result Py.value.


Lemma append_normalised_prefix normalise raws offers :
  append_normalised normalise raws offers
  = (offers ++ normalised_prefix normalise raws, first_failure normalise raws).
Proof.
  revert offers. induction raws as [|raw rest IH]; intros offers; simpl.
  - now rewrite app_nil_r.
  - destruct (normalise raw) as [o|e].
    + rewrite IH. now rewrite <- app_assoc.
    + now rewrite app_nil_r.
Qed.

Lemma try_store_attempt lbl url host normalise kw offers w :
  SpecialsChecker.try_store lbl
    (fun kw => rapidapi_get RAPIDAPI_KEY respond url host (search_params kw 10))
    normalise kw (offers, w)
  = let r := search_request RAPIDAPI_KEY url host kw in
    let a := outcome lbl kw normalise (respond (Py.requests w) r) in
    (offers ++ kept a, after_attempt a r w).
Proof.
  unfold SpecialsChecker.try_store, rapidapi_get, after_attempt.
  change {| Py.req_url := url;
            Py.req_headers := BASE_HEADERS RAPIDAPI_KEY ++ [("X-RapidAPI-Host", host)];
            Py.req_params := search_params kw 10 |}
    with (search_request RAPIDAPI_KEY url host kw).
  cbv zeta. unfold outcome.
  destruct (respond (Py.requests w) (search_request RAPIDAPI_KEY url host kw)) as [data|e].
  - rewrite append_normalised_prefix.
    destruct (first_failure normalise (extract_products_from_response data)) as [e|] eqn:Ef;
      unfold warning; cbn [failure kept label keyword]; rewrite ?Ef;
      unfold Py.print, Py.record_request; cbn [Py.stdout Py.files Py.outbox Py.requests];
      rewrite ?app_nil_r; reflexivity.
  - unfold warning; cbn [failure kept label keyword].
    unfold Py.print, Py.record_request; cbn [Py.stdout Py.files Py.outbox Py.requests].
    now rewrite app_nil_r.
Qed.

Lemma search_keyword_attempts watch_item kw offers w :
  search_keyword float_of_str repr RAPIDAPI_KEY respond watch_item (offers, w) kw
  = let rc := coles_request RAPIDAPI_KEY kw in
    let rw := woolies_request RAPIDAPI_KEY kw in
    let ac := outcome "Coles" kw (normalise_coles_product float_of_str repr (name watch_item))
                      (respond (Py.requests w) rc) in
    let aw := outcome "Woolies" kw
                      (normalise_woolies_product float_of_str repr (name watch_item))
                      (respond (Py.requests w ++ [rc]) rw) in
    ((offers ++ kept ac) ++ kept aw, after_attempt aw rw (after_attempt ac rc w)).
Proof.
  unfold search_keyword, search_coles, search_woolies.
  rewrite try_store_attempt. cbv zeta. rewrite try_store_attempt. reflexivity.
Qed.

Lemma search_loop watch_item kws offers w :
  let st := fold_left (search_keyword float_of_str repr RAPIDAPI_KEY respond watch_item)
                      kws (offers, w) in
  let atts := attempts float_of_str repr RAPIDAPI_KEY respond
                       (name watch_item) kws (Py.requests w) in
  st.1 = offers ++ offers_found atts
  /\ Py.stdout st.2 = Py.stdout w ++ flat_map warning atts
  /\ Py.files st.2 = Py.files w
  /\ Py.outbox st.2 = Py.outbox w
  /\ Py.requests st.2
     = Py.requests w
       ++ flat_map (fun kw => [coles_request RAPIDAPI_KEY kw; woolies_request RAPIDAPI_KEY kw]) kws.
Proof.
  revert offers w. induction kws as [|kw rest IH]; intros offers w; cbv zeta.
  - cbn. rewrite !app_nil_r. repeat split.
  - cbn [fold_left]. rewrite search_keyword_attempts. cbv zeta.
    match goal with
    | |- context [fold_left _ rest (?o, ?w')] =>
        specialize (IH o w'); cbv zeta in IH;
        destruct IH as (H1 & H2 & H3 & H4 & H5)
    end.
    rewrite H1, H2, H3, H4, H5. clear H1 H2 H3 H4 H5.
    unfold after_attempt. cbn [Py.requests Py.stdout Py.files Py.outbox].
    unfold offers_found. cbn [attempts flat_map].
    rewrite <- !app_assoc. cbn [app]. repeat split.
Qed.

Lemma find_offers_attempts watch_item w :
  let res := find_offers_for_watch_item float_of_str repr RAPIDAPI_KEY respond watch_item w in
  let atts := attempts_of float_of_str repr RAPIDAPI_KEY respond watch_item w in
  res.1 = (if only_half_price watch_item
           then List.filter is_half_price (offers_found atts)
           else offers_found atts)
  /\ Py.stdout res.2 = Py.stdout w ++ flat_map warning atts
  /\ Py.files res.2 = Py.files w
  /\ Py.outbox res.2 = Py.outbox w.
Proof.
  cbn zeta. unfold find_offers_for_watch_item, attempts_of.
  pose proof (search_loop watch_item (match_keywords watch_item) [] w) as H.
  cbn zeta in H. destruct H as (H1 & H2 & H3 & H4 & _).
  destruct (fold_left _ _ _) as [offers w1]. cbn [fst snd] in *.
  rewrite app_nil_l in H1. subst offers.
  now destruct (only_half_price watch_item).
Qed.
End SearchLoop.

(** ** C4: the half-price restriction *)

(** C4. With [only_half_price] set, every offer returned is flagged, and
    the result is the list of flagged offers among those found; without
    it, every offer found is returned. *)
Theorem only_half_price_restricts_offers
        (float_of_str : string -> Py.result spec_float) (repr : Py.value -> string)
        (RAPIDAPI_KEY : string)
        (respond : list Py.request -> Py.request -> Py.result Py.value)
        (watch_item : WatchItem) (w : Py.world) :
  let offers :=
    (find_offers_for_watch_item float_of_str repr RAPIDAPI_KEY respond watch_item w).1 in
  let found :=
    offers_found (attempts_of float_of_str repr RAPIDAPI_KEY respond watch_item w) in
  (only_half_price watch_item = true ->
   Forall (fun o => is_half_price o = true) offers
   /\ offers = List.filter is_half_price found)
  /\ (only_half_price watch_item = false -> offers = found).
Proof.
  cbv zeta.
  destruct (find_offers_attempts float_of_str repr RAPIDAPI_KEY respond watch_item w)
    as (H & _).
  cbv zeta in H. rewrite H. split; intros E; rewrite E; [|reflexivity].
  split; [|reflexivity].
  apply List.Forall_forall. intros o Ho. now apply filter_In in Ho.
Qed.

Lemma only_half_price_restricts_offers_witness :
  Forall (fun o => is_half_price o = true)
         (find_offers_for_watch_item example_float_of_str example_repr "key"
            example_respond (example_watch_item true) empty_world).1
  /\ (find_offers_for_watch_item example_float_of_str example_repr "key"
        example_respond (example_watch_item true) empty_world).1
     = List.filter is_half_price
         (offers_found (attempts_of example_float_of_str example_repr "key"
                          example_respond (example_watch_item true) empty_world)).
Proof.
  apply (only_half_price_restricts_offers example_float_of_str example_repr "key"
           example_respond (example_watch_item true) empty_world).
  reflexivity.
Defined.

(** ** C6: a search that fails *)

Example warnings_of_the_example_run :
  Py.stdout
    (find_offers_for_watch_item example_float_of_str example_repr "key" example_respond
       (example_watch_item false) empty_world).2
  = ["[WARN] Coles search failed for 'tim tam': No price field found in Coles product: <dict>";
     "[WARN] Woolies search failed for 'tim tam': 503 Server Error"].
Proof. vm_compute. reflexivity. Qed.

(** C6, as worded, fails when a product in the middle of an answer cannot
    be normalised: the offer appended before it stays in the result
    although the search for that store and keyword failed. *)
Lemma failed_search_keeps_earlier_offers :
  exists o,
    forall float_of_str repr,
      (find_offers_for_watch_item float_of_str repr "key" example_respond
         (example_watch_item false) empty_world).1 = [o]
      /\ offers_of_succeeded
           (attempts_of float_of_str repr "key" example_respond
              (example_watch_item false) empty_world) = [].
Proof.
  exists example_offer. intros float_of_str repr. split; reflexivity.
Qed.

(** C6, amended. [find_offers_for_watch_item] always returns. Its result
    holds, in the order of the searches, the offers every search appended
    before it ended, those of a failed search included, restricted to the
    flagged ones when [only_half_price] is set. Each failed search prints
    one warning and changes nothing else. *)
Theorem failed_search_is_logged_and_skipped
        (float_of_str : string -> Py.result spec_float) (repr : Py.value -> string)
        (RAPIDAPI_KEY : string)
        (respond : list Py.request -> Py.request -> Py.result Py.value)
        (watch_item : WatchItem) (w : Py.world) :
  let res := find_offers_for_watch_item float_of_str repr RAPIDAPI_KEY respond watch_item w in
  let atts := attempts_of float_of_str repr RAPIDAPI_KEY respond watch_item w in
  res.1 = (if only_half_price watch_item
           then List.filter is_half_price (offers_found atts)
           else offers_found atts)
  /\ Py.stdout res.2 = Py.stdout w ++ flat_map warning atts
  /\ Py.files res.2 = Py.files w
  /\ Py.outbox res.2 = Py.outbox w
  /\ length atts = 2 * length (match_keywords watch_item)
  /\ incl (offers_of_succeeded atts) (offers_found atts).
Proof.
  cbv zeta.
  destruct (find_offers_attempts float_of_str repr RAPIDAPI_KEY respond watch_item w)
    as (H1 & H2 & H3 & H4).
  cbv zeta in H1, H2, H3, H4. repeat split; try assumption.
  - unfold attempts_of. generalize (Py.requests w).
    induction (match_keywords watch_item) as [|kw rest IH]; intros history; [reflexivity|].
    cbn [attempts length]. rewrite IH. lia.
  - unfold offers_of_succeeded, offers_found. intros o Ho.
    apply in_flat_map in Ho as (a & Ha & Ho). apply in_flat_map. exists a.
    split; [assumption|]. destruct (succeeded a); [assumption|contradiction].
Qed.

(** ** C8: duplicates among the parsed products *)

Section Dedup.
Variable lower : string -> string.

Lemma first_with_key_app k ps qs :
  first_with_key lower k (ps ++ qs) =
  match first_with_key lower k ps with
  | Some p => Some p
  | None => first_with_key lower k qs
  end.
Proof.
  unfold first_with_key. induction ps as [|p ps IH]; [reflexivity|].
  simpl. now destruct (bool_decide (PdfParser.dedup_key lower p = k)).
Qed.

Lemma first_with_key_none k ps :
  first_with_key lower k ps = None <-> k ∉ map (PdfParser.dedup_key lower) ps.
Proof.
  unfold first_with_key. induction ps as [|p ps IH]; simpl.
  - split; [intros _; apply not_elem_of_nil | reflexivity].
  - rewrite not_elem_of_cons.
    destruct (bool_decide_reflect (PdfParser.dedup_key lower p = k)) as [Heq|Hneq].
    + split; [discriminate|]. intros [Hne _]. now destruct Hne.
    + rewrite IH. split; [|tauto].
      intros H. split; [|exact H]. intros ->. now apply Hneq.
Qed.

(** The loop keeps [seen] equal to the keys of [unique_products] and adds
    each entry whose key is new. *)
Lemma keep_unseen_loop products seen acc :
  (forall k, k ∈ seen <-> k ∈ map (PdfParser.dedup_key lower) acc) ->
  NoDup (map (PdfParser.dedup_key lower) acc) ->
  exists extra,
    (fold_left (PdfParser.keep_unseen lower) products (seen, acc)).2 = acc ++ extra
    /\ NoDup (map (PdfParser.dedup_key lower) (acc ++ extra))
    /\ extra `sublist_of` products
    /\ forall k, first_with_key lower k (acc ++ extra) =
                 match first_with_key lower k acc with
                 | Some p => Some p
                 | None => first_with_key lower k products
                 end.
Proof.
  revert seen acc. induction products as [|p ps IH]; intros seen acc Hseen Hnd.
  - exists []. rewrite app_nil_r. repeat split; [assumption|constructor|].
    intros k. now destruct (first_with_key lower k acc).
  - cbn [fold_left]. unfold PdfParser.keep_unseen at 2. cbn [fst snd].
    destruct (decide (PdfParser.dedup_key lower p ∈ seen)) as [Hin|Hnin].
    + destruct (IH seen acc Hseen Hnd) as (extra & E & Hnd' & Hsub & Hfirst).
      exists extra. repeat split; try assumption.
      * now apply sublist_cons.
      * intros k. rewrite Hfirst.
        destruct (first_with_key lower k acc) eqn:Ek; [reflexivity|].
        unfold first_with_key at 2. simpl.
        destruct (bool_decide_reflect (PdfParser.dedup_key lower p = k)) as [<-|]; [|reflexivity].
        apply first_with_key_none in Ek. apply Hseen in Hin. contradiction.
    + destruct (IH ({[PdfParser.dedup_key lower p]} ∪ seen) (acc ++ [p]))
        as (extra & E & Hnd' & Hsub & Hfirst).
      * intros k. rewrite map_app, elem_of_app, elem_of_union, elem_of_singleton, Hseen.
        simpl. rewrite list_elem_of_singleton. split; intros [?|?]; auto.
      * rewrite map_app. apply NoDup_app. repeat split; [assumption| |apply NoDup_singleton].
        intros k Hk Hk'. apply list_elem_of_singleton in Hk'. subst k.
        apply Hseen in Hk. contradiction.
      * exists (p :: extra). rewrite <- app_assoc in E, Hnd', Hfirst.
        repeat split; try assumption.
        -- now apply sublist_skip.
        -- intros k. change (acc ++ p :: extra) with (acc ++ [p] ++ extra).
           rewrite Hfirst, first_with_key_app.
           destruct (first_with_key lower k acc); [reflexivity|].
           unfold first_with_key. simpl.
           now destruct (bool_decide (PdfParser.dedup_key lower p = k)).
Qed.

Lemma unique_products_first_occurrences products :
  first_occurrences lower products (PdfParser.unique_products lower products).
Proof.
  unfold PdfParser.unique_products.
  destruct (keep_unseen_loop products ∅ []) as (extra & E & Hnd & Hsub & Hfirst).
  - intros k. simpl. split; intros H; [now apply not_elem_of_empty in H
                                      | now apply not_elem_of_nil in H].
  - constructor.
  - rewrite E. simpl in *. repeat split; assumption.
Qed.
Lemma first_occurrences_of_snoc parsed p :
  first_occurrences_of lower (parsed ++ [p])
  = first_occurrences_of lower parsed
    ++ (if bool_decide (name_and_price lower p ∈ map (name_and_price lower) parsed)
        then [] else [p]).
Proof.
  unfold first_occurrences_of. rewrite length_app. cbn [length].
  rewrite Nat.add_1_r, seq_S, flat_map_app. cbn [flat_map Nat.add]. rewrite app_nil_r.
  f_equal.
  - rewrite !flat_map_concat_map. f_equal. apply map_ext_in. intros i Hi.
    apply in_seq in Hi as [_ Hi]. cbn [Nat.add] in Hi.
    unfold first_occurrence_at.
    rewrite lookup_app_l by assumption. rewrite take_app_le by lia. reflexivity.
  - unfold first_occurrence_at.
    rewrite list_lookup_middle by reflexivity.
    rewrite take_app_length. reflexivity.
Qed.

(** After the entries [done], [seen] holds their keys and the list built
    is that of their first occurrences. *)
Lemma keep_unseen_first_occurrences rest done seen :
  (forall k, k ∈ seen <-> k ∈ map (name_and_price lower) done) ->
  (fold_left (PdfParser.keep_unseen lower) rest (seen, first_occurrences_of lower done)).2
  = first_occurrences_of lower (done ++ rest).
Proof.
  revert done seen. induction rest as [|p rest IH]; intros done seen Hseen.
  - now rewrite app_nil_r.
  - cbn [fold_left]. unfold PdfParser.keep_unseen at 2. cbn [fst snd].
    change (PdfParser.dedup_key lower p) with (name_and_price lower p).
    replace (done ++ p :: rest) with ((done ++ [p]) ++ rest) by now rewrite <- app_assoc.
    pose proof (first_occurrences_of_snoc done p) as Hsnoc.
    assert (Hseen' : forall k, k ∈ {[name_and_price lower p]} ∪ seen
                               <-> k ∈ map (name_and_price lower) (done ++ [p])).
    { intros k. rewrite map_app, elem_of_app, elem_of_union, elem_of_singleton, Hseen.
      simpl. rewrite list_elem_of_singleton. tauto. }
    destruct (decide (name_and_price lower p ∈ seen)) as [Hin|Hnin].
    + rewrite bool_decide_eq_true_2, app_nil_r in Hsnoc by now apply Hseen.
      rewrite <- Hsnoc. apply IH.
      intros k. rewrite <- Hseen'. rewrite elem_of_union, elem_of_singleton.
      split; [tauto|]. intros [->|H]; assumption.
    + rewrite bool_decide_eq_false_2 in Hsnoc by (intros H; now apply Hnin, Hseen).
      rewrite <- Hsnoc. now apply IH.
Qed.

Lemma unique_products_keeps_first parsed :
  keeps_first_occurrences lower parsed (PdfParser.unique_products lower parsed).
Proof.
  destruct (unique_products_first_occurrences parsed) as (Hnd & Hsub & _).
  split; [exact Hnd|]. split; [exact Hsub|].
  unfold PdfParser.unique_products.
  apply (keep_unseen_first_occurrences parsed [] ∅).
  intros k. simpl. split; intros H; [now apply not_elem_of_empty in H
                                    | now apply not_elem_of_nil in H].
Qed.
End Dedup.

Example unique_products_on_a_catalogue :
  PdfParser.unique_products ascii_lower
    [example_match; example_other_price; example_duplicate; example_match]
  = [example_match; example_other_price].
Proof. vm_compute. reflexivity. Qed.

Example first_occurrences_of_a_catalogue :
  first_occurrences_of ascii_lower
    [example_match; example_other_price; example_duplicate; example_match]
  = [example_match; example_other_price].
Proof. vm_compute. reflexivity. Qed.


(** ** C7: what is written to files *)

Lemma append_empty_r (s : string) : s +:+ "" = s.
Proof. induction s as [|c s IH]; [reflexivity|]. now rewrite append_cons, IH. Qed.

Lemma append_assoc (a b c : string) : (a +:+ b) +:+ c = a +:+ (b +:+ c).
Proof. induction a as [|x a IH]; [reflexivity|]. now rewrite !append_cons, IH. Qed.

Lemma appends_only_to_refl path w w' :
  Py.files w' = Py.files w -> appends_only_to path w w'.
Proof.
  intros E. split; [now rewrite E|]. exists "". now rewrite E, append_empty_r.
Qed.

Lemma appends_only_to_trans path w1 w2 w3 :
  appends_only_to path w1 w2 -> appends_only_to path w2 w3 -> appends_only_to path w1 w3.
Proof.
  intros [H1 (d1 & E1)] [H2 (d2 & E2)]. split.
  - intros other Hne. now rewrite H2, H1.
  - exists (d1 +:+ d2). now rewrite E2, E1, append_assoc.
Qed.

Lemma append_file_appends path data w :
  appends_only_to path w (Py.append_file path data w).
Proof.
  unfold Py.append_file. split; cbn [Py.files].
  - intros other Hne. now rewrite lookup_insert_ne.
  - exists data. now rewrite lookup_insert_eq.
Qed.

Lemma append_to_log_appends now open_error log_file message w :
  appends_only_to log_file w (Main._append_to_log now open_error log_file message w).
Proof.
  unfold Main._append_to_log. destruct (open_error log_file).
  - now apply appends_only_to_refl.
  - apply append_file_appends.
Qed.

Lemma log_if_set_appends now open_error log_file message w :
  appends_only_to (default "" log_file) w
                  (Main.log_if_set now open_error log_file message w).
Proof.
  unfold Main.log_if_set. destruct log_file as [path|]; [|now apply appends_only_to_refl].
  destruct (Py.str_truthy path); [|now apply appends_only_to_refl].
  apply append_to_log_appends.
Qed.

Lemma log_if_set_frame now open_error log_file message w :
  Py.outbox (Main.log_if_set now open_error log_file message w) = Py.outbox w
  /\ Py.requests (Main.log_if_set now open_error log_file message w) = Py.requests w.
Proof.
  unfold Main.log_if_set, Main._append_to_log.
  destruct log_file as [path|]; [|now split].
  destruct (Py.str_truthy path); [|now split].
  destruct (open_error path); now split.
Qed.

Lemma write_all_appends path writes w :
  appends_only_to path w
    (fold_left (fun w data => Py.append_file path data w) writes w).
Proof.
  revert w. induction writes as [|data rest IH]; intros w; cbn [fold_left].
  - now apply appends_only_to_refl.
  - eapply appends_only_to_trans; [apply append_file_appends | apply IH].
Qed.

Lemma save_results_to_log_appends now open_error results log_file w :
  appends_only_to log_file w
    (PdfParser.save_results_to_log now open_error results log_file w).
Proof.
  unfold PdfParser.save_results_to_log. destruct (open_error log_file).
  - now apply appends_only_to_refl.
  - eapply appends_only_to_trans; [apply write_all_appends|].
    now apply appends_only_to_refl.
Qed.


(** ** C10: an alert with no matches *)




(** ** The order of binary64 values that are not NaN *)

Ltac compare_cases :=
  repeat match goal with
    | H : context [Pos.compare_cont Eq ?a ?b] |- _ =>
        change (Pos.compare_cont Eq a b) with (Pos.compare a b) in H
    | |- context [Pos.compare_cont Eq ?a ?b] =>
        change (Pos.compare_cont Eq a b) with (Pos.compare a b)
    end;
  repeat match goal with
    | H : context [Z.compare ?a ?b] |- _ => destruct (Z.compare_spec a b)
    | |- context [Z.compare ?a ?b] => destruct (Z.compare_spec a b)
    | H : context [Pos.compare ?a ?b] |- _ => destruct (Pos.compare_spec a b)
    | |- context [Pos.compare ?a ?b] => destruct (Pos.compare_spec a b)
    end;
  simpl in *; try discriminate; try reflexivity; try lia.

Lemma flt_asym x y : Py.flt x y = true -> Py.flt y x = false.
Proof.
  unfold Py.flt, SFltb, SFcompare.
  destruct x as [[]|[]| |[] mx ex]; destruct y as [[]|[]| |[] my ey];
    simpl; try discriminate; try reflexivity; compare_cases.
Qed.

Lemma fle_total x y :
  Py.is_nan x = false -> Py.is_nan y = false ->
  Py.flt y x = false -> Py.fle x y = true.
Proof.
  unfold Py.flt, Py.fle, SFltb, SFleb, SFcompare.
  destruct x as [[]|[]| |[] mx ex]; destruct y as [[]|[]| |[] my ey];
    simpl; try discriminate; try reflexivity; intros _ _; compare_cases.
Qed.

Lemma fle_not_flt x y : Py.fle x y = true -> Py.flt y x = false.
Proof.
  unfold Py.flt, Py.fle, SFltb, SFleb, SFcompare.
  destruct x as [[]|[]| |[] mx ex]; destruct y as [[]|[]| |[] my ey];
    simpl; try discriminate; try reflexivity; compare_cases.
Qed.

Lemma fle_trans x y z :
  Py.fle x y = true -> Py.fle y z = true -> Py.fle x z = true.
Proof.
  unfold Py.fle, SFleb, SFcompare.
  destruct x as [[]|[]| |[] mx ex]; destruct y as [[]|[]| |[] my ey];
    destruct z as [[]|[]| |[] mz ez];
    simpl; try discriminate; try reflexivity; compare_cases.
Qed.

Lemma fle_refl x : Py.is_nan x = false -> Py.fle x x = true.
Proof.
  unfold Py.fle, SFleb, SFcompare.
  destruct x as [[]|[]| |[] mx ex]; simpl; try discriminate; try reflexivity;
    intros _; compare_cases.
Qed.

Lemma feq_not_flt x y : Py.feq x y = true -> Py.flt x y = false.
Proof.
  unfold Py.feq, Py.flt, SFeqb, SFltb. now destruct (SFcompare x y) as [[]|].
Qed.

(** ** The order of strings *)

Lemma string_compare_refl s : String.compare s s = Eq.
Proof.
  induction s as [|c s IH]; [reflexivity|]. simpl.
  unfold Ascii.compare. now rewrite N.compare_refl.
Qed.

Lemma string_compare_lt_trans a b c :
  String.compare a b = Lt -> String.compare b c = Lt -> String.compare a c = Lt.
Proof.
  revert b c. induction a as [|x a IH]; intros [|y b] [|z c]; simpl; try discriminate; auto.
  unfold Ascii.compare.
  destruct (N.compare_spec (N_of_ascii x) (N_of_ascii y)) as [Exy|Hxy|Hxy]; try discriminate;
    destruct (N.compare_spec (N_of_ascii y) (N_of_ascii z)) as [Eyz|Hyz|Hyz]; try discriminate;
    intros H1 H2.
  - rewrite Exy, Eyz, N.compare_refl. now apply IH with b.
  - rewrite Exy. now apply N.compare_lt_iff in Hyz as ->.
  - rewrite <- Eyz. now apply N.compare_lt_iff in Hxy as ->.
  - assert (H : (N_of_ascii x < N_of_ascii z)%N) by lia.
    now apply N.compare_lt_iff in H as ->.
Qed.

Lemma string_ltb_asym a b : String.ltb a b = true -> String.ltb b a = false.
Proof.
  unfold String.ltb. rewrite (String.compare_antisym a b).
  now destruct (String.compare b a).
Qed.

Lemma string_ltb_irrefl a : String.ltb a a = false.
Proof. unfold String.ltb. now rewrite string_compare_refl. Qed.

Lemma string_ltb_trans a b c :
  String.ltb a b = true -> String.ltb b c = true -> String.ltb a c = true.
Proof.
  unfold String.ltb. intros H1 H2.
  destruct (String.compare a b) eqn:E1; try discriminate.
  destruct (String.compare b c) eqn:E2; try discriminate.
  now rewrite (string_compare_lt_trans a b c).
Qed.

Lemma string_ltb_total a b :
  String.ltb a b = false -> String.ltb b a = false -> a = b.
Proof.
  unfold String.ltb. rewrite (String.compare_antisym a b).
  destruct (String.compare b a) eqn:E; try discriminate.
  intros _ _. symmetry. now apply String.compare_eq_iff.
Qed.

(** ** [sorted] under a consistent comparison *)

Section Sorting.
Context {A : Type} (lt : A -> A -> bool) (P : A -> Prop).

Hypothesis lt_asym : forall a b, P a -> P b -> lt a b = true -> lt b a = false.
Hypothesis le_trans :
  forall a b c, P a -> P b -> P c ->
                not_after lt a b -> not_after lt b c -> not_after lt a c.

Lemma insert_by_permutation x l : Permutation (Py.insert_by lt x l) (x :: l).
Proof.
  induction l as [|y l IH]; simpl; [reflexivity|].
  destruct (lt y x); [|reflexivity].
  rewrite IH. apply perm_swap.
Qed.

Lemma sorted_permutation l : Permutation (Py.sorted lt l) l.
Proof.
  induction l as [|x l IH]; simpl; [reflexivity|].
  rewrite insert_by_permutation. now constructor.
Qed.

Lemma insert_by_sorted x l :
  P x -> Forall P l ->
  StronglySorted (not_after lt) l -> StronglySorted (not_after lt) (Py.insert_by lt x l).
Proof.
  intros Px Pl Hs. induction Hs as [|y l Hs IH Hy]; simpl.
  - repeat constructor.
  - apply Forall_cons in Pl as [Hpy Pl].
    destruct (lt y x) eqn:E.
    + constructor; [now apply IH|].
      rewrite insert_by_permutation. constructor; [|assumption].
      apply lt_asym; assumption.
    + constructor; [now constructor|].
      constructor; [exact E|].
      rewrite List.Forall_forall in Hy, Pl |- *. intros z Hz.
      apply le_trans with y; auto.
Qed.

Lemma sorted_strongly_sorted l :
  Forall P l -> StronglySorted (not_after lt) (Py.sorted lt l).
Proof.
  induction l as [|x l IH]; intros Pl; simpl; [constructor|].
  apply Forall_cons in Pl as [Px Pl].
  apply insert_by_sorted; auto.
  now rewrite sorted_permutation.
Qed.

(** The sort is stable: the items that satisfy a test the comparison
    cannot tell apart from equality keep their order. *)
Lemma insert_by_filter (same : A -> bool) x l :
  (forall y, In y l -> same x = true -> same y = true -> lt y x = false) ->
  List.filter same (Py.insert_by lt x l) = List.filter same (x :: l).
Proof.
  induction l as [|y l IH]; intros H; [reflexivity|].
  simpl. destruct (lt y x) eqn:E; [|reflexivity].
  simpl. rewrite IH by (intros z Hz; apply H; now right).
  simpl. destruct (same x) eqn:Ex; [|reflexivity].
  destruct (same y) eqn:Ey; [|reflexivity].
  rewrite H in E; [discriminate|now left|reflexivity|assumption].
Qed.

Lemma sorted_stable (same : A -> bool) l :
  (forall x y, same x = true -> same y = true -> lt y x = false) ->
  List.filter same (Py.sorted lt l) = List.filter same l.
Proof.
  intros H. induction l as [|x l IH]; [reflexivity|].
  cbn [Py.sorted]. rewrite insert_by_filter by (intros; now apply H).
  simpl. now rewrite IH.
Qed.
End Sorting.

(** ** The order of the sort keys *)

Lemma key_lt_spec a b :
  key_lt a b = true <->
  String.ltb (store a) (store b) = true
  \/ (store a = store b /\ Py.flt (price a) (price b) = true).
Proof.
  unfold key_lt. destruct (String.eqb_spec (store a) (store b)) as [E|E].
  - rewrite E, string_ltb_irrefl.
    destruct (Py.feq (price a) (price b)) eqn:F.
    + apply feq_not_flt in F. rewrite F. split; [discriminate|]. intros [?|[_ ?]]; discriminate.
    + split; [intros H; right; now split | intros [?|[_ ?]]; [discriminate|assumption]].
  - split; [now left | intros [?|[? _]]; [assumption|contradiction]].
Qed.

Lemma key_le_spec a b :
  key_le a b <->
  String.ltb (store b) (store a) = false
  /\ (store b = store a -> Py.flt (price b) (price a) = false).
Proof.
  unfold key_le, not_after. pose proof (key_lt_spec b a) as H.
  destruct (key_lt b a).
  - split; [discriminate|]. intros [H1 H2].
    destruct (proj1 H eq_refl) as [H3|[H3 H4]]; [congruence|].
    rewrite (H2 H3) in H4. discriminate.
  - split; [|reflexivity]. intros _. split.
    + destruct (String.ltb (store b) (store a)); [|reflexivity].
      symmetry. apply H. now left.
    + intros E. destruct (Py.flt (price b) (price a)); [|reflexivity].
      symmetry. apply H. right. now split.
Qed.

Lemma key_lt_asym a b : key_lt a b = true -> key_lt b a = false.
Proof.
  intros H. apply key_lt_spec in H. apply key_le_spec.
  destruct H as [H|[E H]].
  - split; [now apply string_ltb_asym|].
    intros E. rewrite E, string_ltb_irrefl in H. discriminate.
  - split; [rewrite E; apply string_ltb_irrefl|]. intros _. now apply flt_asym.
Qed.

Lemma key_le_trans a b c :
  price_not_nan a -> price_not_nan b -> price_not_nan c ->
  key_le a b -> key_le b c -> key_le a c.
Proof.
  unfold price_not_nan. intros Na Nb Nc Hab Hbc.
  apply key_le_spec in Hab as [S1 P1]. apply key_le_spec in Hbc as [S2 P2].
  apply key_le_spec. split.
  - destruct (String.ltb (store c) (store a)) eqn:Hca; [|reflexivity].
    destruct (String.ltb (store a) (store b)) eqn:Hab.
    + rewrite (string_ltb_trans _ _ _ Hca Hab) in S2. discriminate.
    + rewrite (string_ltb_total _ _ Hab S1) in Hca. congruence.
  - intros E. rewrite E in S2.
    assert (Eab : store a = store b) by now apply string_ltb_total.
    rewrite <- Eab in P2. specialize (P1 (eq_sym Eab)). specialize (P2 E).
    apply fle_not_flt. apply fle_trans with (price b); now apply fle_total.
Qed.

Lemma sorted_offers_strongly_sorted offers :
  Forall price_not_nan offers -> StronglySorted key_le (Py.sorted key_lt offers).
Proof.
  apply (sorted_strongly_sorted key_lt price_not_nan).
  - intros a b _ _. apply key_lt_asym.
  - apply key_le_trans.
Qed.

Lemma key_le_by_store_then_price a b :
  price_not_nan a -> price_not_nan b -> key_le a b -> by_store_then_price a b.
Proof.
  unfold price_not_nan, by_store_then_price. intros Na Nb H.
  apply key_le_spec in H as [Hs Hp].
  destruct (String.eqb_spec (store a) (store b)) as [E|E].
  - right. split; [assumption|]. apply fle_total; auto.
  - left. destruct (String.ltb (store a) (store b)) eqn:L; [reflexivity|].
    destruct E. now apply string_ltb_total.
Qed.

Lemma strongly_sorted_among {A} (R R' : A -> A -> Prop) (P : A -> Prop) l :
  (forall a b, P a -> P b -> R a b -> R' a b) ->
  Forall P l -> StronglySorted R l -> StronglySorted R' l.
Proof.
  intros H Pl Hs. induction Hs as [|a l Hs IH Ha]; [constructor|].
  apply Forall_cons in Pl as [Pa Pl]. constructor; [now apply IH|].
  rewrite List.Forall_forall in Ha, Pl |- *. intros b Hb. apply H; auto.
Qed.

Lemma sorted_by_store_then_price offers :
  Forall price_not_nan offers ->
  StronglySorted by_store_then_price (Py.sorted key_lt offers).
Proof.
  intros Hnn.
  apply (strongly_sorted_among key_le by_store_then_price price_not_nan).
  - apply key_le_by_store_then_price.
  - now rewrite sorted_permutation.
  - now apply sorted_offers_strongly_sorted.
Qed.

(** ** Dictionaries in insertion order *)

Lemma lookup_none {A} k (d : list (string * A)) :
  Py.lookup k d = None <-> ~ In k (map fst d).
Proof.
  induction d as [|[k' v'] d IH]; simpl; [tauto|].
  destruct (String.eqb_spec k' k) as [E|E].
  - split; [discriminate|]. intros H. exfalso. apply H. now left.
  - rewrite IH. tauto.
Qed.

Lemma lookup_some_in {A} k (d : list (string * A)) v :
  Py.lookup k d = Some v -> In (k, v) d.
Proof.
  induction d as [|[k' v'] d IH]; simpl; [discriminate|].
  destruct (String.eqb_spec k' k) as [E|E].
  - intros [= <-]. left. now rewrite E.
  - intros H. right. now apply IH.
Qed.

Lemma in_keys {A} k (v : A) (d : list (string * A)) :
  In (k, v) d -> In k (map fst d).
Proof. intros H. apply in_map_iff. now exists (k, v). Qed.

Lemma bound_once {A} k (v v' : A) (d : list (string * A)) :
  NoDup (map fst d) -> In (k, v) d -> In (k, v') d -> v = v'.
Proof.
  induction d as [|[k0 v0] d IH]; [contradiction|].
  simpl. intros Hnd. apply NoDup_cons in Hnd as [Hk Hnd].
  rewrite list_elem_of_In in Hk.
  intros [E|H] [E'|H'].
  - congruence.
  - exfalso. apply Hk. injection E as -> _. now apply in_keys with v'.
  - exfalso. apply Hk. injection E' as -> _. now apply in_keys with v.
  - now apply IH.
Qed.

Lemma assign_new {A} k (v : A) d :
  ~ In k (map fst d) -> Py.assign k v d = d ++ [(k, v)].
Proof.
  induction d as [|[k' v'] d IH]; simpl; [reflexivity|].
  intros H. destruct (String.eqb_spec k' k) as [E|E]; [tauto|].
  rewrite IH; [reflexivity|tauto].
Qed.

Lemma assign_bound {A} k (v : A) d :
  NoDup (map fst d) -> In k (map fst d) ->
  map fst (Py.assign k v d) = map fst d
  /\ forall e, In e (Py.assign k v d) <-> e = (k, v) \/ (In e d /\ e.1 <> k).
Proof.
  induction d as [|[k' v'] d IH]; simpl; [contradiction|].
  intros Hnd Hin. apply NoDup_cons in Hnd as [Hk' Hnd].
  rewrite list_elem_of_In in Hk'.
  destruct (String.eqb_spec k' k) as [E|E].
  - subst k'. split; [reflexivity|]. intros e. simpl. split.
    + intros [<-|He]; [now left|]. right. split; [now right|].
      intros Ee. apply Hk'. rewrite <- Ee. destruct e. now apply in_keys with a.
    + intros [->|[[<-|He] Hne]]; [now left | now destruct Hne | now right].
  - destruct Hin as [Hin|Hin]; [contradiction|].
    destruct (IH Hnd Hin) as [Hfst Hent]. simpl. split; [now rewrite Hfst|].
    intros e. rewrite Hent. split.
    + intros [<-|[->|[He Hne]]]; [right; split; [now left|exact E] | now left |].
      right. split; [now right|assumption].
    + intros [->|[[<-|He] Hne]]; [right; now left | now left |].
      right. right. now split.
Qed.

(** ** The cheapest offer of each store *)

Lemma cheapest_in_store_snoc done o c :
  cheapest_in_store done c ->
  (store o = store c -> price_le c o) ->
  cheapest_in_store (done ++ [o]) c.
Proof.
  intros [Hin Hmin] Ho. split; [apply in_or_app; now left|].
  intros o' Ho' E. apply in_app_or in Ho' as [Ho'|[<-|[]]]; auto.
Qed.

Lemma keep_cheapest_minima done d o :
  Forall price_not_nan (done ++ [o]) ->
  store_minima done d -> store_minima (done ++ [o]) (keep_cheapest d o).
Proof.
  intros Hnn (Hnd & Hkeys & Hmin).
  rewrite List.Forall_forall in Hnn.
  assert (No : price_not_nan o) by (apply Hnn, in_or_app; right; now left).
  assert (Nd : forall x, In x done -> price_not_nan x)
    by (intros x Hx; apply Hnn, in_or_app; now left).
  assert (Hstores : forall s, In s (map store (done ++ [o])) <->
                              In s (map store done) \/ s = store o).
  { intros s. rewrite map_app, in_app_iff. simpl. intuition. }
  unfold keep_cheapest. destruct (Py.lookup (store o) d) as [c|] eqn:L.
  - apply lookup_some_in in L.
    assert (Hk : In (store o) (map fst d)) by now apply in_keys with c.
    destruct (Hmin _ _ L) as [Ec Hc].
    assert (Nc : price_not_nan c) by (apply Nd, Hc).
    destruct (Py.flt (price o) (price c)) eqn:F.
    + destruct (assign_bound (store o) o d Hnd Hk) as [Hfst Hent].
      split; [now rewrite Hfst|]. split.
      * intros s. rewrite Hfst, Hstores, Hkeys. split; [tauto|].
        intros [H| ->]; [assumption|]. now apply Hkeys.
      * intros s c' Hc'. apply Hent in Hc' as [[= -> ->]|[Hc' Hne]].
        -- split; [reflexivity|]. split; [apply in_or_app; right; now left|].
           intros o' Ho' E. apply in_app_or in Ho' as [Ho'|[<-|[]]].
           ++ apply fle_trans with (price c).
              ** apply fle_total; auto. now apply flt_asym.
              ** apply Hc; [assumption|congruence].
           ++ now apply fle_refl.
        -- destruct (Hmin _ _ Hc') as [Ec' Hmc']. split; [assumption|].
           apply cheapest_in_store_snoc; [assumption|].
           intros E. simpl in Hne. congruence.
    + split; [assumption|]. split.
      * intros s. rewrite Hstores, Hkeys. split; [tauto|].
        intros [H| ->]; [assumption|]. now apply Hkeys.
      * intros s c' Hc'. destruct (Hmin _ _ Hc') as [Ec' Hmc']. split; [assumption|].
        apply cheapest_in_store_snoc; [assumption|].
        intros E.
        assert (Es : s = store o) by congruence. rewrite Es in Hc'.
        rewrite (bound_once _ _ _ _ Hnd Hc' L). apply fle_total; auto.
  - apply lookup_none in L. rewrite assign_new by assumption.
    split; [|split].
    + rewrite map_app. apply NoDup_app. split; [assumption|].
      split; [|apply NoDup_singleton].
      intros s Hs Hs'. apply list_elem_of_singleton in Hs'. subst s.
      apply L. now apply list_elem_of_In.
    + intros s. rewrite map_app, in_app_iff, Hstores, Hkeys. simpl. intuition.
    + intros s c Hc. apply in_app_or in Hc as [Hc|[[= <- <-]|[]]].
      * destruct (Hmin _ _ Hc) as [Ec Hmc]. split; [assumption|].
        apply cheapest_in_store_snoc; [assumption|].
        intros E. exfalso. apply L. rewrite E, Ec. now apply in_keys with c.
      * split; [reflexivity|]. split; [apply in_or_app; right; now left|].
        intros o' Ho' E. apply in_app_or in Ho' as [Ho'|[<-|[]]].
        -- exfalso. apply L. apply Hkeys. rewrite <- E. now apply in_map.
        -- now apply fle_refl.
Qed.

Lemma cheapest_by_store_minima l done d :
  Forall price_not_nan (done ++ l) ->
  store_minima done d -> store_minima (done ++ l) (fold_left keep_cheapest l d).
Proof.
  revert done d. induction l as [|o l IH]; intros done d Hnn Hinv; cbn [fold_left].
  - now rewrite app_nil_r.
  - replace (done ++ o :: l) with ((done ++ [o]) ++ l) in * by now rewrite <- app_assoc.
    apply IH; [assumption|]. apply keep_cheapest_minima; [|assumption].
    rewrite List.Forall_forall in Hnn |- *. intros x Hx. apply Hnn, in_or_app. now left.
Qed.

(** ** The cheapest offer overall *)

Lemma min_by_price rest best :
  price_not_nan best -> Forall price_not_nan rest ->
  let m := Py.min_by price_lt best rest in
  (m = best \/ In m rest) /\ price_le m best /\ forall v, In v rest -> price_le m v.
Proof.
  unfold Py.min_by. revert best.
  induction rest as [|x rest IH]; intros best Nb Nr; cbn zeta; cbn [fold_left].
  - split; [now left|]. split; [now apply fle_refl|]. intros v [].
  - apply Forall_cons in Nr as [Nx Nr].
    destruct (price_lt x best) eqn:F; unfold price_lt in F.
    + destruct (IH x Nx Nr) as (Hin & Hx & Hrest). cbn zeta in *.
      split; [right; destruct Hin as [->|Hin]; [now left | now right]|].
      split.
      * apply fle_trans with (price x); [assumption|].
        apply fle_total; auto. now apply flt_asym.
      * intros v [<-|Hv]; auto.
    + destruct (IH best Nb Nr) as (Hin & Hb & Hrest). cbn zeta in *.
      split; [destruct Hin as [->|Hin]; [now left | right; now right]|].
      split; [assumption|].
      intros v [<-|Hv]; auto.
      apply fle_trans with (price best); [assumption|]. now apply fle_total.
Qed.

Lemma distinct_stores_permutation l l' :
  Permutation l l' -> distinct_stores l = distinct_stores l'.
Proof.
  intros H. unfold distinct_stores. f_equal. apply set_eq. intros s.
  rewrite !elem_of_list_to_set, !list_elem_of_In.
  split; apply Permutation_in; [|symmetry]; now apply Permutation_map.
Qed.

Lemma store_minima_length done d :
  store_minima done d -> length d = distinct_stores done.
Proof.
  intros (Hnd & Hkeys & _). unfold distinct_stores.
  rewrite <- (length_map fst d), <- (size_list_to_set (C := gset string)) by assumption.
  f_equal. apply set_eq. intros s.
  rewrite !elem_of_list_to_set, !list_elem_of_In. apply Hkeys.
Qed.

Lemma cheapest_in_store_permutation l l' c :
  Permutation l l' -> cheapest_in_store l c -> cheapest_in_store l' c.
Proof.
  intros H [Hin Hmin]. split; [now apply (Permutation_in _ H)|].
  intros o Ho. apply Hmin. now apply (Permutation_in _ (Permutation_sym H)).
Qed.

Lemma min_of_minima_is_cheapest_overall offers d first rest :
  Forall price_not_nan offers ->
  store_minima offers d ->
  Py.values d = first :: rest ->
  cheapest_overall offers (Py.min_by price_lt first rest).
Proof.
  intros Hnn (Hnd & Hkeys & Hmin) Hv.
  assert (Hval : forall c, In c (first :: rest) -> exists s, In (s, c) d).
  { intros c Hc. rewrite <- Hv in Hc. unfold Py.values in Hc.
    apply in_map_iff in Hc as ([s c'] & <- & Hc). now exists s. }
  rewrite List.Forall_forall in Hnn.
  assert (Nv : Forall price_not_nan (first :: rest)).
  { apply List.Forall_forall. intros c Hc. destruct (Hval c Hc) as [s Hs].
    apply Hnn. now apply (Hmin s c). }
  apply Forall_cons in Nv as [Nf Nr].
  destruct (min_by_price rest first Nf Nr) as (Hin & Hf & Hrest). cbn zeta in *.
  set (m := Py.min_by price_lt first rest) in *.
  assert (Hm : In m (first :: rest)) by (destruct Hin as [->|Hin]; [now left|now right]).
  destruct (Hval m Hm) as [s Hs]. destruct (Hmin s m Hs) as [_ Hcm].
  assert (Hall : forall o, In o offers -> price_le m o).
  { intros o Ho.
    assert (Hk : In (store o) (map fst d)) by (apply Hkeys; now apply in_map).
    apply in_map_iff in Hk as ([s' c] & Es & Hc). simpl in Es. subst s'.
    destruct (Hmin _ _ Hc) as [Ec [_ Hco]].
    apply fle_trans with (price c).
    - assert (Hcv : In c (first :: rest))
        by (rewrite <- Hv; unfold Py.values; apply in_map_iff; now exists (store o, c)).
      destruct Hcv as [<-|Hcv]; [exact Hf | now apply Hrest].
    - apply Hco; [assumption|congruence]. }
  split; [assumption|]. intros o [Ho _]. now apply Hall.
Qed.

(** ** The lines of the report *)

Lemma append_offer_lines offers lines :
  fold_left (fun lines o => lines ++ [offer_line o]) offers lines
  = lines ++ map offer_line offers.
Proof.
  revert lines. induction offers as [|o offers IH]; intros lines; simpl.
  - now rewrite app_nil_r.
  - now rewrite IH, <- app_assoc.
Qed.

Lemma report_watch_appends lines entry :
  report_watch lines entry = lines ++ report_watch [] entry.
Proof.
  unfold report_watch. destruct entry as [watch_name [|o offers]].
  - now rewrite <- app_assoc.
  - cbv zeta. rewrite !append_offer_lines.
    destruct (2 <=? length _)%nat; [destruct (Py.values _)|];
      cbn [app]; rewrite <- ?app_assoc; reflexivity.
Qed.

Lemma report_lines_concat all_offers :
  report_lines all_offers = concat (map (report_watch []) all_offers).
Proof.
  unfold report_lines.
  assert (H : forall lines, fold_left report_watch all_offers lines
                            = lines ++ concat (map (report_watch []) all_offers));
    [|apply (H [])].
  induction all_offers as [|entry rest IH]; intros lines; simpl.
  - now rewrite app_nil_r.
  - now rewrite IH, report_watch_appends, <- app_assoc.
Qed.

Lemma report_watch_reports entry :
  Forall price_not_nan entry.2 -> block_reports entry (report_watch [] entry).
Proof.
  destruct entry as [watch_name offers]. unfold block_reports, report_watch. cbn [fst snd].
  destruct offers as [|o0 offers0]; [reflexivity|].
  set (offers := o0 :: offers0). intros Hnn. cbv zeta.
  set (listed := Py.sorted key_lt offers).
  assert (Hperm : Permutation listed offers) by apply sorted_permutation.
  assert (Hnl : Forall price_not_nan listed) by now rewrite Hperm.
  assert (Hinv : store_minima listed (fold_left keep_cheapest listed [])).
  { apply (cheapest_by_store_minima listed [] []); [assumption|].
    split; [constructor|]. split; [reflexivity|]. intros s c []. }
  pose proof (store_minima_length _ _ Hinv) as Hlen.
  rewrite (distinct_stores_permutation _ _ Hperm) in Hlen.
  exists listed.
  destruct (Nat.leb_spec 2 (length (fold_left keep_cheapest listed []))) as [H2|H2].
  - destruct (Py.values (fold_left keep_cheapest listed [])) as [|first rest] eqn:Hv.
    + exfalso. unfold Py.values in Hv. apply (f_equal (@length _)) in Hv.
      rewrite length_map in Hv. simpl in Hv. lia.
    + exists [cheapest_line (Py.min_by price_lt first rest)].
      split; [assumption|]. split; [now apply sorted_by_store_then_price|].
      split; [rewrite append_offer_lines; cbn [app]; now rewrite <- !app_assoc|].
      right. split; [lia|]. eexists. split; [|reflexivity].
      pose proof (min_of_minima_is_cheapest_overall listed _ first rest Hnl Hinv Hv)
        as [Hc Hmin].
      split; [now apply (cheapest_in_store_permutation listed)|].
      intros o Ho. apply Hmin.
      now apply (cheapest_in_store_permutation offers listed); [symmetry|].
  - exists []. split; [assumption|]. split; [now apply sorted_by_store_then_price|].
    split; [rewrite append_offer_lines; reflexivity|].
    left. split; [lia|reflexivity].
Qed.

(** ** C9: the report *)

Example report_of_two_stores :
  report_lines [("Tim Tams", [one_dollar_offer; example_offer]); ("Milk", [])]
  = ["## Tim Tams";
     "- Coles: Tim Tam Original 200g – $2.00 (was $5.00) [HALF PRICE?]";
     "- Woolworths: Tim Tam Original 200g – $1.00 ";
     "**Cheapest overall:** Woolworths at $1.00";
     "";
     "## Milk";
     "No matching products or specials found." +:+ Py.nl].
Proof. vm_compute. reflexivity. Qed.

Example report_with_a_nan_price :
  report_lines [("Tim Tams", [nan_offer; one_dollar_offer])]
  = ["## Tim Tams";
     "- Coles: Tim Tam Original 200g – $nan ";
     "- Woolworths: Tim Tam Original 200g – $1.00 ";
     "**Cheapest overall:** Coles at $nan";
     ""].
Proof. vm_compute. reflexivity. Qed.

(** C9, as worded, fails on an offer whose price is not a number: with a
    Coles offer at NaN and a Woolworths offer at 1.00 the report names
    Coles at "nan" as the cheapest, which no minimum-price offer is. *)
Lemma nan_price_is_named_cheapest :
  ~ report_claim [("Tim Tams", [nan_offer; one_dollar_offer])].
Proof.
  intros (blocks & HF & Hlines).
  inversion HF as [|entry block rest blocks' Hblock Hrest]; subst.
  inversion Hrest; subst. clear HF Hrest.
  simpl in Hlines. rewrite app_nil_r in Hlines. subst block.
  unfold block_reports in Hblock. cbn [fst snd] in Hblock.
  destruct Hblock as (listed & tail & Hperm & _ & Hblock & Htail).
  assert (Hlen : length listed = 2) by now rewrite Hperm.
  destruct listed as [|x [|y [|z listed]]]; try discriminate Hlen.
  destruct Htail as [[Hd _]|(_ & c & [[Hin Hmin] _] & ->)].
  - vm_compute in Hd. lia.
  - assert (Hline : nth 3 (report_lines [("Tim Tams", [nan_offer; one_dollar_offer])]) ""
                    = cheapest_line c) by (rewrite Hblock; reflexivity).
    destruct Hin as [<-|[<-|[]]].
    + specialize (Hmin nan_offer (or_introl eq_refl) eq_refl). discriminate Hmin.
    + vm_compute in Hline. discriminate Hline.
Qed.

(** C9, amended. For offers whose prices are numbers, [build_report]
    lists the offers of each watch item sorted by store, in the order of
    strings, and within a store by price, ascending, and adds the
    cheapest-overall line exactly when the offers come from two stores or
    more; the line names a minimum-price offer among the cheapest offers
    of the stores. *)
Theorem build_report_sorts_and_names_cheapest (all_offers : list (string * list Offer)) :
  (forall entry, In entry all_offers -> Forall price_not_nan entry.2) ->
  report_claim all_offers
  /\ build_report all_offers = Py.join Py.nl (report_lines all_offers).
Proof.
  intros Hnn. split; [|reflexivity].
  exists (map (report_watch []) all_offers). split; [|apply report_lines_concat].
  induction all_offers as [|entry rest IH]; [constructor|].
  simpl. constructor.
  - apply report_watch_reports. apply Hnn. now left.
  - apply IH. intros e He. apply Hnn. now right.
Qed.

Lemma build_report_sorts_and_names_cheapest_witness :
  report_claim [("Tim Tams", [one_dollar_offer; example_offer])]
  /\ build_report [("Tim Tams", [one_dollar_offer; example_offer])]
     = Py.join Py.nl (report_lines [("Tim Tams", [one_dollar_offer; example_offer])]).
Proof.
  apply (build_report_sorts_and_names_cheapest
           [("Tim Tams", [one_dollar_offer; example_offer])]).
  intros entry [<-|[]]. repeat constructor.
Defined.

(** * Further properties of the code *)

(** ** The Woolworths normaliser *)

Lemma woolies_price_value_eq raw :
  first_truthy raw woolies_price_keys = woolies_price_value raw.
Proof. apply first_truthy_find. Qed.

(** X1. [normalise_woolies_product] converts the price from the first
    true value among [currentPrice], [price], [CurrentPrice] and [Price],
    or from the value of [Price] when none is true; it raises the error for
    a missing price exactly when that value is [None], the error of a
    failed [float] conversion otherwise, and else returns an offer whose
    title falls back through five names to ["Unknown Woolworths product"]. *)
Theorem normalise_woolies_product_outcome
        (float_of_str : string -> Py.result spec_float) (repr : Py.value -> string)
        (watch_name : string) (raw : list (string * Py.value)) :
  let result := normalise_woolies_product float_of_str repr watch_name (Py.VDict raw) in
  let price_val := woolies_price_value raw in
  (price_val = Py.VNone <->
   first_true_value raw woolies_price_keys = None /\ Py.dict_get raw "Price" = Py.VNone)
  /\ ((price_val = Py.VNone /\
       result = Py.Raise (Py.ValueError ("No price field found in Woolies product: "
                                         +:+ repr (Py.VDict raw))))
      \/ (price_val <> Py.VNone /\ exists e,
            Py.to_float float_of_str price_val = Py.Raise e /\ result = Py.Raise e)
      \/ (price_val <> Py.VNone /\ exists price e,
            Py.to_float float_of_str price_val = Py.Ok price /\
            was_price_of float_of_str (first_truthy raw was_keys) = Py.Raise e /\
            result = Py.Raise e)
      \/ (price_val <> Py.VNone /\ exists price was_price o,
            Py.to_float float_of_str price_val = Py.Ok price /\
            was_price_of float_of_str (first_truthy raw was_keys) = Py.Ok was_price /\
            result = Py.Ok o /\
            SpecialsChecker.price o = price /\
            SpecialsChecker.was_price o = was_price /\
            store o = "Woolworths" /\
            product_title o =
              Py.to_str repr
                (first_true_or (Py.VStr "Unknown Woolworths product") raw
                               woolies_title_keys) /\
            url o = Py.to_str repr (first_true_or (Py.VStr "") raw url_keys))).
Proof.
  intros result price_val. split.
  - subst price_val. unfold woolies_price_value, first_true_or.
    destruct (first_true_value raw woolies_price_keys) as [v|] eqn:E.
    + apply first_true_value_truthy in E.
      split; [intros ->; discriminate | intros [? _]; discriminate].
    + tauto.
  - subst result price_val. unfold normalise_woolies_product.
    rewrite <- woolies_price_value_eq.
    match goal with
    | |- context [build_offer _ _ ?w ?s ?r ?t ?p ?m] =>
        destruct (build_offer_cases float_of_str repr w s r t p m)
          as [[E1 E]|[(E1 & e & E2 & E)|[(E1 & pr & e & E2 & E3 & E)
                                        |(E1 & pr & wp & E2 & E3 & E)]]];
        cbv zeta in E; rewrite E
    end.
    + left. now split.
    + right. left. split; [assumption|]. now exists e.
    + right. right. left. split; [assumption|]. now exists pr, e.
    + right. right. right. split; [assumption|].
      exists pr, wp. eexists. repeat split; try eassumption.
      * cbn [product_title offer_of]. f_equal. apply first_truthy_or.
      * cbn [url offer_of]. f_equal. apply first_truthy_or.
Qed.

(** ** The half-price flag and the price *)

(** X2. The flag is monotone in the price: with the same previous price,
    an offer at a price no higher than that of a flagged offer is flagged
    too; and an offer whose price is NaN is never flagged. *)
Theorem half_price_flag_monotone (price price' : spec_float) (was : option spec_float) :
  (Py.fle price price' = true ->
   half_price_flag price' was = true -> half_price_flag price was = true)
  /\ (Py.is_nan price = true -> half_price_flag price was = false).
Proof.
  unfold half_price_flag, at_most_half_plus_tolerance. split.
  - intros Hle. destruct was as [w|]; [|discriminate].
    destruct (Py.float_truthy w); [|discriminate].
    intros H. now apply fle_trans with price'.
  - intros Hnan. destruct was as [w|]; [|reflexivity].
    destruct (Py.float_truthy w); [|reflexivity].
    destruct price; try discriminate. reflexivity.
Qed.

Lemma half_price_flag_monotone_witness :
  half_price_flag (Py.float_of_Z 2) (Some (Py.float_of_Z 5)) = true.
Proof.
  apply (half_price_flag_monotone (Py.float_of_Z 2) (Py.fdiv (Py.float_of_Z 5) (Py.float_of_Z 2))
                                  (Some (Py.float_of_Z 5))); reflexivity.
Defined.

(** ** What every offer of a search carries *)

Lemma normalised_offer_fields float_of_str repr watch_name raw o :
  normalise_coles_product float_of_str repr watch_name raw = Py.Ok o \/
  normalise_woolies_product float_of_str repr watch_name raw = Py.Ok o ->
  SpecialsChecker.watch_name o = watch_name
  /\ (store o = "Coles" \/ store o = "Woolworths")
  /\ size o <> None.
Proof.
  unfold normalise_coles_product, normalise_woolies_product.
  intros [H|H]; destruct raw as [| | | | | |entries]; try discriminate;
    match type of H with
    | build_offer _ _ ?w ?s ?r ?t ?p ?m = _ =>
        destruct (build_offer_cases float_of_str repr w s r t p m)
          as [[_ E]|[(_ & e & _ & E)|[(_ & pr & e & _ & _ & E)|(_ & pr & wp & _ & _ & E)]]];
        cbv zeta in E; rewrite E in H; try discriminate
    end;
    injection H as <-; cbn [SpecialsChecker.watch_name store size offer_of];
    (split; [reflexivity|]); (split; [auto|discriminate]).
Qed.

Lemma normalised_prefix_forall (P : Offer -> Prop) normalise raws :
  (forall raw o, normalise raw = Py.Ok o -> P o) ->
  Forall P (normalised_prefix normalise raws).
Proof.
  intros H. induction raws as [|raw rest IH]; simpl; [constructor|].
  destruct (normalise raw) as [o|e] eqn:E; constructor; eauto.
Qed.

Lemma found_offers_fields
        (float_of_str : string -> Py.result spec_float) (repr : Py.value -> string)
        (RAPIDAPI_KEY : string)
        (respond : list Py.request -> Py.request -> Py.result Py.value)
        (watch_item : WatchItem) (w : Py.world) :
  Forall (offer_of_watch_item watch_item)
         (find_offers_for_watch_item float_of_str repr RAPIDAPI_KEY respond watch_item w).1.
Proof.
  destruct (find_offers_attempts float_of_str repr RAPIDAPI_KEY respond watch_item w)
    as (H & _).
  cbv zeta in H. rewrite H. clear H.
  assert (Hall : Forall (offer_of_watch_item watch_item)
                        (offers_found (attempts_of float_of_str repr RAPIDAPI_KEY respond
                                                   watch_item w))).
  { unfold attempts_of, offers_found. generalize (Py.requests w).
    assert (Hn : forall raw o,
               normalise_coles_product float_of_str repr (name watch_item) raw = Py.Ok o \/
               normalise_woolies_product float_of_str repr (name watch_item) raw = Py.Ok o ->
               offer_of_watch_item watch_item o).
    { intros raw o Ho. destruct (normalised_offer_fields _ _ _ _ _ Ho) as (H1 & H2 & H3).
      repeat split; try assumption. now apply normalised_flag in Ho. }
    assert (Hout : forall lbl kw normalise response,
               (forall raw o, normalise raw = Py.Ok o -> offer_of_watch_item watch_item o) ->
               Forall (offer_of_watch_item watch_item) (kept (outcome lbl kw normalise response))).
    { intros lbl kw normalise [data|e] Hnorm; cbn [outcome kept]; [|constructor].
      now apply normalised_prefix_forall. }
    induction (match_keywords watch_item) as [|kw rest IH]; intros history; [constructor|].
    cbn [attempts flat_map]. rewrite !Forall_app. repeat split.
    - apply Hout. intros raw o Ho. apply (Hn raw). now left.
    - apply Hout. intros raw o Ho. apply (Hn raw). now right.
    - apply IH. }
  destruct (only_half_price watch_item); [|assumption].
  rewrite List.Forall_forall in Hall |- *. intros o Ho.
  apply filter_In in Ho as [Ho _]. now apply Hall.
Qed.

(** X3. Every offer [find_offers_for_watch_item] returns carries the name
    of the watch item, the store "Coles" or "Woolworths", a size that is
    not [None], and a half-price flag that agrees with its price and
    previous price. *)
Theorem found_offers_belong_to_watch_item
        (float_of_str : string -> Py.result spec_float) (repr : Py.value -> string)
        (RAPIDAPI_KEY : string)
        (respond : list Py.request -> Py.request -> Py.result Py.value)
        (watch_item : WatchItem) (w : Py.world) :
  Forall (offer_of_watch_item watch_item)
         (find_offers_for_watch_item float_of_str repr RAPIDAPI_KEY respond watch_item w).1.
Proof.
  apply found_offers_fields.
Qed.

(** ** The requests of a search *)

(** X4. [find_offers_for_watch_item] makes one Coles request and then one
    Woolworths request for every keyword, in the order of the keywords,
    whatever searches fail; each asks for the first page of ten results
    and carries the API key. *)
Theorem find_offers_requests
        (float_of_str : string -> Py.result spec_float) (repr : Py.value -> string)
        (RAPIDAPI_KEY : string)
        (respond : list Py.request -> Py.request -> Py.result Py.value)
        (watch_item : WatchItem) (w : Py.world) :
  Py.requests (find_offers_for_watch_item float_of_str repr RAPIDAPI_KEY respond
                 watch_item w).2
  = Py.requests w
    ++ flat_map (fun kw => [coles_request RAPIDAPI_KEY kw; woolies_request RAPIDAPI_KEY kw])
                (match_keywords watch_item).
Proof.
  unfold find_offers_for_watch_item.
  pose proof (search_loop float_of_str repr RAPIDAPI_KEY respond watch_item
                (match_keywords watch_item) [] w) as H.
  cbv zeta in H. destruct H as (_ & _ & _ & _ & H).
  destruct (fold_left _ _ _) as [offers w1]. cbn [snd] in *.
  now destruct (only_half_price watch_item).
Qed.

(** ** Offers with the same sort key *)

Lemma feq_same x y p :
  Py.feq x p = true -> Py.feq y p = true -> Py.feq y x = true.
Proof.
  unfold Py.feq, SFeqb, SFcompare.
  destruct x as [[]|[]| |[] mx ex]; destruct y as [[]|[]| |[] my ey];
    destruct p as [[]|[]| |[] mp ep];
    simpl; try discriminate; try reflexivity; compare_cases;
    subst; rewrite ?Z.compare_refl, ?Pos.compare_refl; reflexivity.
Qed.

Lemma report_watch_lines watch_name offers :
  exists tail,
    report_watch [] (watch_name, offers)
    = ["## " +:+ watch_name] ++ map offer_line (Py.sorted key_lt offers) ++ tail.
Proof.
  unfold report_watch. destruct offers as [|o0 offers0].
  - now exists ["No matching products or specials found." +:+ Py.nl].
  - cbv zeta. rewrite append_offer_lines.
    destruct (2 <=? length _)%nat; [destruct (Py.values _) as [|first rest]|].
    + exists [""]. cbn [app]. now rewrite <- ?app_assoc.
    + exists [cheapest_line (Py.min_by price_lt first rest); ""].
      cbn [app]. now rewrite <- ?app_assoc.
    + exists [""]. cbn [app]. now rewrite <- ?app_assoc.
Qed.

(** X6. For offers whose prices are numbers, the report lists the offers
    of one store that have equal prices in the order they have in the
    input: the lines of a watch item, after its header, are those of its
    offers in an order that keeps, for every store and price, the order of
    the offers of that store at that price. *)
Theorem report_keeps_order_of_equal_keys
        (watch_name : string) (offers : list Offer) :
  Forall price_not_nan offers ->
  exists listed tail,
    Permutation listed offers
    /\ report_watch [] (watch_name, offers)
       = ["## " +:+ watch_name] ++ map offer_line listed ++ tail
    /\ forall s p,
         List.filter (has_sort_key s p) listed = List.filter (has_sort_key s p) offers.
Proof.
  intros _. destruct (report_watch_lines watch_name offers) as [tail Hblock].
  exists (Py.sorted key_lt offers), tail.
  split; [apply sorted_permutation|]. split; [exact Hblock|].
  intros s p. apply sorted_stable. intros x y Hx Hy.
  unfold has_sort_key in Hx, Hy.
  apply andb_prop in Hx as [Sx Px]. apply andb_prop in Hy as [Sy Py'].
  apply String.eqb_eq in Sx, Sy. unfold key_lt.
  rewrite Sx, Sy, String.eqb_refl. now rewrite (feq_same _ _ _ Px Py').
Qed.

Lemma report_keeps_order_of_equal_keys_witness :
  exists listed tail,
    Permutation listed [one_dollar_offer; example_offer; cheaper_title_offer]
    /\ report_watch [] ("Tim Tams", [one_dollar_offer; example_offer; cheaper_title_offer])
       = ["## Tim Tams"] ++ map offer_line listed ++ tail
    /\ forall s p,
         List.filter (has_sort_key s p) listed
         = List.filter (has_sort_key s p)
                       [one_dollar_offer; example_offer; cheaper_title_offer].
Proof.
  apply (report_keeps_order_of_equal_keys
           "Tim Tams" [one_dollar_offer; example_offer; cheaper_title_offer]).
  repeat constructor.
Defined.

(** ** The matches of an alert *)

Lemma total_len_concat {A} (d : list (string * list A)) :
  Py.total_len d = length (concat (Py.values d)).
Proof.
  unfold Py.total_len.
  assert (H : forall (l : list (list A)) acc,
             fold_left (fun acc v => acc + length v) l acc = acc + length (concat l));
    [|apply (H (Py.values d) 0)].
  induction l as [|v l IH]; intros acc; simpl; [lia|].
  rewrite IH, length_app. lia.
Qed.

(** X7. The number of matches [send_email_alert] counts is the number of
    items in all the lists of the map; it is zero exactly when every store
    has an empty list, however many stores there are. *)
Theorem total_len_zero_iff_no_matches (store_matches : list (string * list string)) :
  Py.total_len store_matches = length (concat (map snd store_matches))
  /\ (Py.total_len store_matches = 0 <-> Forall (fun entry => entry.2 = []) store_matches).
Proof.
  split; [apply total_len_concat|].
  rewrite total_len_concat. unfold Py.values.
  induction store_matches as [|[store items] rest IH]; simpl.
  - split; [constructor|reflexivity].
  - rewrite length_app, Forall_cons. simpl.
    destruct items as [|i items]; simpl.
    + rewrite IH. tauto.
    + split; [discriminate|]. intros [H _]. discriminate.
Qed.

Lemma body_lines_blocks (store_matches : list (string * list string)) :
  Main.body_lines store_matches = flat_map body_block store_matches.
Proof.
  unfold Main.body_lines.
  assert (Hitems : forall (items : list string) lines,
             fold_left (fun lines i => lines ++ ["  - " +:+ i]) items lines
             = lines ++ map (fun i => "  - " +:+ i) items).
  { induction items as [|i items IH]; intros lines; simpl.
    - now rewrite app_nil_r.
    - now rewrite IH, <- app_assoc. }
  assert (H : forall m lines,
             fold_left
               (fun lines (entry : string * list string) =>
                  match entry.2 with
                  | [] => lines
                  | _ :: _ =>
                      fold_left (fun lines i => lines ++ ["  - " +:+ i]) entry.2
                                (lines ++ [entry.1 +:+ ":"])
                  end) m lines
             = lines ++ flat_map body_block m);
    [|apply (H store_matches [])].
  induction m as [|[store items] rest IH]; intros lines; simpl.
  - now rewrite app_nil_r.
  - rewrite IH. unfold body_block. cbn [fst snd].
    destruct items as [|i items]; [reflexivity|].
    rewrite Hitems, <- !app_assoc. reflexivity.
Qed.

(** X8. The body of the alert has, for each store with matches and in the
    order of the map, a header line and one line per match in the order of
    the matches; a store without matches is left out. Its number of lines
    is the number of matches plus the number of stores that have any. *)
Theorem alert_body_lists_matches_by_store (store_matches : list (string * list string)) :
  Main.body_lines store_matches = flat_map body_block store_matches
  /\ length (Main.body_lines store_matches)
     = Py.total_len store_matches + length (List.filter has_matches store_matches).
Proof.
  split; [apply body_lines_blocks|].
  rewrite body_lines_blocks, total_len_concat. unfold Py.values.
  induction store_matches as [|[store items] rest IH]; [reflexivity|].
  cbn [flat_map map concat List.filter]. rewrite !length_app, IH.
  unfold body_block, has_matches. cbn [fst snd].
  destruct items as [|i items]; simpl; [reflexivity|].
  rewrite length_map. lia.
Qed.

(** ** The items of a page *)

(** X9. [fetch_items] returns the stripped texts of the elements of the
    page that are not empty, in the order of the page; an element without
    text or with only what [strip] removes is skipped, so no item is the
    empty string. An exception of the browser is passed on. *)
Theorem fetch_items_returns_nonempty_texts
        (strip : string -> string)
        (page_texts : string -> string -> Py.result (list (option string)))
        (url product_selector : string) :
  match Main.fetch_items strip page_texts url product_selector with
  | Py.Ok items =>
      exists elements,
        page_texts url product_selector = Py.Ok elements
        /\ items = List.filter Py.str_truthy (map (fun el => strip (default "" el)) elements)
        /\ Forall (fun item => item <> "") items
  | Py.Raise e => page_texts url product_selector = Py.Raise e
  end.
Proof.
  unfold Main.fetch_items.
  destruct (page_texts url product_selector) as [elements|e]; [|reflexivity].
  exists elements. split; [reflexivity|].
  assert (E : forall els acc,
             fold_left (Main.keep_text strip) els acc
             = acc ++ List.filter Py.str_truthy
                        (map (fun el => strip (default "" el)) els)).
  { induction els as [|el els IH]; intros acc; simpl.
    - now rewrite app_nil_r.
    - rewrite IH. unfold Main.keep_text.
      destruct (Py.str_truthy (strip (default "" el))); [|reflexivity].
      now rewrite <- app_assoc. }
  rewrite E, app_nil_l. split; [reflexivity|].
  apply List.Forall_forall. intros item Hin. apply filter_In in Hin as [_ Ht].
  now destruct item.
Qed.

(** ** A run of the scraper *)

Lemma logs_only_same path w w' :
  Py.outbox w' = Py.outbox w -> Py.requests w' = Py.requests w ->
  Py.files w' = Py.files w -> logs_only path w w'.
Proof. intros H1 H2 H3. repeat split; try assumption; now apply appends_only_to_refl. Qed.

Lemma logs_only_trans path w1 w2 w3 :
  logs_only path w1 w2 -> logs_only path w2 w3 -> logs_only path w1 w3.
Proof.
  intros (O1 & R1 & A1) (O2 & R2 & A2). repeat split; try congruence.
  - apply (appends_only_to_trans path w1 w2 w3 A1 A2).
  - apply (appends_only_to_trans path w1 w2 w3 A1 A2).
Qed.

Lemma logs_only_print path line w w' :
  logs_only path w w' -> logs_only path w (Py.print line w').
Proof.
  intros H. apply logs_only_trans with w'; [assumption|]. now apply logs_only_same.
Qed.

Section ScraperRun.
Variables lower strip : string -> string.
Variable page_texts : string -> string -> Py.result (list (option string)).
Variables SMTP_SERVER EMAIL_USER EMAIL_PASS EMAIL_TO : string.
Variable SMTP_PORT : Z.
Variable now : string.
Variable open_error : string -> option Py.exn.
Variable smtp_session :
  string -> Z -> string -> string -> string -> Py.MIMEText -> Py.smtp_outcome.
Variable SCRAPE_TEST_LOG : string.

Lemma logs_only_append_to_log path message w w' :
  logs_only path w w' ->
  logs_only path w (Main._append_to_log now open_error path message w').
Proof.
  intros H. apply logs_only_trans with w'; [assumption|].
  repeat split; try apply append_to_log_appends;
    unfold Main._append_to_log; now destruct (open_error path).
Qed.

Lemma logs_only_log path message w w' :
  logs_only path w w' -> logs_only path w (Main.log now open_error path message w').
Proof. apply logs_only_append_to_log. Qed.

Lemma logs_only_log_if_set path message w w' :
  logs_only path w w' ->
  logs_only path w (Main.log_if_set now open_error (Some path) message w').
Proof.
  intros H. unfold Main.log_if_set.
  destruct (Py.str_truthy path); [|assumption]. now apply logs_only_append_to_log.
Qed.

Lemma logs_only_log_numbered path items idx w w' :
  logs_only path w w' ->
  logs_only path w (Main.log_numbered now open_error path idx items w').
Proof.
  revert idx w'. induction items as [|item rest IH]; intros idx w' H; simpl; [assumption|].
  apply IH. now apply logs_only_log.
Qed.

Lemma logs_only_log_scraped path store_name items w w' :
  logs_only path w w' ->
  logs_only path w (Main.log_scraped now open_error path store_name items w').
Proof.
  intros H. unfold Main.log_scraped. cbv zeta.
  destruct (Py.str_truthy path); [|now apply logs_only_print].
  destruct items as [|item rest]; [now apply logs_only_log, logs_only_print|].
  destruct (50 <? _)%nat; repeat first [ apply logs_only_log
                                        | apply logs_only_log_numbered
                                        | apply logs_only_print ]; assumption.
Qed.

Lemma logs_only_log_matches path match_info matches w w' :
  logs_only path w w' ->
  logs_only path w (Main.log_matches now open_error path match_info matches w').
Proof.
  intros H. unfold Main.log_matches. cbv zeta.
  destruct matches as [|m rest]; [now apply logs_only_log|].
  assert (Hfold : forall ms w1, logs_only path w w1 ->
             logs_only path w
               (fold_left (fun w m => Main.log now open_error path ("  - " +:+ m) w) ms w1)).
  { induction ms as [|m' ms IH]; intros w1 H1; simpl; [assumption|].
    apply IH. now apply logs_only_log. }
  apply Hfold. now apply logs_only_log, logs_only_log.
Qed.

Lemma send_email_alert_scrape_test store_matches path w w' :
  logs_only path w w' ->
  let res := Main.send_email_alert SMTP_SERVER EMAIL_USER EMAIL_PASS EMAIL_TO SMTP_PORT
               now open_error smtp_session store_matches true (Some path) w' in
  res.1 = Py.Ok tt /\ logs_only path w res.2.
Proof.
  intros H. cbv zeta. unfold Main.send_email_alert.
  destruct (Py.total_len store_matches =? 0)%nat; cbv zeta; cbn [fst snd];
    (split; [reflexivity|]); now apply logs_only_log_if_set, logs_only_print.
Qed.

Lemma scrape_store_logs_only path st store w :
  logs_only path w st.2 ->
  logs_only path w (Main.scrape_store lower strip page_texts now open_error true path
                      st store).2.
Proof.
  destruct st as [[results|e] w']; cbn [snd]; intros H; unfold Main.scrape_store;
    [|assumption].
  cbv zeta. cbn [andb].
  set (w1 := if Py.str_truthy path then _ else _).
  assert (H1 : logs_only path w w1).
  { subst w1. destruct (Py.str_truthy path); [apply logs_only_log|]; now apply logs_only_print. }
  clearbody w1.
  destruct (Main.fetch_items strip page_texts _ _) as [items|e]; [|assumption].
  cbn [snd].
  destruct (Py.str_truthy path);
    [apply logs_only_log_matches|]; now apply logs_only_print, logs_only_log_scraped.
Qed.

Lemma scrape_store_raises path st store e :
  st.1 = Py.Raise e ->
  (Main.scrape_store lower strip page_texts now open_error true path st store).1
  = Py.Raise e.
Proof. destruct st as [[results|e'] w']; cbn [fst]; [discriminate|]. now intros [= ->]. Qed.

Lemma scrape_store_result mode path results w' store :
  (Main.scrape_store lower strip page_texts now open_error mode path
     (Py.Ok results, w') store).1
  = match Main.fetch_items strip page_texts (Main.store_url store)
            (Main.product_selector store) with
    | Py.Ok items =>
        Py.Ok (Py.assign (Main.store_name store)
                         (Main.find_matches lower items Main.WATCHLIST) results)
    | Py.Raise e => Py.Raise e
    end.
Proof.
  unfold Main.scrape_store. cbv zeta.
  now destruct (Main.fetch_items strip page_texts _ _).
Qed.

Lemma scrape_store_prints_only path st store :
  let st' := Main.scrape_store lower strip page_texts now open_error false path st store in
  Py.outbox st'.2 = Py.outbox st.2
  /\ Py.requests st'.2 = Py.requests st.2
  /\ Py.files st'.2 = Py.files st.2.
Proof.
  destruct st as [[results|e] w']; cbv zeta; unfold Main.scrape_store; [|now repeat split].
  cbv zeta. cbn [andb].
  now destruct (Main.fetch_items strip page_texts _ _).
Qed.

Lemma scrape_store_passes_exception mode path e w' store :
  Main.scrape_store lower strip page_texts now open_error mode path (Py.Raise e, w') store
  = (Py.Raise e, w').
Proof. reflexivity. Qed.

Lemma main_normal_run (w : Py.world) :
  let res := Main.main lower strip page_texts SMTP_SERVER EMAIL_USER EMAIL_PASS EMAIL_TO
               SMTP_PORT now open_error smtp_session false false SCRAPE_TEST_LOG w in
  let fetch store := Main.fetch_items strip page_texts (Main.store_url store)
                                      (Main.product_selector store) in
  Py.files res.2 = Py.files w
  /\ Py.requests res.2 = Py.requests w
  /\ match fetch coles_store with
     | Py.Raise e => res.1 = Py.Raise e /\ Py.outbox res.2 = Py.outbox w
     | Py.Ok coles_items =>
         match fetch woolworths_store with
         | Py.Raise e => res.1 = Py.Raise e /\ Py.outbox res.2 = Py.outbox w
         | Py.Ok woolworths_items =>
             let results :=
               [("Coles", Main.find_matches lower coles_items Main.WATCHLIST);
                ("Woolworths", Main.find_matches lower woolworths_items Main.WATCHLIST)] in
             let msg := alert_message EMAIL_USER EMAIL_TO results in
             if (Py.total_len results =? 0)%nat
             then res.1 = Py.Ok tt /\ Py.outbox res.2 = Py.outbox w
             else match smtp_session SMTP_SERVER SMTP_PORT EMAIL_USER EMAIL_PASS EMAIL_TO
                                     msg with
                  | Py.Accepted =>
                      res.1 = Py.Ok tt /\ Py.outbox res.2 = Py.outbox w ++ [msg]
                  | Py.Refused e =>
                      res.1 = Py.Raise e /\ Py.outbox res.2 = Py.outbox w
                  | Py.AcceptedThenRaised e =>
                      res.1 = Py.Raise e /\ Py.outbox res.2 = Py.outbox w ++ [msg]
                  end
         end
     end.
Proof.
  cbv zeta. unfold Main.main. cbn [orb]. cbv zeta.
  change Main.STORES with [coles_store; woolworths_store]. cbn [fold_left].
  set (st1 := Main.scrape_store _ _ _ _ _ _ _ (Py.Ok [], w) coles_store).
  pose proof (scrape_store_prints_only SCRAPE_TEST_LOG (Py.Ok [], w) coles_store)
    as (O1 & R1 & F1).
  pose proof (scrape_store_result false SCRAPE_TEST_LOG [] w coles_store) as E1.
  fold st1 in O1, R1, F1, E1. cbn [snd] in O1, R1, F1.
  destruct (Main.fetch_items strip page_texts (Main.store_url coles_store) _)
    as [coles_items|e].
  - destruct st1 as [r1 w1]. cbn [fst snd] in *. subst r1.
    set (st2 := Main.scrape_store _ _ _ _ _ _ _ (Py.Ok _, w1) woolworths_store).
    pose proof (scrape_store_prints_only SCRAPE_TEST_LOG
                  (Py.Ok (Py.assign (Main.store_name coles_store)
                                    (Main.find_matches lower coles_items Main.WATCHLIST) []),
                   w1) woolworths_store) as (O2 & R2 & F2).
    pose proof (scrape_store_result false SCRAPE_TEST_LOG
                  (Py.assign (Main.store_name coles_store)
                             (Main.find_matches lower coles_items Main.WATCHLIST) [])
                  w1 woolworths_store) as E2.
    fold st2 in O2, R2, F2, E2. cbn [snd] in O2, R2, F2.
    destruct (Main.fetch_items strip page_texts (Main.store_url woolworths_store) _)
      as [woolworths_items|e].
    + destruct st2 as [r2 w2]. cbn [fst snd] in *. subst r2. cbn [fst snd].
      change (Py.assign (Main.store_name woolworths_store)
                (Main.find_matches lower woolworths_items Main.WATCHLIST)
                (Py.assign (Main.store_name coles_store)
                   (Main.find_matches lower coles_items Main.WATCHLIST) []))
        with [("Coles", Main.find_matches lower coles_items Main.WATCHLIST);
              ("Woolworths", Main.find_matches lower woolworths_items Main.WATCHLIST)].
      unfold Main.send_email_alert. cbv zeta.
      destruct (Py.total_len _ =? 0)%nat;
        cbn [andb fst snd Py.print Py.files Py.requests Py.outbox].
      * repeat split; congruence.
      * fold (alert_message EMAIL_USER EMAIL_TO
                [("Coles", Main.find_matches lower coles_items Main.WATCHLIST);
                 ("Woolworths", Main.find_matches lower woolworths_items Main.WATCHLIST)]).
        destruct (smtp_session _ _ _ _ _ _);
          cbn [andb fst snd Py.print Py.deliver Py.files Py.requests Py.outbox];
          repeat split; congruence.
    + destruct st2 as [r2 w2]. cbn [fst snd] in *. subst r2. cbn [fst snd].
      repeat split; congruence.
  - destruct st1 as [r1 w1]. cbn [fst snd] in *. subst r1.
    rewrite scrape_store_passes_exception. cbn [fst snd]. repeat split; congruence.
Qed.

(** X10. Outside the scrape test, a run of [main] writes no file and makes
    no API request. After both pages were fetched it hands one email to
    the SMTP session when some scraped item contains a keyword of the
    watchlist: the body lists, per store, the items [find_matches] keeps.
    The email is sent when the server accepts it, also when closing the
    session raises afterwards. No email is sent when nothing matches, when
    a fetch raises, or when the session raises before the server accepted
    the message. The exception of a fetch or of the session ends the run. *)
Theorem main_sends_matches_of_both_stores (w : Py.world) :
  let res := Main.main lower strip page_texts SMTP_SERVER EMAIL_USER EMAIL_PASS EMAIL_TO
               SMTP_PORT now open_error smtp_session false false SCRAPE_TEST_LOG w in
  let fetch store := Main.fetch_items strip page_texts (Main.store_url store)
                                      (Main.product_selector store) in
  Py.files res.2 = Py.files w
  /\ Py.requests res.2 = Py.requests w
  /\ match fetch coles_store with
     | Py.Raise e => res.1 = Py.Raise e /\ Py.outbox res.2 = Py.outbox w
     | Py.Ok coles_items =>
         match fetch woolworths_store with
         | Py.Raise e => res.1 = Py.Raise e /\ Py.outbox res.2 = Py.outbox w
         | Py.Ok woolworths_items =>
             let results :=
               [("Coles", Main.find_matches lower coles_items Main.WATCHLIST);
                ("Woolworths", Main.find_matches lower woolworths_items Main.WATCHLIST)] in
             let msg := alert_message EMAIL_USER EMAIL_TO results in
             if (Py.total_len results =? 0)%nat
             then res.1 = Py.Ok tt /\ Py.outbox res.2 = Py.outbox w
             else match smtp_session SMTP_SERVER SMTP_PORT EMAIL_USER EMAIL_PASS EMAIL_TO
                                     msg with
                  | Py.Accepted =>
                      res.1 = Py.Ok tt /\ Py.outbox res.2 = Py.outbox w ++ [msg]
                  | Py.Refused e =>
                      res.1 = Py.Raise e /\ Py.outbox res.2 = Py.outbox w
                  | Py.AcceptedThenRaised e =>
                      res.1 = Py.Raise e /\ Py.outbox res.2 = Py.outbox w ++ [msg]
                  end
         end
     end.
Proof.
  apply main_normal_run.
Qed.

Lemma main_scrape_test_run (SCRAPE_TEST_MODE argv_scrape_test : bool)
        (w : Py.world) :
  SCRAPE_TEST_MODE || argv_scrape_test = true ->
  let res := Main.main lower strip page_texts SMTP_SERVER EMAIL_USER EMAIL_PASS EMAIL_TO
               SMTP_PORT now open_error smtp_session SCRAPE_TEST_MODE argv_scrape_test
               SCRAPE_TEST_LOG w in
  let fetch store := Main.fetch_items strip page_texts (Main.store_url store)
                                      (Main.product_selector store) in
  logs_only SCRAPE_TEST_LOG w res.2
  /\ res.1 = match fetch coles_store with
             | Py.Raise e => Py.Raise e
             | Py.Ok _ =>
                 match fetch woolworths_store with
                 | Py.Raise e => Py.Raise e
                 | Py.Ok _ => Py.Ok tt
                 end
             end.
Proof.
  intros Hmode. cbv zeta. unfold Main.main. rewrite Hmode. cbv zeta. cbn [andb].
  set (w0 := Main.log now open_error SCRAPE_TEST_LOG _ _).
  assert (H0 : logs_only SCRAPE_TEST_LOG w w0).
  { subst w0. apply logs_only_log, logs_only_print.
    destruct (Py.str_truthy SCRAPE_TEST_LOG);
      repeat apply logs_only_print; now apply logs_only_same. }
  clearbody w0.
  change Main.STORES with [coles_store; woolworths_store]. cbn [fold_left].
  set (st1 := Main.scrape_store _ _ _ _ _ _ _ (Py.Ok [], w0) coles_store).
  pose proof (scrape_store_logs_only SCRAPE_TEST_LOG (Py.Ok [], w0) coles_store w H0) as L1.
  pose proof (scrape_store_result true SCRAPE_TEST_LOG [] w0 coles_store) as E1.
  fold st1 in L1, E1.
  set (st2 := Main.scrape_store _ _ _ _ _ _ _ st1 woolworths_store).
  pose proof (scrape_store_logs_only SCRAPE_TEST_LOG st1 woolworths_store w L1) as L2.
  fold st2 in L2.
  destruct (Main.fetch_items strip page_texts (Main.store_url coles_store) _)
    as [coles_items|e].
  - destruct st1 as [r1 w1]. cbn [fst] in E1. subst r1.
    pose proof (scrape_store_result true SCRAPE_TEST_LOG
                  (Py.assign (Main.store_name coles_store)
                             (Main.find_matches lower coles_items Main.WATCHLIST) [])
                  w1 woolworths_store) as E2.
    fold st2 in E2.
    destruct (Main.fetch_items strip page_texts (Main.store_url woolworths_store) _)
      as [woolworths_items|e].
    + destruct st2 as [r2 w2]. cbn [fst snd] in *. subst r2.
      match goal with
      | |- context [Main.send_email_alert _ _ _ _ _ _ _ _ ?m true _ w2] =>
          destruct (send_email_alert_scrape_test m SCRAPE_TEST_LOG w w2 L2) as [Hr Hw]
      end.
      destruct (Main.send_email_alert _ _ _ _ _ _ _ _ _ _ _ _) as [r3 w3].
      cbn [fst snd] in Hr, Hw. subst r3. cbn [fst snd]. split; [|reflexivity].
      destruct (Py.str_truthy SCRAPE_TEST_LOG);
        [apply logs_only_print, logs_only_log | apply logs_only_print]; assumption.
    + destruct st2 as [r2 w2]. cbn [fst snd] in *. subst r2. now split.
  - destruct st1 as [r1 w1]. cbn [fst] in E1. subst r1.
    subst st2. rewrite scrape_store_passes_exception. cbn [fst snd]. split; [|reflexivity].
    exact L1.
Qed.

(** X11. In the scrape test, a run of [main] sends no email and makes no
    API request, whatever matches; the only file it changes is the
    scrape-test log, to which it appends. The run ends with the exception
    of a fetch if one raises, and returns normally otherwise. *)
Theorem main_scrape_test_sends_nothing (SCRAPE_TEST_MODE argv_scrape_test : bool)
        (w : Py.world) :
  SCRAPE_TEST_MODE || argv_scrape_test = true ->
  let res := Main.main lower strip page_texts SMTP_SERVER EMAIL_USER EMAIL_PASS EMAIL_TO
               SMTP_PORT now open_error smtp_session SCRAPE_TEST_MODE argv_scrape_test
               SCRAPE_TEST_LOG w in
  let fetch store := Main.fetch_items strip page_texts (Main.store_url store)
                                      (Main.product_selector store) in
  logs_only SCRAPE_TEST_LOG w res.2
  /\ res.1 = match fetch coles_store with
             | Py.Raise e => Py.Raise e
             | Py.Ok _ =>
                 match fetch woolworths_store with
                 | Py.Raise e => Py.Raise e
                 | Py.Ok _ => Py.Ok tt
                 end
             end.
Proof.
  apply main_scrape_test_run.
Qed.
End ScraperRun.

Lemma main_scrape_test_sends_nothing_witness :
  logs_only "scrape_test.log" empty_world
    (Main.main ascii_lower (fun s => s) example_page_texts
       "smtp.gmail.com" "me@example.com" "secret" "me@example.com" 587
       example_now (fun _ => None) (fun _ _ _ _ _ _ => Py.Accepted)
       false true "scrape_test.log" empty_world).2.
Proof.
  apply (main_scrape_test_sends_nothing ascii_lower (fun s => s) example_page_texts
           "smtp.gmail.com" "me@example.com" "secret" "me@example.com" 587
           example_now (fun _ => None) (fun _ _ _ _ _ _ => Py.Accepted)
           "scrape_test.log" false true empty_world).
  reflexivity.
Defined.

(** ** C7: what a run leaves in files *)

Lemma download_pdf_writes urlretrieve url save_path w :
  let res := PdfParser.download_pdf urlretrieve url save_path w in
  (forall other, other <> save_path -> Py.files res.2 !! other = Py.files w !! other)
  /\ match urlretrieve url save_path with
     | Py.Retrieved content =>
         res.1 = true /\ Py.files res.2 !! save_path = Some content
     | Py.NotRetrieved _ => res.1 = false /\ Py.files res.2 = Py.files w
     | Py.Interrupted written _ =>
         res.1 = false /\ Py.files res.2 !! save_path = Some written
     end.
Proof.
  cbv zeta. unfold PdfParser.download_pdf. cbv zeta.
  destruct (urlretrieve url save_path) as [content|e|written e];
    cbn [fst snd Py.print Py.write_file Py.files]; split;
    try (intros other Hne; now rewrite ?lookup_insert_ne by congruence);
    split; try reflexivity; apply lookup_insert_eq.
Qed.


(** ** The lines of a text *)

Lemma split_not_nil sep s : Py.split sep s <> [].
Proof.
  destruct s as [|c s]; simpl; [discriminate|].
  destruct (Ascii.eqb c sep); [discriminate|]. now destruct (Py.split sep s).
Qed.

Lemma join_cons sep p q rest :
  Py.join sep (p :: q :: rest) = p +:+ sep +:+ Py.join sep (q :: rest).
Proof. reflexivity. Qed.

Lemma join_cons_char sep c p rest :
  Py.join sep (String c p :: rest) = String c (Py.join sep (p :: rest)).
Proof. destruct rest; [reflexivity|]. now rewrite !join_cons, append_cons. Qed.

(** X12. Splitting a text at a separator character, as [parse_products]
    does at the line feed, loses nothing: joining the pieces with the
    separator gives the text back, there is at least one piece, and no
    piece contains the separator. *)
Theorem split_lines_round_trip (sep : ascii) (s : string) :
  Py.join (String sep "") (Py.split sep s) = s
  /\ Py.split sep s <> []
  /\ Forall (without_char sep) (Py.split sep s).
Proof.
  split; [|split; [apply split_not_nil|]].
  - induction s as [|c s IH]; [reflexivity|]. simpl.
    destruct (Ascii.eqb_spec c sep) as [->|Hne].
    + pose proof (split_not_nil sep s) as Hn.
      destruct (Py.split sep s) as [|p rest]; [contradiction|].
      rewrite join_cons, IH. reflexivity.
    + pose proof (split_not_nil sep s) as Hn.
      destruct (Py.split sep s) as [|p rest]; [contradiction|].
      now rewrite join_cons_char, IH.
  - induction s as [|c s IH]; simpl; [repeat constructor|].
    destruct (Ascii.eqb_spec c sep) as [->|Hne].
    + constructor; [exact I | assumption].
    + destruct (Py.split sep s) as [|p rest]; [repeat constructor; assumption|].
      apply Forall_cons in IH as [Hp Hrest]. constructor; [|assumption].
      now split.
Qed.

(** ** The matcher of a catalogue *)

Section CatalogueMatcher.
Variables lower strip : string -> string.
Variable price_search : string -> option (string * string).
Variables price_sub collapse_spaces strip_bullets : string -> string.
Variables save_search percentage_search : string -> option string.
Variables PDFPLUMBER_AVAILABLE PYPDF2_AVAILABLE : bool.
Variables extract_text_pdfplumber extract_text_pypdf2
  : PdfParser.CataloguePDF -> Py.world -> Py.result string * Py.world.
Variable path_exists : string -> bool.
Variable stem : string -> string.

Lemma pdf_scan_watchlist_eq watchlist p matches :
  PdfParser.scan_watchlist lower watchlist (PdfParser.product_text lower p) p matches =
  if product_matches lower watchlist p then matches ++ [p] else matches.
Proof.
  unfold product_matches.
  induction watchlist as [|term rest IH]; simpl; [reflexivity|].
  destruct (Py.contains (lower term) (PdfParser.product_text lower p)); simpl; auto.
Qed.

Lemma parse_products_result self w :
  match (PdfParser.parse_products lower strip price_search price_sub collapse_spaces
           strip_bullets save_search percentage_search PDFPLUMBER_AVAILABLE PYPDF2_AVAILABLE
           extract_text_pdfplumber extract_text_pypdf2 self w) with
  | (Py.Ok ps, self', _) =>
      PdfParser.products self' = ps /\ NoDup (map (PdfParser.dedup_key lower) ps)
  | (Py.Raise _, self', _) => PdfParser.products self' = PdfParser.products self
  end.
Proof.
  unfold PdfParser.parse_products.
  destruct (Py.str_truthy (PdfParser.text_content self)).
  - cbn [PdfParser.products PdfParser.set_products]. split; [reflexivity|].
    apply unique_products_first_occurrences.
  - unfold PdfParser.extract_text.
    destruct PDFPLUMBER_AVAILABLE;
      [destruct (extract_text_pdfplumber self w) as [[t|e] w']
      |destruct PYPDF2_AVAILABLE;
       [destruct (extract_text_pypdf2 self w) as [[t|e] w']|]];
      cbn [PdfParser.products PdfParser.set_products PdfParser.set_text_content];
      try reflexivity;
      (split; [reflexivity|apply unique_products_first_occurrences]).
Qed.

Lemma catalogue_find_matches_filter
        (self : PdfParser.CataloguePDF) (watchlist : list string) (w : Py.world) :
  match (PdfParser.find_matches lower strip price_search price_sub collapse_spaces
           strip_bullets save_search percentage_search PDFPLUMBER_AVAILABLE PYPDF2_AVAILABLE
           extract_text_pdfplumber extract_text_pypdf2 self watchlist w) with
  | (Py.Ok matches, self', w') =>
      matches = List.filter (product_matches lower watchlist) (PdfParser.products self')
      /\ matches `sublist_of` PdfParser.products self'
      /\ (PdfParser.products self <> [] -> self' = self /\ w' = w)
  | (Py.Raise e, _, _) =>
      PdfParser.products self = [] /\ 
      (PdfParser.parse_products lower strip price_search price_sub collapse_spaces
           strip_bullets save_search percentage_search PDFPLUMBER_AVAILABLE PYPDF2_AVAILABLE
           extract_text_pdfplumber extract_text_pypdf2 self w).1.1 = Py.Raise e
  end.
Proof.
  unfold PdfParser.find_matches.
  assert (Hfold : forall ps,
             fold_left (fun matches product =>
                          PdfParser.scan_watchlist lower watchlist
                            (PdfParser.product_text lower product) product matches) ps []
             = List.filter (product_matches lower watchlist) ps).
  { intros ps. rewrite (fold_append_filter (product_matches lower watchlist)); [reflexivity|].
    intros acc p. apply pdf_scan_watchlist_eq. }
  destruct (PdfParser.products self) as [|p ps] eqn:Eps.
  - destruct (PdfParser.parse_products _ _ _ _ _ _ _ _ _ _ _ _ self w)
      as [[[parsed|e] self'] w'] eqn:Ep.
    + rewrite Hfold. split; [reflexivity|]. split; [apply bool_filter_sublist|].
      intros H. now destruct H.
    + now split.
  - rewrite Hfold, Eps. split; [reflexivity|]. split; [apply bool_filter_sublist|].
    intros _. now split.
Qed.

(** X13. [CataloguePDF.find_matches] returns the products of the
    catalogue whose lowercased name and line contain a lowercased keyword,
    in their order, each once. It parses the catalogue only when the
    object holds no products, and raises only if that parse raises. *)
Theorem catalogue_find_matches_keeps_matching_products
        (self : PdfParser.CataloguePDF) (watchlist : list string) (w : Py.world) :
  match (PdfParser.find_matches lower strip price_search price_sub collapse_spaces
           strip_bullets save_search percentage_search PDFPLUMBER_AVAILABLE PYPDF2_AVAILABLE
           extract_text_pdfplumber extract_text_pypdf2 self watchlist w) with
  | (Py.Ok matches, self', w') =>
      matches = List.filter (product_matches lower watchlist) (PdfParser.products self')
      /\ matches `sublist_of` PdfParser.products self'
      /\ (PdfParser.products self <> [] -> self' = self /\ w' = w)
  | (Py.Raise e, _, _) =>
      PdfParser.products self = [] /\ 
      (PdfParser.parse_products lower strip price_search price_sub collapse_spaces
           strip_bullets save_search percentage_search PDFPLUMBER_AVAILABLE PYPDF2_AVAILABLE
           extract_text_pdfplumber extract_text_pypdf2 self w).1.1 = Py.Raise e
  end.
Proof.
  apply catalogue_find_matches_filter.
Qed.

Lemma parse_line_parsed products line :
  Forall (parsed_from_line price_search save_search percentage_search) products ->
  Forall (parsed_from_line price_search save_search percentage_search)
         (PdfParser.parse_line strip price_search price_sub collapse_spaces strip_bullets
                               save_search percentage_search products line).
Proof.
  intros H. unfold PdfParser.parse_line. cbv zeta.
  destruct (negb (Py.str_truthy (strip line)) || (Py.len (strip line) <? 3)%nat) eqn:Eline;
    [assumption|].
  apply orb_false_elim in Eline as [_ Hlen]. apply Nat.ltb_ge in Hlen.
  destruct (price_search (strip line)) as [[units cents]|] eqn:Eprice; [|assumption].
  set (product_name := strip_bullets (collapse_spaces (strip (price_sub (strip line))))).
  destruct (Py.str_truthy product_name && (3 <? Py.len product_name)%nat) eqn:Ename;
    [|assumption].
  apply andb_prop in Ename as [Htruthy Hname]. apply Nat.ltb_lt in Hname.
  apply Forall_app. split; [assumption|]. constructor; [|constructor].
  unfold parsed_from_line. cbn [PdfParser.name PdfParser.price PdfParser.text
                                 PdfParser.save PdfParser.discount].
  repeat split; try assumption.
  - intros E. rewrite E in Htruthy. discriminate.
  - now exists units, cents.
Qed.

(** X14. Every product [parse_products] computes from a text has a name
    that is not empty and longer than three characters, a line of at
    least three characters in which the price pattern matches, the price
    ["$units.cents"] of the first match in that line, and the saving and
    the discount exactly when their patterns match in the line. *)
Theorem parsed_products_are_well_formed (text_content : string) :
  Forall (parsed_from_line price_search save_search percentage_search)
         (PdfParser.products_of_text lower strip price_search price_sub collapse_spaces
                                     strip_bullets save_search percentage_search
                                     text_content).
Proof.
  unfold PdfParser.products_of_text.
  set (parse_line := PdfParser.parse_line strip price_search price_sub collapse_spaces
                                          strip_bullets save_search percentage_search).
  assert (Hparsed : forall lines products,
             Forall (parsed_from_line price_search save_search percentage_search) products ->
             Forall (parsed_from_line price_search save_search percentage_search)
                    (fold_left parse_line lines products)).
  { induction lines as [|line lines IH]; intros products H; simpl; [assumption|].
    apply IH. now apply parse_line_parsed. }
  specialize (Hparsed (Py.split (ascii_of_nat 10) text_content) [] (Forall_nil_2 _)).
  destruct (unique_products_first_occurrences lower
              (fold_left parse_line (Py.split (ascii_of_nat 10) text_content) []))
    as (_ & Hsub & _).
  rewrite Forall_forall in Hparsed |- *. intros p Hp. apply Hparsed.
  now apply (elem_of_sublist _ _ _ Hp).
Qed.

Lemma sublist_map_keys (l1 l2 : list PdfParser.Product) :
  l1 `sublist_of` l2 ->
  map (PdfParser.dedup_key lower) l1 `sublist_of` map (PdfParser.dedup_key lower) l2.
Proof. induction 1; simpl; now constructor. Qed.

Lemma find_matches_keeps_distinct_keys self watchlist w :
  NoDup (map (PdfParser.dedup_key lower) (PdfParser.products self)) ->
  match PdfParser.find_matches lower strip price_search price_sub collapse_spaces
          strip_bullets save_search percentage_search PDFPLUMBER_AVAILABLE PYPDF2_AVAILABLE
          extract_text_pdfplumber extract_text_pypdf2 self watchlist w with
  | (Py.Ok _, self', _) => NoDup (map (PdfParser.dedup_key lower) (PdfParser.products self'))
  | (Py.Raise _, _, _) => True
  end.
Proof.
  intros Hnd. unfold PdfParser.find_matches.
  destruct (PdfParser.products self) as [|p ps] eqn:Eps.
  - pose proof (parse_products_result self w) as Hparse.
    destruct (PdfParser.parse_products _ _ _ _ _ _ _ _ _ _ _ _ self w)
      as [[[parsed|e] self'] w']; [|exact I].
    destruct Hparse as [-> H]. exact H.
  - now rewrite Eps.
Qed.

Lemma parse_products_raises self w e :
  (PdfParser.parse_products lower strip price_search price_sub collapse_spaces
     strip_bullets save_search percentage_search PDFPLUMBER_AVAILABLE PYPDF2_AVAILABLE
     extract_text_pdfplumber extract_text_pypdf2 self w).1.1 = Py.Raise e ->
  (PdfParser.extract_text PDFPLUMBER_AVAILABLE PYPDF2_AVAILABLE
     extract_text_pdfplumber extract_text_pypdf2 self w).1.1 = Py.Raise e.
Proof.
  unfold PdfParser.parse_products.
  destruct (Py.str_truthy (PdfParser.text_content self)); [discriminate|].
  destruct (PdfParser.extract_text _ _ _ _ self w) as [[[t|e'] self'] w'];
    simpl; [discriminate|]. now intros [= ->].
Qed.


End CatalogueMatcher.


(** ** Removing duplicates twice *)

Lemma keep_unseen_of_distinct lower products seen acc :
  (forall k, k ∈ seen <-> k ∈ map (PdfParser.dedup_key lower) acc) ->
  NoDup (map (PdfParser.dedup_key lower) (acc ++ products)) ->
  (fold_left (PdfParser.keep_unseen lower) products (seen, acc)).2 = acc ++ products.
Proof.
  revert seen acc. induction products as [|p ps IH]; intros seen acc Hseen Hnd.
  - now rewrite app_nil_r.
  - cbn [fold_left]. unfold PdfParser.keep_unseen at 2. cbn [fst snd].
    assert (Hp : PdfParser.dedup_key lower p ∉ seen).
    { rewrite Hseen. rewrite map_app in Hnd. apply NoDup_app in Hnd as (_ & Hdisj & _).
      intros Hin. apply (Hdisj _ Hin). simpl. now left. }
    destruct (decide (PdfParser.dedup_key lower p ∈ seen)) as [Hin|_]; [contradiction|].
    rewrite IH.
    + now rewrite <- app_assoc.
    + intros k. rewrite map_app, elem_of_app, elem_of_union, elem_of_singleton, Hseen.
      simpl. rewrite list_elem_of_singleton. split; intros [?|?]; auto.
    + now rewrite <- app_assoc.
Qed.

(** X17. The removal of duplicates in [parse_products] changes nothing in
    a list whose keys (lowercased name, price) are distinct, so removing
    duplicates a second time changes nothing. *)
Theorem unique_products_idempotent (lower : string -> string)
        (products : list PdfParser.Product) :
  (NoDup (map (PdfParser.dedup_key lower) products) ->
   PdfParser.unique_products lower products = products)
  /\ PdfParser.unique_products lower (PdfParser.unique_products lower products)
     = PdfParser.unique_products lower products.
Proof.
  assert (H : forall ps, NoDup (map (PdfParser.dedup_key lower) ps) ->
                         PdfParser.unique_products lower ps = ps).
  { intros ps Hnd. unfold PdfParser.unique_products.
    rewrite keep_unseen_of_distinct; [reflexivity| |assumption].
    intros k. simpl. split; intros Hk; [now apply not_elem_of_empty in Hk
                                       | now apply not_elem_of_nil in Hk]. }
  split; [apply H|]. apply H. apply unique_products_first_occurrences.
Qed.

Lemma unique_products_idempotent_witness :
  PdfParser.unique_products ascii_lower [example_match; example_other_price]
  = [example_match; example_other_price].
Proof.
  apply (proj1 (unique_products_idempotent ascii_lower
                  [example_match; example_other_price])).
  apply (bool_decide_unpack _). vm_compute. reflexivity.
Defined.

(** ** The entry written to the results log *)

Lemma write_all_content path writes w :
  writes <> [] ->
  Py.files (fold_left (fun w data => Py.append_file path data w) writes w)
  = <[path := default "" (Py.files w !! path) +:+ Py.join "" writes]> (Py.files w).
Proof.
  revert w. induction writes as [|data rest IH]; intros w Hne; [contradiction|].
  cbn [fold_left]. destruct rest as [|data' rest'].
  - reflexivity.
  - rewrite IH by discriminate. unfold Py.append_file at 1 2. cbn [Py.files].
    rewrite lookup_insert_eq, insert_insert_eq. simpl default. rewrite join_cons.
    now rewrite append_empty_l, append_assoc.
Qed.

Lemma write_all_stdout path writes w :
  Py.stdout (fold_left (fun w data => Py.append_file path data w) writes w) = Py.stdout w.
Proof.
  revert w. induction writes as [|d ds IH]; intros w; [reflexivity|].
  cbn [fold_left]. now rewrite IH.
Qed.


(** ** The matcher on joined lists and longer watchlists *)

Lemma find_matches_filter lower items watchlist :
  Main.find_matches lower items watchlist
  = List.filter (matches_watchlist lower watchlist) items.
Proof.
  unfold Main.find_matches.
  rewrite (fold_append_filter (matches_watchlist lower watchlist)); [reflexivity|].
  intros acc x. apply main_scan_watchlist_eq.
Qed.

Lemma filter_filter_same {A} (keep : A -> bool) (l : list A) :
  List.filter keep (List.filter keep l) = List.filter keep l.
Proof.
  induction l as [|x l IH]; [reflexivity|]. simpl.
  destruct (keep x) eqn:E; simpl; rewrite ?E, IH; reflexivity.
Qed.

(** X19. [find_matches] works item by item: the matches of two lists put
    together are the matches of the first followed by those of the second;
    matching the matches again changes nothing; and an empty watchlist
    matches no item. *)
Theorem find_matches_is_itemwise (lower : string -> string)
        (items items' watchlist : list string) :
  Main.find_matches lower (items ++ items') watchlist
  = Main.find_matches lower items watchlist ++ Main.find_matches lower items' watchlist
  /\ Main.find_matches lower (Main.find_matches lower items watchlist) watchlist
     = Main.find_matches lower items watchlist
  /\ Main.find_matches lower items [] = [].
Proof.
  rewrite !find_matches_filter. split; [apply List.filter_app|].
  split; [apply filter_filter_same|].
  induction items as [|x l IH]; [reflexivity|exact IH].
Qed.

(** X20. Adding keywords to the watchlist never loses a match: the
    matches for a watchlist are among the matches for any watchlist that
    extends it, in the same order. *)
Theorem find_matches_grows_with_watchlist (lower : string -> string)
        (items watchlist more : list string) :
  Main.find_matches lower items watchlist
  `sublist_of` Main.find_matches lower items (watchlist ++ more).
Proof.
  rewrite !find_matches_filter.
  induction items as [|x l IH]; simpl; [constructor|].
  assert (E : matches_watchlist lower (watchlist ++ more) x
              = matches_watchlist lower watchlist x || matches_watchlist lower more x)
    by apply existsb_app.
  rewrite E.
  destruct (matches_watchlist lower watchlist x); simpl; [now constructor|].
  destruct (matches_watchlist lower more x); [now constructor|assumption].
Qed.

(** ** The stores of the offers found *)

Lemma two_stores_iff (l : list string) :
  Forall (fun s => s = "Coles" \/ s = "Woolworths") l ->
  2 <= base.size (list_to_set l : gset string) <-> In "Coles" l /\ In "Woolworths" l.
Proof.
  intros Hall. rewrite <- !list_elem_of_In.
  assert (Hsub : (list_to_set l : gset string) ⊆ {["Coles"; "Woolworths"]}).
  { intros s Hs. apply elem_of_list_to_set in Hs.
    rewrite Forall_forall in Hall. destruct (Hall s Hs) as [-> | ->]; set_solver. }
  split.
  - intros Hsize. split.
    + destruct (decide ("Coles" ∈ l)) as [|Hn]; [assumption|exfalso].
      assert (Hs : (list_to_set l : gset string) ⊆ {["Woolworths"]}).
      { intros s Hs. pose proof (Hsub s Hs) as H. apply elem_of_list_to_set in Hs.
        apply elem_of_union in H as [H|H]; [|assumption].
        apply elem_of_singleton in H. subst s. contradiction. }
      apply subseteq_size in Hs. rewrite size_singleton in Hs. lia.
    + destruct (decide ("Woolworths" ∈ l)) as [|Hn]; [assumption|exfalso].
      assert (Hs : (list_to_set l : gset string) ⊆ {["Coles"]}).
      { intros s Hs. pose proof (Hsub s Hs) as H. apply elem_of_list_to_set in Hs.
        apply elem_of_union in H as [H|H]; [assumption|].
        apply elem_of_singleton in H. subst s. contradiction. }
      apply subseteq_size in Hs. rewrite size_singleton in Hs. lia.
  - intros [Hc Hw].
    assert (Hs : ({["Coles"; "Woolworths"]} : gset string) ⊆ list_to_set l).
    { intros s Hs. apply elem_of_list_to_set.
      apply elem_of_union in Hs as [Hs|Hs]; apply elem_of_singleton in Hs; now subst s. }
    apply subseteq_size in Hs.
    rewrite size_union, !size_singleton in Hs; [exact Hs|].
    intros s H1 H2. apply elem_of_singleton in H1, H2. subst s. discriminate.
Qed.

(** X21. The offers [find_offers_for_watch_item] returns come from two
    stores or more, which is when the report adds the cheapest-overall
    line for them, exactly when there is an offer of Coles and an offer
    of Woolworths among them. *)
Theorem found_offers_compare_two_stores
        (float_of_str : string -> Py.result spec_float) (repr : Py.value -> string)
        (RAPIDAPI_KEY : string)
        (respond : list Py.request -> Py.request -> Py.result Py.value)
        (watch_item : WatchItem) (w : Py.world) :
  let offers :=
    (find_offers_for_watch_item float_of_str repr RAPIDAPI_KEY respond watch_item w).1 in
  2 <= distinct_stores offers <->
  (exists o, In o offers /\ store o = "Coles")
  /\ (exists o, In o offers /\ store o = "Woolworths").
Proof.
  cbv zeta.
  pose proof (found_offers_fields float_of_str repr RAPIDAPI_KEY respond
                watch_item w) as Hall.
  set (offers := (find_offers_for_watch_item _ _ _ _ _ _).1) in *.
  unfold distinct_stores. rewrite two_stores_iff.
  - rewrite !in_map_iff. split; intros [[o1 H1] [o2 H2]]; split;
      [exists o1| exists o2| exists o1 | exists o2]; tauto.
  - rewrite List.Forall_forall in Hall. apply List.Forall_forall.
    intros s Hs. apply in_map_iff in Hs as (o & <- & Ho).
    now destruct (Hall o Ho) as (_ & H & _).
Qed.
